(** * CleanSky backend (main.py): fetch, cache and aggregate

    A shallow embedding of the endpoint functions of [main.py] and the
    properties of its fetch-cache-aggregate core.

    Modelling conventions
    - Python objects that flow through the code (decoded JSON, payloads,
      dictionary keys) are an inductive type [value]; numbers are exact
      rationals, so the rounding of Python floats is outside the model.
    - A [datetime] is its number of microseconds since the epoch (the
      resolution of Python's datetime), a [timedelta] a difference of two.
    - The outside world (network, clocks, random source) is an abstract
      state [World] that every effectful library call reads and advances.
    - A request, the check of its status and the decoding of its body are
      one step for the endpoints; the fetcher is also studied by the
      response it gets (status code and body).
    - Endpoint functions are computations in a state-and-exception monad
      over the module-level [CACHE] and the world. *)

From Stdlib Require Import ZArith QArith Qround String List Lia Lqa Sorting.Sorted
  OrderedTypeEx.
From stdpp Require Import gmap strings.

Open Scope Z_scope.

(** ** Python values *)

#[local] Set Warnings "-register-all".

Inductive value : Type :=
| VNone
| VBool (b : bool)
| VNum (q : Q)
| VStr (s : string)
| VList (l : list value)
| VDict (d : list (value * value)).

(** Exceptions the code can meet.  [requests] reports a transport failure
    ([ConnectionError], [Timeout]), an error status ([HTTPError], from
    [raise_for_status]) and an undecodable body ([JSONDecodeError], from
    [json()], in requests 2.27 and later) as subclasses of
    [requests.RequestException]. *)
Inductive request_failure : Type :=
| ConnectionError
| Timeout
| HTTPError (status : Z)
| JSONDecodeError.

Inductive exception : Type :=
| RequestException (kind : request_failure) (message : string)
| HTTPException (status_code : Z) (detail : string)
| KeyError
| TypeError
| AttributeError
| OverflowError.

Inductive result (A : Type) : Type :=
| Ok (a : A)
| Raise (e : exception).
Arguments Ok {A} a.
Arguments Raise {A} e.

Definition Qlt_bool (a b : Q) : bool := negb (Qle_bool b a).

(** [bool(v)]: Python truthiness. *)
Definition py_truthy (v : value) : bool :=
  match v with
  | VNone => false
  | VBool b => b
  | VNum q => negb (Qeq_bool q 0)
  | VStr s => negb (String.eqb s "")
  | VList l => match l with [] => false | _ => true end
  | VDict d => match d with [] => false | _ => true end
  end.

(** Numbers in arithmetic: [bool] is a subclass of [int]. *)
Definition as_number (v : value) : option Q :=
  match v with
  | VNum q => Some q
  | VBool b => Some (if b then 1%Q else 0%Q)
  | _ => None
  end.

Definition hashable (v : value) : bool :=
  match v with
  | VList _ | VDict _ => false
  | _ => true
  end.

(** Equality of dictionary keys and set members: numbers (and booleans)
    compare by value, strings by content. *)
Definition key_eqb (a b : value) : bool :=
  match a, b with
  | VNone, VNone => true
  | VStr s, VStr t => String.eqb s t
  | (VNum _ | VBool _), (VNum _ | VBool _) =>
      match as_number a, as_number b with
      | Some x, Some y => Qeq_bool x y
      | _, _ => false
      end
  | _, _ => false
  end.

(** Lookup in a dict kept in insertion order. *)
Fixpoint dict_lookup (k : value) (d : list (value * value)) : option value :=
  match d with
  | [] => None
  | (k', v) :: rest => if key_eqb k' k then Some v else dict_lookup k rest
  end.

(** [o.get(k, default)]: only dicts have the method. *)
Definition py_get (o : value) (k : string) (default : value) : result value :=
  match o with
  | VDict d => Ok (match dict_lookup (VStr k) d with Some v => v | None => default end)
  | _ => Raise AttributeError
  end.

(** [o[k]] with a string key. *)
Definition py_getitem (o : value) (k : string) : result value :=
  match o with
  | VDict d => match dict_lookup (VStr k) d with Some v => Ok v | None => Raise KeyError end
  | _ => Raise TypeError
  end.

(** The items of a loop over a string: one-character strings.  (One per
    byte here; the code never gets past the first item of such a loop.) *)
Fixpoint chars (s : string) : list value :=
  match s with
  | EmptyString => []
  | String c rest => VStr (String c EmptyString) :: chars rest
  end.

(** [for x in o]: the items a loop over [o] visits. *)
Definition py_iter (o : value) : result (list value) :=
  match o with
  | VList l => Ok l
  | VStr s => Ok (chars s)
  | VDict d => Ok (map fst d)
  | _ => Raise TypeError
  end.

(** The exception monad of effect-free code. *)
Definition rbind {A B} (r : result A) (k : A -> result B) : result B :=
  match r with
  | Ok a => k a
  | Raise e => Raise e
  end.

Notation "x <~ r ;; k" := (rbind r (fun x => k))
  (at level 100, r at next level, right associativity).

(** A [for] loop over [items] that updates the local variables [acc]. *)
Fixpoint fold_result {X L} (f : X -> L -> result L) (items : list X) (acc : L) : result L :=
  match items with
  | [] => Ok acc
  | x :: rest => acc' <~ f x acc ;; fold_result f rest acc'
  end.

(** [range(n)]. *)
Definition py_range (n : Z) : list Z := map Z.of_nat (seq 0 (Z.to_nat n)).

(** [x + n] for a number [n]. *)
Definition py_add_number (x : value) (n : Q) : result Q :=
  match as_number x with
  | Some q => Ok (q + n)%Q
  | None => Raise TypeError
  end.

(** [sum(vals)], from the start value 0. *)
Fixpoint py_sum (vals : list value) (start : Q) : result Q :=
  match vals with
  | [] => Ok start
  | v :: rest =>
      match as_number v with
      | Some q => py_sum rest (start + q)%Q
      | None => Raise TypeError
      end
  end.

(** [round(x, 1)]: to the nearest tenth, a tie to the even one. *)
Definition round_half_even (x : Q) : Z :=
  let f := Qfloor x in
  match ((x - inject_Z f) ?= 1 # 2)%Q with
  | Lt => f
  | Gt => f + 1
  | Eq => if Z.even f then f else f + 1
  end.

Definition py_round1 (x : Q) : Q := Qmake (round_half_even (x * 10)) 10.

(** [max(0, x)]. *)
Definition py_max0 (x : Q) : Q := if Qlt_bool 0 x then x else 0%Q.

(** [s.add(v)] on a set, kept as the list of its distinct members. *)
Definition set_add (v : value) (members : list value) : result (list value) :=
  if hashable v then
    Ok (if existsb (key_eqb v) members then members else members ++ [v])
  else Raise TypeError.

(** [a < b] between members of a set: numbers among themselves, strings
    among themselves by code point; anything else is a [TypeError]. *)
Definition py_lt (a b : value) : result bool :=
  match a, b with
  | VStr s, VStr t => Ok (String.ltb s t)
  | (VNum _ | VBool _), (VNum _ | VBool _) =>
      match as_number a, as_number b with
      | Some x, Some y => Ok (Qlt_bool x y)
      | _, _ => Raise TypeError
      end
  | _, _ => Raise TypeError
  end.

(** [sorted(l)] for the members of a set: they are pairwise distinct, so
    the ascending order is unique, and a pair that cannot be compared makes
    any sort raise. *)
Fixpoint insert_sorted (x : value) (l : list value) : result (list value) :=
  match l with
  | [] => Ok [x]
  | y :: rest =>
      b <~ py_lt x y ;;
      if b then Ok (x :: l) else (r <~ insert_sorted x rest ;; Ok (y :: r))
  end.

Fixpoint py_sorted (l : list value) : result (list value) :=
  match l with
  | [] => Ok []
  | x :: rest => r <~ py_sorted rest ;; insert_sorted x r
  end.

(** [d.setdefault(param, []).append(v)] on a dict of lists. *)
Fixpoint append_under (param v : value) (d : list (value * list value))
    : list (value * list value) :=
  match d with
  | [] => [(param, [v])]
  | (k, vs) :: rest =>
      if key_eqb k param then (k, vs ++ [v]) :: rest
      else (k, vs) :: append_under param v rest
  end.

Definition setdefault_append (param v : value) (d : list (value * list value))
    : result (list (value * list value)) :=
  if hashable param then Ok (append_under param v d) else Raise TypeError.

(** ** Time *)

Definition datetime := Z.
Definition timedelta := Z.

(** [timedelta.total_seconds()], exactly.  Python returns the nearest
    float, which lies on the same side of 3600 as the exact quotient. *)
Definition total_seconds (d : timedelta) : Q := d # 1000000.

Definition timedelta_days (n : Z) : timedelta := n * 86400000000.

(** [datetime.date()], as a day number. *)
Definition date_of (t : datetime) : Z := t / 86400000000.

(** [datetime.min] and [datetime.max]; arithmetic leaving the range raises. *)
Definition datetime_min : datetime := -62135596800000000.
Definition datetime_max : datetime := 253402300799999999.

Definition datetime_add (t : datetime) (d : timedelta) : result datetime :=
  if (datetime_min <=? t + d) && (t + d <=? datetime_max) then Ok (t + d)
  else Raise OverflowError.

(** ** Configuration (lines 26-30) *)

Definition headers_t := list (string * string).

Definition OPENMETEO_BASE : string := "https://api.open-meteo.com/v1/forecast".
Definition CACHE_TTL : Z := 3600.

Record cache_entry : Type := { data : value; timestamp : datetime }.

Definition is_fresh (now : datetime) (e : cache_entry) : bool :=
  Qlt_bool (total_seconds (now - timestamp e)) (inject_Z CACHE_TTL).

(** ** Responses (lines 62-64) *)

(** What [requests.get] returns when the exchange itself worked: the status
    code, the message [raise_for_status] gives its [HTTPError] for this
    response, and what [json()] makes of the body -- the decoded value, or
    the message of its [JSONDecodeError]. *)
Record Response : Type := {
  status_code : Z;
  status_message : string;
  json : string + value
}.

(** [resp.raise_for_status()]: an [HTTPError] for the client and server
    error codes, nothing for any other code. *)
Definition raise_for_status (resp : Response) : result unit :=
  if (400 <=? status_code resp) && (status_code resp <? 600)
  then Raise (RequestException (HTTPError (status_code resp)) (status_message resp))
  else Ok tt.

(** [resp.json()]. *)
Definition response_json (resp : Response) : result value :=
  match json resp with
  | inr v => Ok v
  | inl message => Raise (RequestException JSONDecodeError message)
  end.

(** [resp.raise_for_status()] followed by [resp.json()]: the decoded body,
    or the [RequestException] one of the two raised. *)
Definition checked_json (resp : Response) : request_failure * string + value :=
  match raise_for_status resp with
  | Ok _ =>
      match response_json resp with
      | Ok v => inr v
      | Raise (RequestException kind message) => inl (kind, message)
      | Raise _ => inl (JSONDecodeError, "")
      end
  | Raise (RequestException kind message) => inl (kind, message)
  | Raise _ => inl (HTTPError (status_code resp), status_message resp)
  end.

(** What the specification counts as a failed upstream call, as the code
    tells it: the exchange failed, the status is a client or server error,
    or the body cannot be decoded. *)
Definition upstream_failed (r : request_failure * string + Response) : Prop :=
  match r with
  | inl _ => True
  | inr resp => 400 <= status_code resp < 600 \/ exists message, json resp = inl message
  end.

(** ** The program, over an abstract outside world *)

(** What an endpoint hands back: a payload to serialise, or an explicit
    [JSONResponse]. *)
Inductive response : Type :=
| Payload (v : value)
| JSONResponse (status_code : Z) (content : value).

Section Program.

(** The state of everything outside the process. *)
Variable World : Type.

(** Lines 62-64 (and their copies in the other endpoints):
    [resp = requests.get(url, headers=..., timeout=...)],
    [resp.raise_for_status()], [resp.json()].  The answer is the decoded
    body, or the [RequestException] one of the three calls raised. *)
Variable requests_get_json :
  string -> option headers_t -> Z -> World -> (request_failure * string + value) * World.

Variable datetime_now : World -> datetime * World.
Variable datetime_utcnow : World -> datetime * World.

(** [random.uniform(a, b)], which lies between its bounds. *)
Variable random_uniform : Q -> Q -> World -> Q * World.
Hypothesis random_uniform_range :
  forall a b w, (a <= b)%Q -> (a <= fst (random_uniform a b w) <= b)%Q.

(** [datetime.isoformat()], [date.isoformat()] (of a day number) and the
    text an f-string inserts for a value. *)
Variable datetime_isoformat : datetime -> string.
Variable date_isoformat : Z -> string.
Variable py_format : value -> string.

(** [os.getenv("OPENAQ_API_KEY")]. *)
Variable OPENAQ_API_KEY : option string.

Definition HEADERS : headers_t :=
  match OPENAQ_API_KEY with
  | Some k => if String.eqb k "" then [] else [("X-API-Key", k)]
  | None => []
  end.

(** Process state: the module-level [CACHE] dict, the world, and a record of
    the URLs requested so far (a ghost field, for counting upstream calls). *)
Record State : Type := {
  CACHE : gmap string cache_entry;
  world : World;
  upstream_calls : list string
}.

Definition M (A : Type) : Type := State -> result A * State.

Definition ret {A} (a : A) : M A := fun s => (Ok a, s).

Definition raise {A} (e : exception) : M A := fun s => (Raise e, s).

Definition bind {A B} (m : M A) (k : A -> M B) : M B :=
  fun s => match m s with
           | (Ok a, s') => k a s'
           | (Raise e, s') => (Raise e, s')
           end.

Definition lift {A} (r : result A) : M A := fun s => (r, s).

Notation "x <- m ;; k" := (bind m (fun x => k))
  (at level 100, m at next level, right associativity).
Notation "m ;;; k" := (bind m (fun _ => k))
  (at level 100, right associativity).

(** [try: body except ...]: [handler e] is the clause that accepts [e], if
    one does.  An exception raised by a clause is not offered to the others. *)
Definition try_except {A} (body : M A) (handler : exception -> option (M A)) : M A :=
  fun s => match body s with
           | (Raise e, s') =>
               match handler e with
               | Some h => h s'
               | None => (Raise e, s')
               end
           | r => r
           end.

(** A loop whose body has effects, and a list comprehension of that kind. *)
Fixpoint for_each {X L} (items : list X) (body : X -> L -> M L) (acc : L) : M L :=
  match items with
  | [] => ret acc
  | x :: rest => acc' <- body x acc ;; for_each rest body acc'
  end.

Fixpoint comprehension {X Y} (items : list X) (f : X -> M Y) : M (list Y) :=
  match items with
  | [] => ret []
  | x :: rest => y <- f x ;; ys <- comprehension rest f ;; ret (y :: ys)
  end.

(** Effects. *)
Definition now_ : M datetime :=
  fun s => let (t, w) := datetime_now (world s) in
           (Ok t, {| CACHE := CACHE s; world := w; upstream_calls := upstream_calls s |}).

Definition utcnow_ : M datetime :=
  fun s => let (t, w) := datetime_utcnow (world s) in
           (Ok t, {| CACHE := CACHE s; world := w; upstream_calls := upstream_calls s |}).

Definition uniform_ (a b : Q) : M Q :=
  fun s => let (x, w) := random_uniform a b (world s) in
           (Ok x, {| CACHE := CACHE s; world := w; upstream_calls := upstream_calls s |}).

Definition get_json (url : string) (headers : option headers_t) (timeout : Z) : M value :=
  fun s => let (r, w) := requests_get_json url headers timeout (world s) in
           let s' := {| CACHE := CACHE s; world := w;
                        upstream_calls := upstream_calls s ++ [url] |} in
           match r with
           | inr body => (Ok body, s')
           | inl (k, msg) => (Raise (RequestException k msg), s')
           end.

Definition read_CACHE : M (gmap string cache_entry) := fun s => (Ok (CACHE s), s).

(** [CACHE[key] = {"data": d, "timestamp": t}]. *)
Definition store_CACHE (key : string) (d : value) (t : datetime) : M unit :=
  fun s => (Ok tt, {| CACHE := <[key := {| data := d; timestamp := t |}]> (CACHE s);
                      world := world s; upstream_calls := upstream_calls s |}).

(** [log(...)] prints a line; it touches nothing the model tracks. *)
Definition log : M unit := ret tt.

(** [cache_key in CACHE and (now - CACHE[cache_key]["timestamp"]).total_seconds() < CACHE_TTL],
    giving the entry's data when the test holds. *)
Definition cache_hit (cache : gmap string cache_entry) (key : string) (now : datetime)
    : option value :=
  match cache !! key with
  | Some e => if is_fresh now e then Some (data e) else None
  | None => None
  end.

(** [cache_key or url] (line 53). *)
Definition key_or_url (cache_key : option string) (url : string) : string :=
  match cache_key with
  | Some k => if String.eqb k "" then url else k
  | None => url
  end.

(** Lines 48-71. *)
Definition fetch_and_cache (url : string) (headers : option headers_t)
    (fallback_data : value) (cache_key : option string) : M value :=
  let cache_key := key_or_url cache_key url in
  now <- now_ ;;
  cache <- read_CACHE ;;
  match cache_hit cache cache_key now with
  | Some d => ret d
  | None =>
      try_except
        (d <- get_json url headers 10 ;;
         store_CACHE cache_key d now ;;;
         ret d)
        (fun e => match e with
                  | RequestException _ _ => Some (log ;;; ret fallback_data)
                  | _ => None
                  end)
  end.

(** *** / and /countries (lines 75-89) *)

Definition read_root : M value :=
  ret (VDict [(VStr "message", VStr "Welcome to the CleanSky API!")]).

Definition country_record (code name : string) : value :=
  VDict [(VStr "code", VStr code); (VStr "name", VStr name)].

Definition countries_fallback : value :=
  VDict [(VStr "results",
          VList [country_record "UZ" "Uzbekistan"; country_record "US" "United States"])].

(** A list comprehension without effects. *)
Fixpoint map_result {X Y} (f : X -> result Y) (items : list X) : result (list Y) :=
  match items with
  | [] => Ok []
  | x :: rest => y <~ f x ;; ys <~ map_result f rest ;; Ok (y :: ys)
  end.

(** Line 88, for one [c]: [{"code": c["code"], "name": c["name"]}]. *)
Definition country_entry (c : value) : result value :=
  code <~ py_getitem c "code" ;;
  name <~ py_getitem c "name" ;;
  Ok (VDict [(VStr "code", code); (VStr "name", name)]).

(** Lines 88-89, from the fetched [data] on. *)
Definition countries_of (data : value) : result value :=
  results <~ py_get data "results" (VList []) ;;
  items <~ py_iter results ;;
  countries <~ map_result country_entry items ;;
  Ok (VDict [(VStr "countries", VList countries)]).

Definition countries_url : string := "https://api.openaq.org/v3/countries".

Definition get_countries : M value :=
  data <- fetch_and_cache countries_url (Some HEADERS) countries_fallback (Some "countries") ;;
  lift (countries_of data).

(** *** /cities (lines 92-112) *)

Definition city_entry (c : value) : value := VDict [(VStr "city", c)].

Definition fallback_results : list value :=
  [city_entry (VStr "Tashkent"); city_entry (VStr "New York"); city_entry (VStr "Delhi")].

(** Lines 103-104, for one [loc]. *)
Definition add_city (loc : value) (cities : list value) : result (list value) :=
  boundary <~ py_get loc "boundary" VNone ;;
  if py_truthy boundary then
    boundary <~ py_getitem loc "boundary" ;;
    city <~ py_get boundary "city" VNone ;;
    if py_truthy city then
      boundary <~ py_getitem loc "boundary" ;;
      city <~ py_getitem boundary "city" ;;
      set_add city cities
    else Ok cities
  else Ok cities.

(** Lines 101-112, from the fetched [data] on. *)
Definition cities_of (data : value) : result value :=
  results <~ py_get data "results" (VList []) ;;
  locs <~ py_iter results ;;
  cities <~ fold_result add_city locs [] ;;
  sorted_cities <~ py_sorted cities ;;
  match sorted_cities with
  | [] => Ok (VDict [(VStr "cities", VList fallback_results)])
  | _ => Ok (VDict [(VStr "cities", VList (map city_entry sorted_cities))])
  end.

Definition cities_url (country : string) : string :=
  "https://api.openaq.org/v3/locations?country=" +:+ country +:+ "&limit=1000".

Definition get_cities (country : string) : M value :=
  let url := cities_url country in
  data <- fetch_and_cache url (Some HEADERS) (VDict [(VStr "results", VList [])])
            (Some ("cities_" +:+ country)) ;;
  lift (cities_of data).

(** *** /air-quality (lines 116-190) *)

(** Lines 158-161, for one measurement [m]. *)
Definition add_measurement (m : value) (aggregated_values : list (value * list value))
    : result (list (value * list value)) :=
  param <~ py_getitem m "parameter" ;;
  v <~ py_getitem m "value" ;;
  setdefault_append param v aggregated_values.

(** Lines 156-161, for one [station] of [latest_data]; the locals are
    [aggregated_values] and [all_stations]. *)
Definition add_station (station : value) (acc : list (value * list value) * list value)
    : result (list (value * list value) * list value) :=
  let all_stations := snd acc ++ [station] in
  measurements <~ py_get station "measurements" (VList []) ;;
  ms <~ py_iter measurements ;;
  aggregated_values <~ fold_result add_measurement ms (fst acc) ;;
  Ok (aggregated_values, all_stations).

Definition latest_url (location_name : value) : string :=
  "https://api.openaq.org/v3/latest?location=" +:+ py_format location_name +:+ "&limit=200".

(** Lines 144-164, for one [loc] of [loc_data]. *)
Definition visit_location (loc : value) (acc : list (value * list value) * list value)
    : M (list (value * list value) * list value) :=
  name <- lift (py_get loc "name" VNone) ;;
  location_name <-
    (if py_truthy name then ret name else lift (py_get loc "location" VNone)) ;;
  if negb (py_truthy location_name) then ret acc
  else
    try_except
      (latest_body <- get_json (latest_url location_name) (Some HEADERS) 10 ;;
       latest_data <- lift (py_get latest_body "results" (VList [])) ;;
       stations <- lift (py_iter latest_data) ;;
       lift (fold_result add_station stations acc))
      (fun e => match e with
                | RequestException _ _ => Some (log ;;; ret acc)
                | _ => None
                end).

(** Line 167: [{param: sum(vals) / len(vals) for param, vals in ... if vals}]. *)
Fixpoint averages (aggregated_values : list (value * list value))
    : result (list (value * value)) :=
  match aggregated_values with
  | [] => Ok []
  | (param, vals) :: rest =>
      match vals with
      | [] => averages rest
      | _ =>
          total <~ py_sum vals 0 ;;
          avg <~ averages rest ;;
          Ok ((param, VNum (total / inject_Z (Z.of_nat (length vals)))) :: avg)
      end
  end.

Definition air_quality_result (avg : list (value * value)) (t : datetime)
    (all_stations : list value) : value :=
  VDict [(VStr "aggregated", VDict avg);
         (VStr "last_updated", VStr (datetime_isoformat t +:+ "Z"));
         (VStr "locations", VList all_stations)].

Definition dummy_aggregated : list (value * value) :=
  [(VStr "pm25", VNum 20); (VStr "pm10", VNum 35); (VStr "no2", VNum 15)].

Definition loc_url (city : string) : string :=
  "https://api.openaq.org/v3/locations?city=" +:+ city +:+ "&limit=5".

Definition air_quality_key (city : string) : string := "air_quality_" +:+ city.

(** Lines 140-178: the aggregation proper, once [loc_data] is known to be
    non-empty. *)
Definition aggregate (cache_key : string) (now : datetime) (loc_data : value) : M response :=
  locs <- lift (py_iter loc_data) ;;
  acc <- for_each locs visit_location ([], []) ;;
  avg <- lift (averages (fst acc)) ;;
  t <- utcnow_ ;;
  let result := air_quality_result avg t (snd acc) in
  store_CACHE cache_key result now ;;;
  ret (Payload result).

Definition air_quality (city : string) : M response :=
  let cache_key := air_quality_key city in
  now <- now_ ;;
  cache <- read_CACHE ;;
  match cache_hit cache cache_key now with
  | Some d => ret (Payload d)
  | None =>
      try_except
        (loc_body <- get_json (loc_url city) (Some HEADERS) 10 ;;
         loc_data <- lift (py_get loc_body "results" (VList [])) ;;
         if negb (py_truthy loc_data) then
           raise (HTTPException 404 "No locations found for this city.")
         else aggregate cache_key now loc_data)
        (fun e => match e with
                  | RequestException _ _ =>
                      Some (log ;;;
                            t <- utcnow_ ;;
                            ret (Payload (air_quality_result dummy_aggregated t [])))
                  | HTTPException status_code detail =>
                      Some (ret (JSONResponse status_code (VDict [(VStr "detail", VStr detail)])))
                  | _ => None
                  end)
  end.

(** *** /measurements (lines 193-206) *)

Definition timedelta_hours (n : Z) : timedelta := n * 3600000000.

Definition measurements (location parameter : string) (limit : Z) : M value :=
  let url := "https://api.openaq.org/v3/measurements?location=" +:+ location
             +:+ "&parameter=" +:+ parameter
             +:+ "&limit=" +:+ py_format (VNum (inject_Z limit)) +:+ "&sort=desc" in
  results <- comprehension (py_range limit)
               (fun i =>
                  t <- utcnow_ ;;
                  t' <- lift (datetime_add t (- timedelta_hours i)) ;;
                  ret (VDict [(VStr "date", VDict [(VStr "utc", VStr (datetime_isoformat t' +:+ "Z"))]);
                              (VStr "value", VNum (inject_Z (10 + i mod 5)))])) ;;
  let fallback := VDict [(VStr "results", VList results)] in
  fetch_and_cache url (Some HEADERS) fallback
    (Some ("measurements_" +:+ location +:+ "_" +:+ parameter)).

(** *** /weather (lines 209-220) *)

Definition current_weather_url (lat lon : Q) : string :=
  OPENMETEO_BASE +:+ "?latitude=" +:+ py_format (VNum lat) +:+ "&longitude="
  +:+ py_format (VNum lon) +:+ "&current_weather=true&timezone=auto".

Definition current_weather (lat lon : Q) : M value :=
  try_except
    (data <- get_json (current_weather_url lat lon) None 8 ;;
     cw <- lift (py_get data "current_weather" VNone) ;;
     ret (VDict [(VStr "source", VStr "open-meteo"); (VStr "current_weather", cw)]))
    (fun e => match e with
              | RequestException _ msg =>
                  Some (log ;;;
                        raise (HTTPException 502 ("Open-Meteo request failed: " +:+ msg)))
              | _ => None
              end).

(** *** /forecast (lines 223-251) *)

Definition forecast_url (lat lon : Q) (days : Z) : string :=
  OPENMETEO_BASE +:+ "?latitude=" +:+ py_format (VNum lat) +:+ "&longitude="
  +:+ py_format (VNum lon)
  +:+ "&daily=temperature_2m_max,temperature_2m_min,precipitation_sum&timezone=auto&forecast_days="
  +:+ py_format (VNum (inject_Z days)).

(** Lines 236-242: the base temperature of the naive forecast. *)
Definition base_temperature (lat lon : Q) : M value :=
  try_except
    (cw_body <- get_json (current_weather_url lat lon) None 6 ;;
     cw <- lift (py_get cw_body "current_weather" (VDict [])) ;;
     lift (py_get cw "temperature" (VNum 20)))
    (fun _ => Some (ret (VNum 20))).

(** Lines 244-251. *)
Definition naive_forecast (temp : value) (days : Z) : M value :=
  base <- utcnow_ ;;
  dates <- comprehension (py_range days)
             (fun i => t <- lift (datetime_add base (timedelta_days i)) ;;
                       ret (VStr (date_isoformat (date_of t)))) ;;
  tmax <- comprehension (py_range days)
            (fun _ => x <- lift (py_add_number temp 5) ;;
                      u <- uniform_ (-3) 3 ;;
                      ret (VNum (py_round1 (x + u)))) ;;
  tmin <- comprehension (py_range days)
            (fun _ => x <- lift (py_add_number temp (-2)) ;;
                      u <- uniform_ (-3) 3 ;;
                      ret (VNum (py_round1 (x + u)))) ;;
  precip <- comprehension (py_range days)
              (fun _ => u <- uniform_ 0 5 ;;
                        ret (VNum (py_round1 (py_max0 u)))) ;;
  ret (VDict [(VStr "source", VStr "fallback");
              (VStr "daily", VDict [(VStr "time", VList dates);
                                    (VStr "temperature_2m_max", VList tmax);
                                    (VStr "temperature_2m_min", VList tmin);
                                    (VStr "precipitation_sum", VList precip)])]).

Definition forecast (lat lon : Q) (days : Z) : M value :=
  try_except
    (data <- get_json (forecast_url lat lon days) None 10 ;;
     daily <- lift (py_get data "daily" (VDict [])) ;;
     ret (VDict [(VStr "source", VStr "open-meteo"); (VStr "daily", daily)]))
    (fun e => match e with
              | RequestException _ _ =>
                  Some (log ;;;
                        temp <- base_temperature lat lon ;;
                        naive_forecast temp days)
              | _ => None
              end).

(** ** Vocabulary of the properties *)

(** Exceptions caused by the shape of the data or by date arithmetic leaving
    its range, as opposed to an upstream failure or an HTTP error response. *)
Definition data_error (e : exception) : bool :=
  match e with
  | RequestException _ _ | HTTPException _ _ => false
  | _ => true
  end.

(** An effect-free computation that raises nothing but data errors. *)
Definition pure_tame {A} (r : result A) : Prop :=
  forall e, r = Raise e -> data_error e = true.

(** A computation that leaves [CACHE] alone, only adds to the record of
    upstream calls and raises nothing but data errors. *)
Definition tame {A} (m : M A) : Prop :=
  forall s,
    CACHE (snd (m s)) = CACHE s /\
    (exists calls, upstream_calls (snd (m s)) = upstream_calls s ++ calls) /\
    (forall e, fst (m s) = Raise e -> data_error e = true).

Definition not_found_response : response :=
  JSONResponse 404 (VDict [(VStr "detail", VStr "No locations found for this city.")]).

(** The two answers to the station lookup that end a run of [air_quality]
    early: the call failed, or it succeeded and [results] is empty by the
    test of line 137 (an empty list, or no list at all). *)
Definition lookup_failed (r : request_failure * string + value) : Prop :=
  exists kind msg, r = inl (kind, msg).

Definition lookup_empty (r : request_failure * string + value) : Prop :=
  exists body loc_data,
    r = inr body /\
    py_get body "results" (VList []) = Ok loc_data /\
    py_truthy loc_data = false.

(** The shape of the payload of lines 250-251. *)
Definition forecast_payload (dates tmax tmin precip : list value) : value :=
  VDict [(VStr "source", VStr "fallback");
         (VStr "daily", VDict [(VStr "time", VList dates);
                               (VStr "temperature_2m_max", VList tmax);
                               (VStr "temperature_2m_min", VList tmin);
                               (VStr "precipitation_sum", VList precip)])].

(** Strings in ascending order of code points (a string being its UTF-8
    bytes, whose bytewise order is that of the code points). *)
Definition str_lt (a b : string) : Prop := String.ltb a b = true.

(** The city name a location carries: the non-empty [city] of its
    [boundary], when it has both. *)
Definition city_name_of (loc : value) : option string :=
  match loc with
  | VDict d =>
      match dict_lookup (VStr "boundary") d with
      | Some (VDict b) =>
          match dict_lookup (VStr "city") b with
          | Some (VStr c) => if String.eqb c "" then None else Some c
          | _ => None
          end
      | _ => None
      end
  | _ => None
  end.

Definition extracted_names (locs : list value) : list string :=
  omap city_name_of locs.

(** A location of the expected shape: an object whose [boundary], if any,
    is an object whose [city], if any, is a string. *)
Definition wf_location (loc : value) : bool :=
  match loc with
  | VDict d =>
      match dict_lookup (VStr "boundary") d with
      | None | Some VNone => true
      | Some (VDict b) =>
          match dict_lookup (VStr "city") b with
          | None | Some VNone | Some (VStr _) => true
          | _ => false
          end
      | _ => false
      end
  | _ => false
  end.

(** Collecting names into a set, and sorting strings, without the
    possibility of failure. *)
Definition add_name (acc : list string) (c : string) : list string :=
  if existsb (String.eqb c) acc then acc else acc ++ [c].

Fixpoint insert_str (x : string) (l : list string) : list string :=
  match l with
  | [] => [x]
  | y :: rest => if String.ltb x y then x :: l else y :: insert_str x rest
  end.

Fixpoint sort_str (l : list string) : list string :=
  match l with
  | [] => []
  | x :: rest => insert_str x (sort_str rest)
  end.

(** The (parameter, value) pair of a measurement, the pairs a station
    record reports, and those of a list of records, in order. *)
Definition measurement_pair (m : value) : option (value * value) :=
  match m with
  | VDict d =>
      match dict_lookup (VStr "parameter") d, dict_lookup (VStr "value") d with
      | Some p, Some v => Some (p, v)
      | _, _ => None
      end
  | _ => None
  end.

Definition readings_of (station : value) : list (value * value) :=
  match station with
  | VDict d =>
      match dict_lookup (VStr "measurements") d with
      | Some (VList ms) => omap measurement_pair ms
      | _ => []
      end
  | _ => []
  end.

Definition reported (stations : list value) : list (value * value) :=
  flat_map readings_of stations.

(** All numeric values reported for parameter [p], and their mean. *)
Definition values_for (p : value) (pairs : list (value * value)) : list Q :=
  omap (fun kv => if key_eqb (fst kv) p then as_number (snd kv) else None) pairs.

Definition mean (vs : list Q) : Q :=
  (fold_left Qplus vs 0 / inject_Z (Z.of_nat (length vs)))%Q.

(** A measurement, a station record and a latest-readings body of the
    expected shape: a hashable parameter with a numeric value; an object
    whose [measurements], if any, is a list of such; an object whose
    [results], if any, is a list of such records. *)
Definition wf_measurement (m : value) : bool :=
  match measurement_pair m with
  | Some (p, v) => hashable p && match as_number v with Some _ => true | None => false end
  | None => false
  end.

Definition wf_station (station : value) : bool :=
  match station with
  | VDict d =>
      match dict_lookup (VStr "measurements") d with
      | None => true
      | Some (VList ms) => forallb wf_measurement ms
      | _ => false
      end
  | _ => false
  end.

(** Line 161 applied to a sequence of pairs. *)
Definition accumulate (pairs : list (value * value)) (agg : list (value * list value))
    : list (value * list value) :=
  fold_left (fun a kv => append_under (fst kv) (snd kv) a) pairs agg.

(** The values filed under the key equal to [p], if there is one. *)
Fixpoint filed_under (p : value) (agg : list (value * list value)) : option (list value) :=
  match agg with
  | [] => None
  | (k, vs) :: rest => if key_eqb k p then Some vs else filed_under p rest
  end.

(** The raw values reported under the key equal to [p]. *)
Definition raw_values_for (p : value) (pairs : list (value * value)) : list value :=
  map snd (List.filter (fun kv => key_eqb (fst kv) p) pairs).

(** Line 167 without failures. *)
Definition avg_of (agg : list (value * list value)) : list (value * value) :=
  omap (fun kvs =>
          match snd kvs with
          | [] => None
          | vs => Some (fst kvs,
                        VNum (mean (omap as_number vs)))
          end) agg.

Definition is_dict (v : value) : bool :=
  match v with VDict _ => true | _ => false end.

(** Line 146: the name a station descriptor is queried under, when it has a
    usable one. *)
Definition location_name_of (loc : value) : option value :=
  match loc with
  | VDict d =>
      let name := match dict_lookup (VStr "name") d with Some v => v | None => VNone end in
      let location_name :=
        if py_truthy name then name
        else match dict_lookup (VStr "location") d with Some v => v | None => VNone end in
      if py_truthy location_name then Some location_name else None
  | _ => None
  end.

(** The latest-readings calls of one run: the named stations in the order
    they were resolved, each with the answer the upstream gave. *)
Fixpoint latest_answers (locs : list value) (w : World)
    : list (value * (request_failure * string + value)) * World :=
  match locs with
  | [] => ([], w)
  | loc :: rest =>
      match location_name_of loc with
      | Some name =>
          let (r, w1) := requests_get_json (latest_url name) (Some HEADERS) 10 w in
          let (rs, w2) := latest_answers rest w1 in
          ((name, r) :: rs, w2)
      | None => latest_answers rest w
      end
  end.

(** The raw records a station's call contributed: those of its body when
    the call succeeded, none when it failed. *)
Definition records_of (a : request_failure * string + value) : list value :=
  match a with
  | inr (VDict d) =>
      match dict_lookup (VStr "results") d with
      | Some (VList l) => l
      | _ => []
      end
  | _ => []
  end.

Definition wf_answer (a : request_failure * string + value) : bool :=
  match a with
  | inl _ => true
  | inr (VDict d) =>
      match dict_lookup (VStr "results") d with
      | None => true
      | Some (VList l) => forallb wf_station l
      | _ => false
      end
  | inr _ => false
  end.

(** Invariants of the accumulator: every list holds numbers only, and no
    list is empty. *)
Definition numeric_lists (agg : list (value * list value)) : Prop :=
  Forall (fun kvs => Forall (fun v => is_Some (as_number v)) (snd kvs)) agg.

Definition nonempty_lists (agg : list (value * list value)) : Prop :=
  Forall (fun kvs => snd kvs <> []) agg.

(** Vocabulary of the further properties of the endpoints. *)

Definition cities_key (country : string) : string := "cities_" +:+ country.

Definition measurements_key (location parameter : string) : string :=
  "measurements_" +:+ location +:+ "_" +:+ parameter.

(** The fallback of [measurements] (lines 199-202), built before the fetch. *)
Definition measurements_fallback (limit : Z) : M (list value) :=
  comprehension (py_range limit)
    (fun i =>
       t <- utcnow_ ;;
       t' <- lift (datetime_add t (- timedelta_hours i)) ;;
       ret (VDict [(VStr "date", VDict [(VStr "utc", VStr (datetime_isoformat t' +:+ "Z"))]);
                   (VStr "value", VNum (inject_Z (10 + i mod 5)))])).

Definition measurements_url (location parameter : string) (limit : Z) : string :=
  "https://api.openaq.org/v3/measurements?location=" +:+ location
  +:+ "&parameter=" +:+ parameter
  +:+ "&limit=" +:+ py_format (VNum (inject_Z limit)) +:+ "&sort=desc".

(** A computation that makes no upstream call at all. *)
Definition silent {A} (m : M A) : Prop :=
  forall s, CACHE (snd (m s)) = CACHE s /\ upstream_calls (snd (m s)) = upstream_calls s.

(** The value filed under a string key of a dict, [None] when it is missing. *)
Definition field (k : string) (d : list (value * value)) : value :=
  match dict_lookup (VStr k) d with
  | Some v => v
  | None => VNone
  end.

(** The readings of the clock in [n] successive calls of [datetime.utcnow()]. *)
Fixpoint utc_readings (n : nat) (w : World) : list datetime * World :=
  match n with
  | O => ([], w)
  | S n' =>
      let (t, w1) := datetime_utcnow w in
      let (ts, w2) := utc_readings n' w1 in
      (t :: ts, w2)
  end.

(** Line 200, for the index [i] and the clock reading [t]. *)
Definition synthetic_reading (i : Z) (t : datetime) : value :=
  VDict [(VStr "date",
          VDict [(VStr "utc", VStr (datetime_isoformat (t - timedelta_hours i) +:+ "Z"))]);
         (VStr "value", VNum (inject_Z (10 + i mod 5)))].

(** A country record the projection of line 88 accepts: a dict with a
    [code] and a [name]. *)
Definition wf_country (c : value) : bool :=
  match c with
  | VDict d =>
      match dict_lookup (VStr "code") d, dict_lookup (VStr "name") d with
      | Some _, Some _ => true
      | _, _ => false
      end
  | _ => false
  end.

(** The record cut down to its [code] and [name]. *)
Definition project_country (c : value) : value :=
  match c with
  | VDict d => VDict [(VStr "code", field "code" d); (VStr "name", field "name" d)]
  | _ => VNone
  end.

(** Upstream data that gets through the loops of lines 144-161 whatever the
    reported values are: a measurement with a hashable [parameter] and some
    [value]; a station whose [measurements], if any, is a list of such; a
    latest-readings answer whose [results], if any, is a list of such
    stations. *)
Definition shaped_measurement (m : value) : bool :=
  match measurement_pair m with
  | Some (p, _) => hashable p
  | None => false
  end.

Definition shaped_station (station : value) : bool :=
  match station with
  | VDict d =>
      match dict_lookup (VStr "measurements") d with
      | None => true
      | Some (VList ms) => forallb shaped_measurement ms
      | _ => false
      end
  | _ => false
  end.

Definition shaped_answer (a : request_failure * string + value) : bool :=
  match a with
  | inl _ => true
  | inr (VDict d) =>
      match dict_lookup (VStr "results") d with
      | None => true
      | Some (VList l) => forallb shaped_station l
      | _ => false
      end
  | inr _ => false
  end.

(** ** Properties *)

(** Running a computation one monadic step at a time. *)
Ltac run :=
  unfold bind, ret, raise, lift, now_, utcnow_, uniform_, read_CACHE, store_CACHE,
    log, try_except, get_json; simpl.

(** *** What the helpers can raise *)

Lemma pure_tame_Ok {A} (a : A) : pure_tame (Ok a).
Proof. intros e H; discriminate. Qed.

Lemma pure_tame_rbind {A B} (r : result A) (k : A -> result B) :
  pure_tame r -> (forall a, pure_tame (k a)) -> pure_tame (rbind r k).
Proof.
  intros Hr Hk e. destruct r as [a|e']; simpl.
  - apply Hk.
  - intros [= <-]. now apply Hr.
Qed.

Lemma pure_tame_py_get o k d : pure_tame (py_get o k d).
Proof. intros e; destruct o; simpl; intros [= <-]; reflexivity. Qed.

Lemma pure_tame_py_getitem o k : pure_tame (py_getitem o k).
Proof.
  intros e; destruct o; simpl; try (intros [= <-]; reflexivity).
  destruct (dict_lookup _ _); intros [= <-]; reflexivity.
Qed.

Lemma pure_tame_py_iter o : pure_tame (py_iter o).
Proof. intros e; destruct o; simpl; intros [= <-]; reflexivity. Qed.

Create HintDb tame.

#[local] Hint Resolve pure_tame_Ok pure_tame_py_get pure_tame_py_getitem
  pure_tame_py_iter : tame.

Lemma pure_tame_fold_result {X L} (f : X -> L -> result L) items :
  (forall x acc, pure_tame (f x acc)) -> forall acc, pure_tame (fold_result f items acc).
Proof.
  intros Hf. induction items as [|x rest IH]; intros acc; simpl.
  - apply pure_tame_Ok.
  - apply pure_tame_rbind; auto.
Qed.

Lemma pure_tame_setdefault_append p v d : pure_tame (setdefault_append p v d).
Proof. intros e. unfold setdefault_append. destruct (hashable p); intros [= <-]; reflexivity. Qed.

#[local] Hint Resolve pure_tame_fold_result pure_tame_setdefault_append : tame.

Ltac step_pure := apply pure_tame_rbind; [auto with tame | intros].

Lemma pure_tame_add_measurement m agg : pure_tame (add_measurement m agg).
Proof. unfold add_measurement. do 2 step_pure. auto with tame. Qed.

#[local] Hint Resolve pure_tame_add_measurement : tame.

Lemma pure_tame_add_station st acc : pure_tame (add_station st acc).
Proof. unfold add_station. do 3 step_pure. auto with tame. Qed.

Lemma pure_tame_py_sum vals : forall start, pure_tame (py_sum vals start).
Proof.
  induction vals as [|v rest IH]; intros start e; simpl.
  - discriminate.
  - destruct (as_number v); [apply IH|intros [= <-]; reflexivity].
Qed.

Lemma pure_tame_averages agg : pure_tame (averages agg).
Proof.
  induction agg as [|[p vals] rest IH]; simpl.
  - apply pure_tame_Ok.
  - destruct vals as [|v vs]; [exact IH|].
    apply pure_tame_rbind; [apply pure_tame_py_sum|]; intros total.
    apply pure_tame_rbind; [exact IH|]; intros; apply pure_tame_Ok.
Qed.

Lemma pure_tame_datetime_add t d : pure_tame (datetime_add t d).
Proof. intros e. unfold datetime_add. destruct (_ && _); intros [= <-]; reflexivity. Qed.

Lemma pure_tame_py_add_number x n : pure_tame (py_add_number x n).
Proof. intros e. unfold py_add_number. destruct (as_number x); intros [= <-]; reflexivity. Qed.

Lemma tame_ret {A} (a : A) : tame (ret a).
Proof.
  intros s; simpl. split; [reflexivity|]. split; [exists []; now rewrite app_nil_r|discriminate].
Qed.

Lemma tame_lift {A} (r : result A) : pure_tame r -> tame (lift r).
Proof.
  intros Hr s; simpl. split; [reflexivity|]. split; [exists []; now rewrite app_nil_r|exact Hr].
Qed.

Lemma tame_bind {A B} (m : M A) (k : A -> M B) :
  tame m -> (forall a, tame (k a)) -> tame (bind m k).
Proof.
  intros Hm Hk s. unfold bind. destruct (Hm s) as (Hc & [c1 Hu] & He).
  destruct (m s) as [[a|e] s1]; simpl in *.
  - destruct (Hk a s1) as (Hc2 & [c2 Hu2] & He2).
    split; [congruence|]. split; [|exact He2].
    exists (c1 ++ c2). rewrite Hu2, Hu. now rewrite app_assoc.
  - split; [exact Hc|]. split; [now exists c1|].
    intros e0 [= <-]. now apply He.
Qed.

Lemma tame_for_each {X L} (body : X -> L -> M L) items :
  (forall x acc, tame (body x acc)) -> forall acc, tame (for_each items body acc).
Proof.
  intros Hb. induction items as [|x rest IH]; intros acc; simpl.
  - apply tame_ret.
  - apply tame_bind; auto.
Qed.

Lemma tame_comprehension {X Y} (f : X -> M Y) items :
  (forall x, tame (f x)) -> tame (comprehension items f).
Proof.
  intros Hf. induction items as [|x rest IH]; simpl.
  - apply tame_ret.
  - apply tame_bind; [apply Hf|]. intros y.
    apply tame_bind; [exact IH|]. intros ys. apply tame_ret.
Qed.

Lemma tame_utcnow : tame utcnow_.
Proof.
  intros s. unfold utcnow_. destruct (datetime_utcnow (world s)) as [t w]; simpl.
  split; [reflexivity|]. split; [exists []; now rewrite app_nil_r|discriminate].
Qed.

Lemma tame_uniform a b : tame (uniform_ a b).
Proof.
  intros s. unfold uniform_. destruct (random_uniform a b (world s)) as [t w]; simpl.
  split; [reflexivity|]. split; [exists []; now rewrite app_nil_r|discriminate].
Qed.

Lemma tame_visit_location loc acc : tame (visit_location loc acc).
Proof.
  unfold visit_location.
  apply tame_bind; [apply tame_lift, pure_tame_py_get|]; intros name.
  apply tame_bind.
  { destruct (py_truthy name); [apply tame_ret|apply tame_lift, pure_tame_py_get]. }
  intros location_name.
  destruct (negb (py_truthy location_name)); [apply tame_ret|].
  intros s. unfold try_except, bind, get_json, log, ret, lift.
  destruct (requests_get_json _ _ _ (world s)) as [[[k msg]|body] w]; simpl.
  - split; [reflexivity|]. split; [eexists; reflexivity|discriminate].
  - destruct (py_get body "results" (VList [])) as [latest_data|e] eqn:E1; simpl.
    + destruct (py_iter latest_data) as [stations|e] eqn:E2; simpl.
      * destruct (fold_result add_station stations acc) as [acc'|e] eqn:E3; simpl.
        -- split; [reflexivity|]. split; [eexists; reflexivity|discriminate].
        -- assert (D : data_error e = true).
           { eapply pure_tame_fold_result; [|exact E3]. intros; apply pure_tame_add_station. }
           destruct e; try discriminate; simpl;
             (split; [reflexivity|]; split; [eexists; reflexivity|intros ? [= <-]; reflexivity]).
      * assert (D : data_error e = true) by (eapply pure_tame_py_iter; exact E2).
        destruct e; try discriminate; simpl;
          (split; [reflexivity|]; split; [eexists; reflexivity|intros ? [= <-]; reflexivity]).
    + assert (D : data_error e = true) by (eapply pure_tame_py_get; exact E1).
      destruct e; try discriminate; simpl;
        (split; [reflexivity|]; split; [eexists; reflexivity|intros ? [= <-]; reflexivity]).
Qed.

(** *** The cache and the fetcher *)

Lemma is_fresh_spec (now : datetime) (e : cache_entry) :
  is_fresh now e = true <-> now - timestamp e < 3600 * 1000000.
Proof.
  unfold is_fresh, Qlt_bool, total_seconds, CACHE_TTL.
  rewrite negb_true_iff, <- not_true_iff_false, Qle_bool_iff.
  unfold Qle, inject_Z; simpl. lia.
Qed.

Lemma is_fresh_false (now : datetime) (e : cache_entry) :
  is_fresh now e = false <-> 3600 * 1000000 <= now - timestamp e.
Proof.
  rewrite <- not_true_iff_false, is_fresh_spec. lia.
Qed.

Lemma cache_hit_later cache key now now2 :
  cache_hit cache key now = None -> now <= now2 -> cache_hit cache key now2 = None.
Proof.
  unfold cache_hit. destruct (cache !! key) as [e|]; [|reflexivity].
  destruct (is_fresh now e) eqn:F; [discriminate|]. intros _ Hle.
  apply is_fresh_false in F.
  assert (F2 : is_fresh now2 e = false) by (apply is_fresh_false; lia).
  now rewrite F2.
Qed.

(** What [fetch_and_cache] does when the cache has no fresh entry, by the
    answer of the upstream. *)
Lemma fetch_and_cache_miss (s : State) url headers fallback cache_key now w1 r w2 :
  datetime_now (world s) = (now, w1) ->
  cache_hit (CACHE s) (key_or_url cache_key url) now = None ->
  requests_get_json url headers 10 w1 = (r, w2) ->
  fetch_and_cache url headers fallback cache_key s
  = match r with
    | inl _ =>
        (Ok fallback,
         {| CACHE := CACHE s; world := w2; upstream_calls := upstream_calls s ++ [url] |})
    | inr d =>
        (Ok d,
         {| CACHE := <[key_or_url cache_key url := {| data := d; timestamp := now |}]> (CACHE s);
            world := w2; upstream_calls := upstream_calls s ++ [url] |})
    end.
Proof.
  intros Hnow Hmiss Hget. unfold fetch_and_cache. run. rewrite Hnow. simpl.
  rewrite Hmiss. run. rewrite Hget. destruct r as [[k m]|d]; reflexivity.
Qed.

Lemma fetch_and_cache_hit (s : State) url headers fallback cache_key now w1 d :
  datetime_now (world s) = (now, w1) ->
  cache_hit (CACHE s) (key_or_url cache_key url) now = Some d ->
  fetch_and_cache url headers fallback cache_key s
  = (Ok d, {| CACHE := CACHE s; world := w1; upstream_calls := upstream_calls s |}).
Proof.
  intros Hnow Hhit. unfold fetch_and_cache. run. rewrite Hnow. simpl.
  now rewrite Hhit.
Qed.

(** When the upstream call of [fetch_and_cache] is made and ends in a
    [RequestException], the function returns the caller's fallback itself,
    raises nothing and leaves [CACHE] as it was; and every later call under
    the same key that sees the same cache goes to the upstream again. *)
Lemma fetch_and_cache_absorbs_request_exception :
  forall (s : State) url headers fallback cache_key now w1 kind msg w2,
    datetime_now (world s) = (now, w1) ->
    cache_hit (CACHE s) (key_or_url cache_key url) now = None ->
    requests_get_json url headers 10 w1 = (inl (kind, msg), w2) ->
    exists s',
      fetch_and_cache url headers fallback cache_key s = (Ok fallback, s') /\
      CACHE s' = CACHE s /\
      upstream_calls s' = upstream_calls s ++ [url] /\
      forall s2 now2 w3 headers2 fallback2,
        CACHE s2 = CACHE s' ->
        datetime_now (world s2) = (now2, w3) ->
        now <= now2 ->
        upstream_calls (snd (fetch_and_cache url headers2 fallback2 cache_key s2))
        = upstream_calls s2 ++ [url].
Proof.
  intros s url headers fallback cache_key now w1 kind msg w2 Hnow Hmiss Hget.
  eexists. split; [exact (fetch_and_cache_miss _ _ _ _ _ _ _ _ _ Hnow Hmiss Hget)|].
  simpl. split; [reflexivity|]. split; [reflexivity|].
  intros s2 now2 w3 headers2 fallback2 Hc Hnow2 Hle.
  destruct (requests_get_json url headers2 10 w3) as [r w4] eqn:Hget2.
  rewrite (fetch_and_cache_miss s2 url headers2 fallback2 cache_key now2 w3 r w4 Hnow2);
    [destruct r; reflexivity| |exact Hget2].
  rewrite Hc. eapply cache_hit_later; eauto.
Qed.

(** C5.  After a call of [fetch_and_cache] stored a payload under a key at
    time [t0], any call under that key while the entry is still the stored
    one returns the payload without an upstream call if fewer than 3600
    seconds have passed, and otherwise makes exactly one upstream call and
    returns that call's body, or the fallback if it failed, never the stale
    payload. *)
Theorem fetch_and_cache_ttl :
  forall (s0 : State) url headers fallback cache_key t0 w1 d w2,
    datetime_now (world s0) = (t0, w1) ->
    cache_hit (CACHE s0) (key_or_url cache_key url) t0 = None ->
    requests_get_json url headers 10 w1 = (inr d, w2) ->
    let key := key_or_url cache_key url in
    let s1 := snd (fetch_and_cache url headers fallback cache_key s0) in
    fst (fetch_and_cache url headers fallback cache_key s0) = Ok d /\
    CACHE s1 !! key = Some {| data := d; timestamp := t0 |} /\
    forall s2 url' headers' fallback' cache_key' t w3,
      key_or_url cache_key' url' = key ->
      CACHE s2 !! key = CACHE s1 !! key ->
      datetime_now (world s2) = (t, w3) ->
      (t - t0 < 3600 * 1000000 ->
         fetch_and_cache url' headers' fallback' cache_key' s2
         = (Ok d, {| CACHE := CACHE s2; world := w3;
                     upstream_calls := upstream_calls s2 |})) /\
      (3600 * 1000000 <= t - t0 ->
         exists s3,
           fetch_and_cache url' headers' fallback' cache_key' s2
           = (Ok (match fst (requests_get_json url' headers' 10 w3) with
                  | inr d' => d'
                  | inl _ => fallback'
                  end), s3) /\
           upstream_calls s3 = upstream_calls s2 ++ [url']).
Proof.
  intros s0 url headers fallback cache_key t0 w1 d w2 Hnow Hmiss Hget key s1.
  subst s1. rewrite (fetch_and_cache_miss _ _ _ _ _ _ _ _ _ Hnow Hmiss Hget).
  simpl. split; [reflexivity|]. fold key.
  split; [apply lookup_insert_eq|].
  intros s2 url' headers' fallback' cache_key' t w3 Hkey Hsame Hnow2.
  rewrite lookup_insert_eq in Hsame.
  split; intros Ht.
  - apply (fetch_and_cache_hit s2 url' headers' fallback' cache_key' t w3 d Hnow2).
    rewrite Hkey.
    unfold cache_hit. rewrite Hsame.
    assert (F : is_fresh t {| data := d; timestamp := t0 |} = true)
      by (apply is_fresh_spec; simpl; lia).
    now rewrite F.
  - destruct (requests_get_json url' headers' 10 w3) as [r w4] eqn:Hget2.
    rewrite (fetch_and_cache_miss s2 url' headers' fallback' cache_key' t w3 r w4 Hnow2);
      [destruct r; eexists; split; reflexivity| |exact Hget2].
    rewrite Hkey. unfold cache_hit. rewrite Hsame.
    assert (F : is_fresh t {| data := d; timestamp := t0 |} = false)
      by (apply is_fresh_false; simpl; lia).
    now rewrite F.
Qed.

(** *** The station lookup *)

(** The aggregation either stores and returns a payload or raises a data
    error and stores nothing. *)
Lemma aggregate_outcome key now loc_data s :
  (exists calls, upstream_calls (snd (aggregate key now loc_data s)) = upstream_calls s ++ calls) /\
  ((exists result,
      fst (aggregate key now loc_data s) = Ok (Payload result) /\
      CACHE (snd (aggregate key now loc_data s))
      = <[key := {| data := result; timestamp := now |}]> (CACHE s)) \/
   (exists e,
      fst (aggregate key now loc_data s) = Raise e /\ data_error e = true /\
      CACHE (snd (aggregate key now loc_data s)) = CACHE s)).
Proof.
  unfold aggregate, bind, lift.
  destruct (py_iter loc_data) as [locs|e] eqn:E1; simpl.
  2:{ split; [exists []; now rewrite app_nil_r|]. right. exists e.
      split; [reflexivity|]. split; [|reflexivity]. eapply pure_tame_py_iter; exact E1. }
  destruct (tame_for_each visit_location locs tame_visit_location ([], []) s)
    as (Hc & [c1 Hu] & He).
  destruct (for_each locs visit_location ([], []) s) as [[acc|e] s1]; simpl in *.
  2:{ split; [now exists c1|]. right. exists e. split; [reflexivity|]. split; [|exact Hc].
      now apply He. }
  destruct (averages (fst acc)) as [avg|e] eqn:E2; simpl.
  2:{ split; [now exists c1|]. right. exists e. split; [reflexivity|]. split; [|exact Hc].
      eapply pure_tame_averages; exact E2. }
  unfold utcnow_, store_CACHE, ret.
  destruct (datetime_utcnow (world s1)) as [t w]; simpl.
  split; [now exists c1|]. left. eexists. split; [reflexivity|]. now rewrite Hc.
Qed.

(** What [air_quality] does when the cache has no fresh entry, by the
    answer to the station lookup. *)
Lemma air_quality_miss (s : State) city now w1 r w2 :
  datetime_now (world s) = (now, w1) ->
  cache_hit (CACHE s) (air_quality_key city) now = None ->
  requests_get_json (loc_url city) (Some HEADERS) 10 w1 = (r, w2) ->
  let s1 := {| CACHE := CACHE s; world := w2;
               upstream_calls := upstream_calls s ++ [loc_url city] |} in
  air_quality city s =
  match r with
  | inl _ =>
      (Ok (Payload (air_quality_result dummy_aggregated (fst (datetime_utcnow w2)) [])),
       {| CACHE := CACHE s; world := snd (datetime_utcnow w2);
          upstream_calls := upstream_calls s ++ [loc_url city] |})
  | inr body =>
      match py_get body "results" (VList []) with
      | Raise e => (Raise e, s1)
      | Ok loc_data =>
          if py_truthy loc_data then aggregate (air_quality_key city) now loc_data s1
          else (Ok not_found_response, s1)
      end
  end.
Proof.
  intros Hnow Hmiss Hget s1. unfold air_quality. run. rewrite Hnow. simpl.
  rewrite Hmiss. run. rewrite Hget.
  destruct r as [[k msg]|body]; simpl.
  - destruct (datetime_utcnow w2); reflexivity.
  - destruct (py_get body "results" (VList [])) as [loc_data|e] eqn:E; simpl.
    + destruct (py_truthy loc_data); simpl; [|reflexivity].
      fold s1. destruct (aggregate_outcome (air_quality_key city) now loc_data s1)
        as (_ & [(result & Hr & _)|(e & Hr & He & _)]);
        destruct (aggregate (air_quality_key city) now loc_data s1) as [[a|e'] s2];
        simpl in *; try discriminate; try reflexivity.
      injection Hr as ->. destruct e; try discriminate; reflexivity.
    + assert (D : data_error e = true) by (eapply pure_tame_py_get; exact E).
      destruct e; try discriminate; reflexivity.
Qed.

(** C7.  When the station lookup fails with a [RequestException],
    [air_quality] raises nothing and returns the dummy payload: the
    aggregated mapping is pm25 20, pm10 35, no2 15 and the station list is
    empty. *)
Theorem air_quality_lookup_failure_dummy :
  forall (s : State) city now w1 kind msg w2 t w3,
    datetime_now (world s) = (now, w1) ->
    cache_hit (CACHE s) (air_quality_key city) now = None ->
    requests_get_json (loc_url city) (Some HEADERS) 10 w1 = (inl (kind, msg), w2) ->
    datetime_utcnow w2 = (t, w3) ->
    exists s',
      air_quality city s =
      (Ok (Payload (VDict [(VStr "aggregated",
                            VDict [(VStr "pm25", VNum 20); (VStr "pm10", VNum 35);
                                   (VStr "no2", VNum 15)]);
                           (VStr "last_updated", VStr (datetime_isoformat t +:+ "Z"));
                           (VStr "locations", VList [])])), s').
Proof.
  intros s city now w1 kind msg w2 t w3 Hnow Hmiss Hget Hutc.
  rewrite (air_quality_miss _ _ _ _ _ _ Hnow Hmiss Hget). rewrite Hutc. simpl.
  eexists. reflexivity.
Qed.

(** C4.  [air_quality] answers with the 404 response exactly when there is
    no fresh cache entry and the station lookup itself succeeds with empty
    [results]; the response is then the 404 one with the fixed detail, and
    no other run produces a [JSONResponse]. *)
Theorem air_quality_not_found_iff :
  forall (s : State) city now w1 status_code content,
    datetime_now (world s) = (now, w1) ->
    (fst (air_quality city s) = Ok (JSONResponse status_code content) <->
     cache_hit (CACHE s) (air_quality_key city) now = None /\
     lookup_empty (fst (requests_get_json (loc_url city) (Some HEADERS) 10 w1)) /\
     JSONResponse status_code content = not_found_response).
Proof.
  intros s city now w1 status_code content Hnow.
  destruct (cache_hit (CACHE s) (air_quality_key city) now) as [d|] eqn:Hhit.
  { split.
    - unfold air_quality. run. rewrite Hnow. simpl. rewrite Hhit. discriminate.
    - intros [? _]. discriminate. }
  destruct (requests_get_json (loc_url city) (Some HEADERS) 10 w1) as [r w2] eqn:Hget.
  rewrite (air_quality_miss _ _ _ _ _ _ Hnow Hhit Hget). simpl.
  destruct r as [[k msg]|body].
  { split; [discriminate|]. intros (_ & (b & l & H & _) & _). discriminate. }
  destruct (py_get body "results" (VList [])) as [loc_data|e] eqn:E.
  2:{ split; [discriminate|]. intros (_ & (b & l & [= <-] & H & _) & _). congruence. }
  destruct (py_truthy loc_data) eqn:T.
  - split.
    + match goal with |- context [aggregate ?k ?n ?l ?s1] =>
        destruct (aggregate_outcome k n l s1) as (_ & [(result & Hr & _)|(e & Hr & _)]);
        rewrite Hr end; discriminate.
    + intros (_ & (b & l & [= <-] & H & Hf) & _). congruence.
  - simpl. split.
    + intros [= <- <-]. split; [reflexivity|]. split; [|reflexivity].
      exists body, loc_data. auto.
    + intros (_ & _ & ->). reflexivity.
Qed.

(** Only the end of the aggregation writes to [CACHE]: a run either leaves
    it as it was or returns the payload it has just stored under the city's
    key. *)
Lemma air_quality_cache_write city (s : State) :
  CACHE (snd (air_quality city s)) = CACHE s \/
  exists result now,
    fst (air_quality city s) = Ok (Payload result) /\
    CACHE (snd (air_quality city s))
    = <[air_quality_key city := {| data := result; timestamp := now |}]> (CACHE s).
Proof.
  destruct (datetime_now (world s)) as [now w1] eqn:Hnow.
  destruct (cache_hit (CACHE s) (air_quality_key city) now) as [d|] eqn:Hhit.
  { left. unfold air_quality. run. rewrite Hnow. simpl. now rewrite Hhit. }
  destruct (requests_get_json (loc_url city) (Some HEADERS) 10 w1) as [r w2] eqn:Hget.
  rewrite (air_quality_miss _ _ _ _ _ _ Hnow Hhit Hget). simpl.
  destruct r as [[k msg]|body]; [now left|].
  destruct (py_get body "results" (VList [])) as [loc_data|e]; [|now left].
  destruct (py_truthy loc_data); [|now left].
  match goal with |- context [aggregate ?k ?n ?l ?s1] =>
    destruct (aggregate_outcome k n l s1) as (_ & [(result & Hr & Hc)|(e & _ & _ & Hc)]) end.
  - right. exists result, now. split; [exact Hr|exact Hc].
  - left. exact Hc.
Qed.

(** C10.  A run of [air_quality] that ends in the dummy payload (the lookup
    failed) or in the 404 response (the lookup came back empty) leaves
    [CACHE] as it was, and the next call for the city that sees this cache
    starts with the station lookup again; no run changes [CACHE] except by
    storing the payload it returns. *)
Theorem air_quality_fallbacks_not_cached :
  forall (s : State) city now w1 r w2,
    datetime_now (world s) = (now, w1) ->
    cache_hit (CACHE s) (air_quality_key city) now = None ->
    requests_get_json (loc_url city) (Some HEADERS) 10 w1 = (r, w2) ->
    lookup_failed r \/ lookup_empty r ->
    (lookup_failed r ->
     exists t, fst (air_quality city s)
               = Ok (Payload (air_quality_result dummy_aggregated t []))) /\
    (lookup_empty r -> fst (air_quality city s) = Ok not_found_response) /\
    CACHE (snd (air_quality city s)) = CACHE s /\
    (forall s2 now2 w3,
        CACHE s2 = CACHE (snd (air_quality city s)) ->
        datetime_now (world s2) = (now2, w3) ->
        now <= now2 ->
        exists calls,
          upstream_calls (snd (air_quality city s2))
          = upstream_calls s2 ++ loc_url city :: calls) /\
    (forall city' (s' : State),
        CACHE (snd (air_quality city' s')) = CACHE s' \/
        exists result t,
          fst (air_quality city' s') = Ok (Payload result) /\
          CACHE (snd (air_quality city' s'))
          = <[air_quality_key city' := {| data := result; timestamp := t |}]> (CACHE s')).
Proof.
  intros s city now w1 r w2 Hnow Hmiss Hget Hr.
  pose proof (air_quality_miss _ _ _ _ _ _ Hnow Hmiss Hget) as E. cbv zeta in E.
  assert (Hcache : CACHE (snd (air_quality city s)) = CACHE s).
  { rewrite E. destruct Hr as [(k & msg & ->)|(body & loc_data & -> & Hg & Ht)].
    - reflexivity.
    - rewrite Hg, Ht. reflexivity. }
  split; [|split; [|split; [exact Hcache|split; [|exact air_quality_cache_write]]]].
  - intros (k & msg & ->). rewrite E. eexists. reflexivity.
  - intros (body & loc_data & -> & Hg & Ht). rewrite E, Hg, Ht. reflexivity.
  - intros s2 now2 w3 Hc Hnow2 Hle. rewrite Hcache in Hc.
    assert (Hmiss2 : cache_hit (CACHE s2) (air_quality_key city) now2 = None)
      by (rewrite Hc; eapply cache_hit_later; eauto).
    destruct (requests_get_json (loc_url city) (Some HEADERS) 10 w3) as [r2 w4] eqn:Hget2.
    rewrite (air_quality_miss _ _ _ _ _ _ Hnow2 Hmiss2 Hget2).
    destruct r2 as [[k msg]|body]; [exists []; reflexivity|].
    destruct (py_get body "results" (VList [])) as [loc_data|e]; [|exists []; reflexivity].
    destruct (py_truthy loc_data); [|exists []; reflexivity].
    match goal with |- context [aggregate ?k ?n ?l ?s1] =>
      destruct (aggregate_outcome k n l s1) as ([calls Hu] & _) end.
    exists calls. rewrite Hu. simpl. now rewrite <- app_assoc.
Qed.

(** *** Upstream failures and the caller *)

Lemma fetch_and_cache_returns url headers fallback cache_key (s : State) :
  exists v, fst (fetch_and_cache url headers fallback cache_key s) = Ok v.
Proof.
  unfold fetch_and_cache. run. destruct (datetime_now (world s)) as [now w]. simpl.
  destruct (cache_hit _ _ _); [eexists; reflexivity|]. run.
  destruct (requests_get_json _ _ _ _) as [[[k m]|d] w']; eexists; reflexivity.
Qed.

Lemma base_temperature_returns lat lon (s : State) :
  exists temp, fst (base_temperature lat lon s) = Ok temp.
Proof.
  unfold base_temperature. run.
  destruct (requests_get_json _ _ _ _) as [[[k m]|d] w']; simpl; [eexists; reflexivity|].
  destruct (py_get d _ _) as [cw|e]; simpl; [|eexists; reflexivity].
  destruct (py_get cw _ _) as [t|e]; simpl; eexists; reflexivity.
Qed.

Lemma tame_naive_forecast temp days : tame (naive_forecast temp days).
Proof.
  unfold naive_forecast.
  apply tame_bind; [apply tame_utcnow|]; intros base.
  apply tame_bind.
  { apply tame_comprehension. intros i.
    apply tame_bind; [apply tame_lift, pure_tame_datetime_add|]. intros; apply tame_ret. }
  intros dates. apply tame_bind.
  { apply tame_comprehension. intros i.
    apply tame_bind; [apply tame_lift, pure_tame_py_add_number|]. intros x.
    apply tame_bind; [apply tame_uniform|]. intros; apply tame_ret. }
  intros tmax. apply tame_bind.
  { apply tame_comprehension. intros i.
    apply tame_bind; [apply tame_lift, pure_tame_py_add_number|]. intros x.
    apply tame_bind; [apply tame_uniform|]. intros; apply tame_ret. }
  intros tmin. apply tame_bind.
  { apply tame_comprehension. intros i.
    apply tame_bind; [apply tame_uniform|]. intros; apply tame_ret. }
  intros; apply tame_ret.
Qed.

Lemma air_quality_raises_data_errors city (s : State) e :
  fst (air_quality city s) = Raise e -> data_error e = true.
Proof.
  destruct (datetime_now (world s)) as [now w1] eqn:Hnow.
  destruct (cache_hit (CACHE s) (air_quality_key city) now) as [d|] eqn:Hhit.
  { unfold air_quality. run. rewrite Hnow. simpl. rewrite Hhit. discriminate. }
  destruct (requests_get_json (loc_url city) (Some HEADERS) 10 w1) as [r w2] eqn:Hget.
  rewrite (air_quality_miss _ _ _ _ _ _ Hnow Hhit Hget). simpl.
  destruct r as [[k msg]|body]; [discriminate|].
  destruct (py_get body "results" (VList [])) as [loc_data|e'] eqn:E.
  2:{ intros [= <-]. eapply pure_tame_py_get; exact E. }
  destruct (py_truthy loc_data); [|discriminate].
  match goal with |- context [aggregate ?k ?n ?l ?s1] =>
    destruct (aggregate_outcome k n l s1) as (_ & [(result & Hr & _)|(e' & Hr & He & _)]);
    rewrite Hr end; [discriminate|]. now intros [= <-].
Qed.

Lemma measurements_raises_data_errors location parameter limit (s : State) e :
  fst (measurements location parameter limit s) = Raise e -> data_error e = true.
Proof.
  unfold measurements.
  match goal with |- context [bind ?m ?k] => set (build := m); set (rest := k) end.
  assert (T : tame build).
  { apply tame_comprehension. intros i.
    apply tame_bind; [apply tame_utcnow|]. intros t.
    apply tame_bind; [apply tame_lift, pure_tame_datetime_add|]. intros; apply tame_ret. }
  unfold bind. destruct (T s) as (_ & _ & He).
  destruct (build s) as [[results|e'] s1]; simpl in *.
  - subst rest. simpl.
    match goal with |- context [fetch_and_cache ?u ?h ?f ?k s1] =>
      destruct (fetch_and_cache_returns u h f k s1) as [v Hv]; rewrite Hv end.
    discriminate.
  - intros [= <-]. now apply He.
Qed.

Lemma forecast_raises_data_errors lat lon days (s : State) e :
  fst (forecast lat lon days s) = Raise e -> data_error e = true.
Proof.
  unfold forecast. unfold try_except at 1. unfold bind at 1. unfold get_json.
  destruct (requests_get_json _ _ _ _) as [[[k m]|d] w']; simpl.
  - unfold bind at 1. unfold log, ret. unfold bind.
    match goal with |- context [base_temperature lat lon ?s1] =>
      destruct (base_temperature_returns lat lon s1) as [temp Ht];
      destruct (base_temperature lat lon s1) as [r s2]; simpl in Ht; subst r end.
    apply (tame_naive_forecast temp days s2).
  - unfold bind, lift, ret.
    destruct (py_get d "daily" (VDict [])) as [daily|e'] eqn:E; simpl; [discriminate|].
    assert (D : data_error e' = true) by (eapply pure_tame_py_get; exact E).
    destruct e'; try discriminate; simpl; now intros [= <-].
Qed.

(** C6 (amended).  No upstream failure escapes [fetch_and_cache],
    [air_quality], [measurements] or [forecast]: the first always returns a
    value and the others never raise a [RequestException] or an
    [HTTPException] (the 404 of [air_quality] is a returned response);
    [current_weather] turns every failure of its upstream call into an
    [HTTPException] with status 502 raised to its caller. *)
Theorem upstream_failures_absorbed_except_current_weather :
  (forall url headers fallback cache_key (s : State),
      exists v, fst (fetch_and_cache url headers fallback cache_key s) = Ok v) /\
  (forall city (s : State) e,
      fst (air_quality city s) = Raise e -> data_error e = true) /\
  (forall location parameter limit (s : State) e,
      fst (measurements location parameter limit s) = Raise e -> data_error e = true) /\
  (forall lat lon days (s : State) e,
      fst (forecast lat lon days s) = Raise e -> data_error e = true) /\
  (forall lat lon (s : State) kind msg,
      fst (requests_get_json (current_weather_url lat lon) None 8 (world s)) = inl (kind, msg) ->
      fst (current_weather lat lon s)
      = Raise (HTTPException 502 ("Open-Meteo request failed: " +:+ msg))).
Proof.
  split; [exact fetch_and_cache_returns|].
  split; [exact air_quality_raises_data_errors|].
  split; [exact measurements_raises_data_errors|].
  split; [exact forecast_raises_data_errors|].
  intros lat lon s kind msg H. unfold current_weather. run.
  destruct (requests_get_json _ _ _ _) as [r w]. simpl in H. subst r. reflexivity.
Qed.

(** *** The naive forecast *)

Lemma py_range_lookup n i :
  0 <= i < n -> py_range n !! Z.to_nat i = Some i.
Proof.
  intros H. unfold py_range.
  change (map Z.of_nat (seq 0 (Z.to_nat n))) with (Z.of_nat <$> seq 0 (Z.to_nat n)).
  rewrite list_lookup_fmap, lookup_seq_lt by lia. simpl. f_equal. lia.
Qed.

Lemma py_range_In n i : In i (py_range n) -> 0 <= i < n.
Proof.
  unfold py_range. rewrite in_map_iff. intros (k & <- & Hk).
  apply in_seq in Hk. lia.
Qed.

Lemma py_range_length n : length (py_range n) = Z.to_nat n.
Proof. unfold py_range. now rewrite length_map, length_seq. Qed.

(** A comprehension whose element expression succeeds on every item
    succeeds, and relates items to results pointwise. *)
Lemma comprehension_Forall2 {X Y} (f : X -> M Y) (P : X -> Y -> Prop) items :
  (forall x s, In x items -> exists y s', f x s = (Ok y, s') /\ P x y) ->
  forall s, exists ys s', comprehension items f s = (Ok ys, s') /\ Forall2 P items ys.
Proof.
  induction items as [|x rest IH]; intros Hf s; simpl.
  - exists [], s. split; [reflexivity|constructor].
  - destruct (Hf x s (or_introl eq_refl)) as (y & s1 & E & Hy).
    destruct (IH (fun x' s' H => Hf x' s' (or_intror H)) s1) as (ys & s2 & E2 & Hys).
    exists (y :: ys), s2. unfold bind. rewrite E, E2. split; [reflexivity|].
    now constructor.
Qed.

Lemma Forall2_py_range {Y} (P : Z -> Y -> Prop) n ys :
  Forall2 P (py_range n) ys ->
  length ys = Z.to_nat n /\
  forall i, 0 <= i < n -> exists y, ys !! Z.to_nat i = Some y /\ P i y.
Proof.
  intros H. split.
  - rewrite <- (Forall2_length _ _ _ H). apply py_range_length.
  - intros i Hi. eapply Forall2_lookup_l; [exact H|]. now apply py_range_lookup.
Qed.

Lemma round_half_even_nonneg (x : Q) : (0 <= x)%Q -> 0 <= round_half_even x.
Proof.
  intros H. unfold round_half_even.
  assert (F : 0 <= Qfloor x).
  { change 0 with (Qfloor 0). now apply Qfloor_resp_le. }
  destruct (_ ?= _)%Q; [destruct (Z.even _)|..]; lia.
Qed.

Lemma py_round1_nonneg (x : Q) : (0 <= x)%Q -> (0 <= py_round1 x)%Q.
Proof.
  intros H. unfold py_round1.
  assert (0 <= round_half_even (x * 10)).
  { apply round_half_even_nonneg. apply Qmult_le_0_compat; [exact H|discriminate]. }
  unfold Qle; simpl. lia.
Qed.

Lemma py_max0_nonneg (x : Q) : (0 <= py_max0 x)%Q.
Proof.
  unfold py_max0, Qlt_bool. destruct (Qle_bool x 0) eqn:E; simpl.
  - apply Qle_refl.
  - apply Qnot_lt_le. intros L. apply Qlt_le_weak in L.
    apply Qle_bool_iff in L. congruence.
Qed.

Lemma date_of_add_days base i :
  date_of (base + timedelta_days i) = date_of base + i.
Proof. unfold date_of, timedelta_days. now rewrite Z.div_add. Qed.

(** C8.  For [days] between 1 and 16: when the forecast call fails, the base
    temperature found by lines 236-242 is a number [T] and the clock is at
    least 15 days before [datetime.max], [forecast] returns the fallback
    payload whose four series have [days] entries each, with
    [dates[i]] the ISO form of today's date plus [i] days,
    [maxTemp[i] = round(T + 5 + u, 1)] for a draw [u] in [-3, 3], and
    [precipitation[i] >= 0]. *)
Theorem forecast_fallback_series :
  forall (s : State) lat lon days kind msg w1 temp s2 T base w3,
    1 <= days <= 16 ->
    requests_get_json (forecast_url lat lon days) None 10 (world s) = (inl (kind, msg), w1) ->
    base_temperature lat lon
      {| CACHE := CACHE s; world := w1;
         upstream_calls := upstream_calls s ++ [forecast_url lat lon days] |}
    = (Ok temp, s2) ->
    as_number temp = Some T ->
    datetime_utcnow (world s2) = (base, w3) ->
    datetime_min <= base <= datetime_max - timedelta_days 15 ->
    exists dates tmax tmin precip s',
      forecast lat lon days s = (Ok (forecast_payload dates tmax tmin precip), s') /\
      length dates = Z.to_nat days /\ length tmax = Z.to_nat days /\
      length tmin = Z.to_nat days /\ length precip = Z.to_nat days /\
      (forall i, 0 <= i < days ->
         dates !! Z.to_nat i = Some (VStr (date_isoformat (date_of base + i)))) /\
      (forall i, 0 <= i < days ->
         exists u, (-3 <= u <= 3)%Q /\
                   tmax !! Z.to_nat i = Some (VNum (py_round1 (T + 5 + u)))) /\
      (forall i, 0 <= i < days ->
         exists p, precip !! Z.to_nat i = Some (VNum p) /\ (0 <= p)%Q).
Proof.
  intros s lat lon days kind msg w1 temp s2 T base w3 Hdays Hget Htemp HT Hbase Hrange.
  unfold forecast. unfold try_except at 1. unfold bind at 1. unfold get_json.
  rewrite Hget. simpl. unfold bind at 1. unfold log, ret. unfold bind at 1.
  rewrite Htemp. unfold naive_forecast. unfold bind at 1. unfold utcnow_ at 1.
  rewrite Hbase.
  set (s3 := {| CACHE := CACHE s2; world := w3; upstream_calls := upstream_calls s2 |}).
  (* dates *)
  destruct (comprehension_Forall2
              (fun i => bind (lift (datetime_add base (timedelta_days i)))
                             (fun t => ret (VStr (date_isoformat (date_of t)))))
              (fun i y => y = VStr (date_isoformat (date_of base + i)))
              (py_range days)) with (s := s3) as (dates & s4 & E1 & F1).
  { intros i s0 Hi. apply py_range_In in Hi. unfold bind, lift, ret, datetime_add.
    assert (R : (datetime_min <=? base + timedelta_days i)
                && (base + timedelta_days i <=? datetime_max) = true).
    { apply andb_true_intro. unfold timedelta_days in *.
      split; [apply Z.leb_le|apply Z.leb_le]; lia. }
    rewrite R. do 2 eexists. split; [reflexivity|]. now rewrite date_of_add_days. }
  (* maxTemp *)
  destruct (comprehension_Forall2
              (fun _ : Z => bind (lift (py_add_number temp 5))
                 (fun x => bind (uniform_ (-3) 3) (fun u => ret (VNum (py_round1 (x + u))))))
              (fun _ y => exists u, (-3 <= u <= 3)%Q /\ y = VNum (py_round1 (T + 5 + u)))
              (py_range days)) with (s := s4) as (tmax & s5 & E2 & F2).
  { intros i s0 _. unfold bind, lift, ret, py_add_number, uniform_. rewrite HT.
    pose proof (random_uniform_range (-3) 3 (world s0) ltac:(discriminate)) as U.
    destruct (random_uniform (-3) 3 (world s0)) as [u w]. simpl in U.
    do 2 eexists. split; [reflexivity|]. exists u. split; [exact U|reflexivity]. }
  (* minTemp *)
  destruct (comprehension_Forall2
              (fun _ : Z => bind (lift (py_add_number temp (-2)))
                 (fun x => bind (uniform_ (-3) 3) (fun u => ret (VNum (py_round1 (x + u))))))
              (fun _ _ => True)
              (py_range days)) with (s := s5) as (tmin & s6 & E3 & F3).
  { intros i s0 _. unfold bind, lift, ret, py_add_number, uniform_. rewrite HT.
    destruct (random_uniform (-3) 3 (world s0)) as [u w].
    do 2 eexists. split; [reflexivity|exact I]. }
  (* precipitation *)
  destruct (comprehension_Forall2
              (fun _ : Z => bind (uniform_ 0 5) (fun u => ret (VNum (py_round1 (py_max0 u)))))
              (fun _ y => exists p, y = VNum p /\ (0 <= p)%Q)
              (py_range days)) with (s := s6) as (precip & s7 & E4 & F4).
  { intros i s0 _. unfold bind, ret, uniform_.
    destruct (random_uniform 0 5 (world s0)) as [u w].
    do 2 eexists. split; [reflexivity|]. eexists. split; [reflexivity|].
    apply py_round1_nonneg, py_max0_nonneg. }
  exists dates, tmax, tmin, precip, s7.
  apply Forall2_py_range in F1, F2, F3, F4.
  destruct F1 as [L1 I1], F2 as [L2 I2], F3 as [L3 _], F4 as [L4 I4].
  split.
  { unfold bind at 1. rewrite E1. unfold bind at 1. rewrite E2.
    unfold bind at 1. rewrite E3. unfold bind at 1. rewrite E4. reflexivity. }
  repeat (split; [assumption|]).
  split; [|split].
  - intros i Hi. destruct (I1 i Hi) as (y & -> & ->). reflexivity.
  - intros i Hi. destruct (I2 i Hi) as (y & Hy & u & Hu & ->). eauto.
  - intros i Hi. destruct (I4 i Hi) as (y & Hy & p & -> & Hp). eauto.
Qed.

(** *** The list of cities *)

Lemma str_lt_trans a b c : str_lt a b -> str_lt b c -> str_lt a c.
Proof.
  unfold str_lt, String.ltb. intros H1 H2.
  destruct (String.compare a b) eqn:E1; try discriminate.
  destruct (String.compare b c) eqn:E2; try discriminate.
  apply String_as_OT.cmp_lt in E1, E2.
  pose proof (String_as_OT.lt_trans _ _ _ E1 E2) as E3.
  apply String_as_OT.cmp_lt in E3. unfold String_as_OT.cmp in E3. now rewrite E3.
Qed.

Lemma str_lt_total a b : a <> b -> String.ltb a b = false -> str_lt b a.
Proof.
  unfold str_lt, String.ltb. intros Hne. rewrite (String.compare_antisym b a).
  destruct (String.compare a b) eqn:E; simpl; try discriminate; try reflexivity.
  apply String.compare_eq_iff in E. contradiction.
Qed.

Lemma existsb_key_eqb_VStr c acc :
  existsb (key_eqb (VStr c)) (map VStr acc) = existsb (String.eqb c) acc.
Proof. induction acc as [|a acc IH]; simpl; [reflexivity|now rewrite IH]. Qed.

Lemma add_city_wf loc acc :
  wf_location loc = true ->
  add_city loc (map VStr acc)
  = Ok (map VStr (match city_name_of loc with
                  | Some c => add_name acc c
                  | None => acc
                  end)).
Proof.
  destruct loc as [| | | | |d]; try discriminate. unfold add_city. simpl.
  destruct (dict_lookup (VStr "boundary") d) as [[| | | | |b]|] eqn:E1;
    try discriminate; simpl; try reflexivity.
  intros Hwf. destruct b as [|kv b'] eqn:Eb; [reflexivity|]. rewrite <- Eb in *.
  destruct (dict_lookup (VStr "city") b) as [[| | |c| |]|] eqn:E2;
    try discriminate Hwf; simpl; try reflexivity.
  destruct (String.eqb c "") eqn:E3; simpl; [reflexivity|].
  unfold set_add, add_name. simpl.
  rewrite existsb_key_eqb_VStr.
  destruct (existsb (String.eqb c) acc); [reflexivity|].
  now rewrite map_app.
Qed.

Lemma fold_add_city locs :
  Forall (fun loc => wf_location loc = true) locs ->
  forall acc,
    fold_result add_city locs (map VStr acc)
    = Ok (map VStr (fold_left add_name (extracted_names locs) acc)).
Proof.
  induction 1 as [|loc locs Hwf _ IH]; intros acc; simpl; [reflexivity|].
  rewrite (add_city_wf _ _ Hwf). simpl.
  destruct (city_name_of loc) as [c|]; simpl; apply IH.
Qed.

Lemma add_name_In acc c x : In x (add_name acc c) <-> In x acc \/ x = c.
Proof.
  unfold add_name. destruct (existsb (String.eqb c) acc) eqn:E.
  - apply existsb_exists in E. destruct E as (y & Hy & Ey).
    apply String.eqb_eq in Ey. subst y. split; [auto|]. now intros [H| ->].
  - rewrite in_app_iff. simpl. intuition.
Qed.

Lemma add_name_NoDup acc c : NoDup acc -> NoDup (add_name acc c).
Proof.
  intros H. unfold add_name. destruct (existsb (String.eqb c) acc) eqn:E; [exact H|].
  apply NoDup_app. split; [exact H|]. split.
  - intros x Hx Hc. apply list_elem_of_In in Hx. apply list_elem_of_In in Hc.
    destruct Hc as [<-|[]].
    assert (T : existsb (String.eqb c) acc = true).
    { apply existsb_exists. exists c. split; [exact Hx|apply String.eqb_refl]. }
    congruence.
  - apply NoDup_singleton.
Qed.

Lemma fold_add_name_In names : forall acc x,
  In x (fold_left add_name names acc) <-> In x acc \/ In x names.
Proof.
  induction names as [|c names IH]; intros acc x; simpl; [intuition|].
  rewrite IH, add_name_In. intuition; subst; auto.
Qed.

Lemma fold_add_name_NoDup names : forall acc,
  NoDup acc -> NoDup (fold_left add_name names acc).
Proof.
  induction names as [|c names IH]; intros acc H; simpl; [exact H|].
  apply IH, add_name_NoDup, H.
Qed.

Lemma insert_sorted_str x l :
  insert_sorted (VStr x) (map VStr l) = Ok (map VStr (insert_str x l)).
Proof.
  induction l as [|y l IH]; simpl; [reflexivity|].
  destruct (String.ltb x y); simpl; [reflexivity|]. now rewrite IH.
Qed.

Lemma py_sorted_str l : py_sorted (map VStr l) = Ok (map VStr (sort_str l)).
Proof.
  induction l as [|x l IH]; simpl; [reflexivity|].
  rewrite IH. simpl. apply insert_sorted_str.
Qed.

Lemma insert_str_In x l y : In y (insert_str x l) <-> y = x \/ In y l.
Proof.
  induction l as [|z l IH]; simpl; [intuition|].
  destruct (String.ltb x z); simpl; [intuition|]. rewrite IH. intuition.
Qed.

Lemma sort_str_In l y : In y (sort_str l) <-> In y l.
Proof.
  induction l as [|x l IH]; simpl; [reflexivity|].
  rewrite insert_str_In, IH. intuition.
Qed.

Lemma insert_str_sorted x l :
  ~ In x l -> StronglySorted str_lt l -> StronglySorted str_lt (insert_str x l).
Proof.
  induction l as [|y l IH]; intros Hx Hs; simpl.
  - constructor; constructor.
  - inversion Hs as [|? ? Hs' Hall]; subst.
    destruct (String.ltb x y) eqn:E.
    + constructor; [exact Hs|]. constructor; [exact E|].
      eapply Forall_impl; [exact Hall|]. intros z Hz. eapply str_lt_trans; eauto.
    + constructor.
      * apply IH; [intros H; apply Hx; now right|exact Hs'].
      * apply List.Forall_forall. intros z Hz. apply insert_str_In in Hz.
        destruct Hz as [->|Hz].
        -- apply str_lt_total; [|exact E]. intros ->. apply Hx. now left.
        -- rewrite List.Forall_forall in Hall. now apply Hall.
Qed.

Lemma sort_str_sorted l : NoDup l -> StronglySorted str_lt (sort_str l).
Proof.
  induction 1 as [|x l Hx _ IH]; simpl; [constructor|].
  apply insert_str_sorted; [|exact IH]. now rewrite sort_str_In, <- list_elem_of_In.
Qed.

Lemma fallback_results_not_sorted sorted :
  StronglySorted str_lt sorted ->
  fallback_results <> map (fun c => city_entry (VStr c)) sorted.
Proof.
  intros Hs E. unfold fallback_results, city_entry in E.
  destruct sorted as [|a [|b [|c [|]]]]; try discriminate.
  injection E as <- <- <-.
  inversion Hs as [|? ? _ Hall]; subst. inversion Hall as [|? ? Hab _]; subst.
  discriminate Hab.
Qed.

(** C9.  Whatever data the fetch gives, if its [results] are locations of
    the expected shape then [get_cities] returns the fixed fallback list
    exactly when no city name is extracted, and otherwise the extracted
    names without duplicates in ascending order; and a failed upstream call
    (the fetch answers with an empty result set) gives the fallback list. *)
Theorem get_cities_sorted_or_fallback :
  (forall (s : State) country data s' locs,
      fetch_and_cache (cities_url country) (Some HEADERS)
        (VDict [(VStr "results", VList [])]) (Some ("cities_" +:+ country)) s
      = (Ok data, s') ->
      py_get data "results" (VList []) = Ok (VList locs) ->
      Forall (fun loc => wf_location loc = true) locs ->
      exists cities,
        get_cities country s = (Ok (VDict [(VStr "cities", VList cities)]), s') /\
        (cities = [VDict [(VStr "city", VStr "Tashkent")];
                   VDict [(VStr "city", VStr "New York")];
                   VDict [(VStr "city", VStr "Delhi")]]
         <-> extracted_names locs = []) /\
        (extracted_names locs <> [] ->
         exists sorted,
           cities = map (fun c => VDict [(VStr "city", VStr c)]) sorted /\
           StronglySorted str_lt sorted /\
           forall c, In c sorted <-> In c (extracted_names locs))) /\
  (forall (s : State) country now w1 kind msg w2,
      datetime_now (world s) = (now, w1) ->
      cache_hit (CACHE s) ("cities_" +:+ country) now = None ->
      requests_get_json (cities_url country) (Some HEADERS) 10 w1 = (inl (kind, msg), w2) ->
      fst (get_cities country s)
      = Ok (VDict [(VStr "cities",
                    VList [VDict [(VStr "city", VStr "Tashkent")];
                           VDict [(VStr "city", VStr "New York")];
                           VDict [(VStr "city", VStr "Delhi")]])])).
Proof.
  split.
  - intros s country data s' locs Hfetch Hres Hwf.
    unfold get_cities. unfold bind at 1. rewrite Hfetch.
    unfold lift, cities_of. rewrite Hres. simpl.
    pose proof (fold_add_city locs Hwf []) as Hfold. simpl in Hfold.
    rewrite Hfold. simpl. rewrite py_sorted_str. simpl.
    set (names := extracted_names locs).
    set (sorted := sort_str (fold_left add_name names [])).
    assert (Hin : forall c, In c sorted <-> In c names).
    { intros c. unfold sorted. rewrite sort_str_In, fold_add_name_In. simpl. intuition. }
    assert (Hs : StronglySorted str_lt sorted).
    { apply sort_str_sorted, fold_add_name_NoDup. constructor. }
    destruct sorted as [|c0 sorted'] eqn:Es.
    + simpl. eexists. split; [reflexivity|].
      assert (names = []).
      { destruct names as [|n ?]; [reflexivity|]. destruct (proj2 (Hin n)). now left. }
      split; [tauto|]. intros Hne. contradiction.
    + simpl. eexists. split; [reflexivity|]. split.
      * split.
        -- intros E. exfalso.
           apply (fallback_results_not_sorted (c0 :: sorted') Hs).
           symmetry. etransitivity; [|exact E]. simpl. now rewrite map_map.
        -- intros E. rewrite E in Hin. destruct (proj1 (Hin c0)). now left.
      * intros _. exists (c0 :: sorted'). split; [|split; assumption].
        simpl. now rewrite map_map.
  - intros s country now w1 kind msg w2 Hnow Hmiss Hget.
    unfold get_cities.
    unfold bind.
    rewrite (fetch_and_cache_miss s (cities_url country) (Some HEADERS)
               (VDict [(VStr "results", VList [])]) (Some ("cities_" +:+ country))
               now w1 (inl (kind, msg)) w2 Hnow); [reflexivity| |exact Hget].
    unfold key_or_url. destruct (String.eqb _ "") eqn:Ee; [|exact Hmiss].
    apply String.eqb_eq in Ee. discriminate.
Qed.

(** *** Aggregation *)

Lemma Qeq_bool_sym x y : Qeq_bool x y = Qeq_bool y x.
Proof.
  destruct (Qeq_bool x y) eqn:E1, (Qeq_bool y x) eqn:E2; try reflexivity.
  - apply Qeq_bool_iff in E1. symmetry in E1. apply Qeq_bool_iff in E1. congruence.
  - apply Qeq_bool_iff in E2. symmetry in E2. apply Qeq_bool_iff in E2. congruence.
Qed.

Lemma Qeq_bool_transitive x y z :
  Qeq_bool x y = true -> Qeq_bool y z = true -> Qeq_bool x z = true.
Proof.
  rewrite !Qeq_bool_iff. intros H1 H2. now rewrite H1.
Qed.

Lemma key_eqb_sym a b : key_eqb a b = key_eqb b a.
Proof.
  destruct a, b; simpl; try reflexivity; try apply Qeq_bool_sym.
  apply String.eqb_sym.
Qed.

Lemma key_eqb_trans a b c :
  key_eqb a b = true -> key_eqb b c = true -> key_eqb a c = true.
Proof.
  destruct a, b; simpl; try discriminate; destruct c; simpl; try discriminate;
    try apply Qeq_bool_transitive; try reflexivity.
  rewrite !String.eqb_eq. congruence.
Qed.

Lemma key_eqb_right a b c :
  key_eqb a b = true -> key_eqb a c = key_eqb b c.
Proof.
  intros H. destruct (key_eqb b c) eqn:E.
  - eapply key_eqb_trans; eauto.
  - destruct (key_eqb a c) eqn:E'; [|reflexivity].
    rewrite key_eqb_sym in H. rewrite <- E. symmetry. eapply key_eqb_trans; eauto.
Qed.

Lemma filed_under_append p param v agg :
  filed_under p (append_under param v agg)
  = if key_eqb param p
    then Some (match filed_under p agg with Some vs => vs | None => [] end ++ [v])
    else filed_under p agg.
Proof.
  induction agg as [|[k vs] rest IH]; simpl.
  - destruct (key_eqb param p); reflexivity.
  - destruct (key_eqb k param) eqn:E1; simpl.
    + rewrite (key_eqb_right _ _ p E1). destruct (key_eqb param p); reflexivity.
    + destruct (key_eqb k p) eqn:E2; [|exact IH].
      destruct (key_eqb param p) eqn:E3; [|reflexivity].
      rewrite key_eqb_sym in E3. rewrite (key_eqb_right _ _ param E2) in E1. congruence.
Qed.

Lemma filed_under_accumulate p pairs : forall agg,
  match filed_under p agg with Some vs => vs | None => [] end ++ raw_values_for p pairs
  = match filed_under p (accumulate pairs agg) with Some vs => vs | None => [] end
  /\ (filed_under p (accumulate pairs agg) = None ->
      filed_under p agg = None /\ raw_values_for p pairs = []).
Proof.
  unfold accumulate, raw_values_for.
  induction pairs as [|[k v] pairs IH]; intros agg; simpl.
  - rewrite app_nil_r. auto.
  - destruct (IH (append_under k v agg)) as [IH1 IH2]. rewrite <- IH1.
    rewrite filed_under_append in *.
    destruct (key_eqb k p) eqn:E; simpl.
    + rewrite <- app_assoc. simpl.
      split; [reflexivity|]. intros H. destruct (IH2 H). discriminate.
    + auto.
Qed.

Lemma py_sum_numeric vals : forall start,
  Forall (fun v => is_Some (as_number v)) vals ->
  py_sum vals start = Ok (fold_left Qplus (omap as_number vals) start).
Proof.
  induction vals as [|v vals IH]; intros start H; simpl; [reflexivity|].
  inversion H as [|? ? [q Hq] Hrest]; subst. rewrite Hq. simpl. now apply IH.
Qed.

Lemma omap_as_number_length vals :
  Forall (fun v => is_Some (as_number v)) vals ->
  length (omap as_number vals) = length vals.
Proof.
  induction 1 as [|v vals [q Hq] _ IH]; simpl; [reflexivity|].
  rewrite Hq. simpl. f_equal. exact IH.
Qed.

Lemma averages_numeric agg :
  Forall (fun kvs => Forall (fun v => is_Some (as_number v)) (snd kvs)) agg ->
  averages agg = Ok (avg_of agg).
Proof.
  induction 1 as [|[k vs] agg Hk _ IH]; [reflexivity|].
  simpl in Hk. destruct vs as [|v vs]; [exact IH|].
  remember (v :: vs) as vals eqn:Ev.
  assert (E : averages ((k, vals) :: agg)
              = (total <~ py_sum vals 0 ;;
                 avg <~ averages agg ;;
                 Ok ((k, VNum (total / inject_Z (Z.of_nat (length vals)))) :: avg)))
    by (subst vals; reflexivity).
  assert (E2 : avg_of ((k, vals) :: agg)
               = (k, VNum (mean (omap as_number vals))) :: avg_of agg)
    by (subst vals; reflexivity).
  rewrite E, E2, (py_sum_numeric _ _ Hk), IH. simpl.
  unfold mean. rewrite omap_as_number_length by exact Hk. reflexivity.
Qed.

Lemma dict_lookup_avg_of p agg :
  Forall (fun kvs => snd kvs <> []) agg ->
  dict_lookup p (avg_of agg)
  = match filed_under p agg with
    | Some vs => Some (VNum (mean (omap as_number vs)))
    | None => None
    end.
Proof.
  induction 1 as [|[k vs] agg Hk _ IH]; simpl; [reflexivity|].
  destruct vs as [|v vs]; [contradiction|]. simpl.
  destruct (key_eqb k p); [reflexivity|exact IH].
Qed.

Lemma add_measurement_wf m agg :
  wf_measurement m = true ->
  exists kv, measurement_pair m = Some kv /\
             is_Some (as_number (snd kv)) /\
             add_measurement m agg = Ok (append_under (fst kv) (snd kv) agg).
Proof.
  unfold wf_measurement, add_measurement, measurement_pair.
  destruct m as [| | | | |d]; try discriminate. simpl.
  destruct (dict_lookup (VStr "parameter") d) as [p|]; [|discriminate].
  destruct (dict_lookup (VStr "value") d) as [v|]; [|discriminate].
  intros H. apply andb_true_iff in H. destruct H as [Hh Hn].
  exists (p, v). split; [reflexivity|]. split.
  - simpl. destruct (as_number v); [eauto|discriminate].
  - simpl. unfold setdefault_append. now rewrite Hh.
Qed.

Lemma fold_add_measurement ms : forall agg,
  forallb wf_measurement ms = true ->
  fold_result add_measurement ms agg = Ok (accumulate (omap measurement_pair ms) agg) /\
  Forall (fun kv => is_Some (as_number (snd kv))) (omap measurement_pair ms).
Proof.
  induction ms as [|m ms IH]; intros agg H; simpl.
  - split; [reflexivity|constructor].
  - simpl in H. apply andb_true_iff in H. destruct H as [Hm Hms].
    destruct (add_measurement_wf m agg Hm) as (kv & E1 & Hn & E2).
    rewrite E2, E1. simpl. destruct (IH (append_under (fst kv) (snd kv) agg) Hms) as [E3 F].
    split; [exact E3|]. now constructor.
Qed.

Lemma add_station_wf station agg sts :
  wf_station station = true ->
  add_station station (agg, sts)
  = Ok (accumulate (readings_of station) agg, sts ++ [station]) /\
  Forall (fun kv => is_Some (as_number (snd kv))) (readings_of station).
Proof.
  unfold wf_station, add_station, readings_of.
  destruct station as [| | | | |d]; try discriminate. simpl.
  destruct (dict_lookup (VStr "measurements") d) as [[| | | |ms|]|]; try discriminate; simpl.
  - intros H. destruct (fold_add_measurement ms agg H) as [E F]. rewrite E. simpl. auto.
  - intros _. split; [reflexivity|constructor].
Qed.

Lemma accumulate_app pairs1 pairs2 agg :
  accumulate (pairs1 ++ pairs2) agg = accumulate pairs2 (accumulate pairs1 agg).
Proof. apply fold_left_app. Qed.

Lemma fold_add_station stations : forall agg sts,
  forallb wf_station stations = true ->
  fold_result add_station stations (agg, sts)
  = Ok (accumulate (reported stations) agg, sts ++ stations) /\
  Forall (fun kv => is_Some (as_number (snd kv))) (reported stations).
Proof.
  induction stations as [|st stations IH]; intros agg sts H; simpl.
  - rewrite app_nil_r. split; [reflexivity|constructor].
  - simpl in H. apply andb_true_iff in H. destruct H as [Hs Hrest].
    destruct (add_station_wf st agg sts Hs) as [E F]. rewrite E. simpl.
    destruct (IH (accumulate (readings_of st) agg) (sts ++ [st]) Hrest) as [E2 F2].
    rewrite E2. unfold reported in *. simpl. rewrite accumulate_app, <- app_assoc. simpl.
    split; [reflexivity|]. apply Forall_app. auto.
Qed.

Lemma wf_answer_records a :
  wf_answer a = true ->
  Forall (fun kv => is_Some (as_number (snd kv))) (reported (records_of a)).
Proof.
  destruct a as [f|[| | | | |d]]; try discriminate; simpl; try (intros; constructor).
  destruct (dict_lookup (VStr "results") d) as [[| | | |l|]|]; try discriminate;
    try (intros; constructor).
  intros H. apply (fold_add_station l [] [] H).
Qed.

Lemma visit_location_unnamed loc acc (s : State) :
  is_dict loc = true -> location_name_of loc = None ->
  visit_location loc acc s = (Ok acc, s).
Proof.
  destruct loc as [| | | | |d]; try discriminate. intros _.
  unfold location_name_of, visit_location. run.
  destruct (py_truthy match dict_lookup (VStr "name") d with Some v => v | None => VNone end);
    simpl; destruct (py_truthy _); simpl; (reflexivity || discriminate).
Qed.

Lemma visit_location_named loc name acc (s : State) r w1 :
  location_name_of loc = Some name ->
  requests_get_json (latest_url name) (Some HEADERS) 10 (world s) = (r, w1) ->
  wf_answer r = true ->
  visit_location loc acc s
  = (Ok (accumulate (reported (records_of r)) (fst acc), snd acc ++ records_of r),
     {| CACHE := CACHE s; world := w1;
        upstream_calls := upstream_calls s ++ [latest_url name] |}).
Proof.
  destruct loc as [| | | | |d]; try discriminate.
  unfold location_name_of, visit_location. run.
  set (n := match dict_lookup (VStr "name") d with Some v => v | None => VNone end).
  destruct (py_truthy n) eqn:Tn; simpl.
  - rewrite Tn. simpl. intros [= <-] Hget Hwf. rewrite Hget.
    destruct acc as [agg sts].
    destruct r as [[k msg]|body]; simpl.
    + rewrite app_nil_r. reflexivity.
    + destruct body as [| | | | |b]; try discriminate. simpl in *.
      destruct (dict_lookup (VStr "results") b) as [[| | | |l|]|]; try discriminate; simpl.
      * destruct (fold_add_station l agg sts Hwf) as [E2 _]. rewrite E2. reflexivity.
      * rewrite app_nil_r. reflexivity.
  - set (n2 := match dict_lookup (VStr "location") d with Some v => v | None => VNone end).
    destruct (py_truthy n2) eqn:Tn2; simpl; [|discriminate].
    intros [= <-] Hget Hwf. rewrite Hget.
    destruct acc as [agg sts].
    destruct r as [[k msg]|body]; simpl.
    + rewrite app_nil_r. reflexivity.
    + destruct body as [| | | | |b]; try discriminate. simpl in *.
      destruct (dict_lookup (VStr "results") b) as [[| | | |l|]|]; try discriminate; simpl.
      * destruct (fold_add_station l agg sts Hwf) as [E2 _]. rewrite E2. reflexivity.
      * rewrite app_nil_r. reflexivity.
Qed.

Lemma reported_app l1 l2 : reported (l1 ++ l2) = reported l1 ++ reported l2.
Proof. unfold reported. now rewrite flat_map_app. Qed.

Lemma for_each_visit locs : forall acc (s : State) answers w',
  Forall (fun loc => is_dict loc = true) locs ->
  latest_answers locs (world s) = (answers, w') ->
  Forall (fun a => wf_answer (snd a) = true) answers ->
  for_each locs visit_location acc s
  = (Ok (accumulate (reported (flat_map (fun a => records_of (snd a)) answers)) (fst acc),
         snd acc ++ flat_map (fun a => records_of (snd a)) answers),
     {| CACHE := CACHE s; world := w';
        upstream_calls := upstream_calls s ++ map (fun a => latest_url (fst a)) answers |}).
Proof.
  induction locs as [|loc locs IH]; intros acc s answers w' Hd Hl Hwf.
  - simpl in Hl. injection Hl as <- <-. destruct s, acc. simpl. unfold ret.
    now rewrite !app_nil_r.
  - inversion Hd as [|? ? Hloc Hrest]; subst. simpl in Hl. simpl. unfold bind.
    destruct (location_name_of loc) as [name|] eqn:En.
    + destruct (requests_get_json (latest_url name) (Some HEADERS) 10 (world s))
        as [r w1] eqn:Hget.
      destruct (latest_answers locs w1) as [rs w2] eqn:Hrs.
      injection Hl as <- <-.
      inversion Hwf as [|? ? Hr Hrs']; subst. simpl in Hr.
      rewrite (visit_location_named loc name acc s r w1 En Hget Hr).
      rewrite (IH _ {| CACHE := CACHE s; world := w1;
                       upstream_calls := upstream_calls s ++ [latest_url name] |}
                  rs w2 Hrest Hrs Hrs'). simpl.
      rewrite reported_app, accumulate_app, <- !app_assoc. reflexivity.
    + rewrite (visit_location_unnamed loc acc s Hloc En). now apply IH.
Qed.

Lemma append_under_invariants p v agg :
  is_Some (as_number v) -> numeric_lists agg -> nonempty_lists agg ->
  numeric_lists (append_under p v agg) /\ nonempty_lists (append_under p v agg).
Proof.
  unfold numeric_lists, nonempty_lists. intros Hv.
  induction agg as [|[k vs] agg IH]; intros Hn He; simpl.
  - split; repeat constructor; [exact Hv|discriminate].
  - inversion Hn as [|? ? Hn1 Hn2]; inversion He as [|? ? He1 He2]; subst.
    destruct (key_eqb k p).
    + split; constructor; simpl; auto.
      * apply Forall_app. split; [exact Hn1|]. now repeat constructor.
      * intros E. now apply app_eq_nil in E as [_ ?].
    + destruct (IH Hn2 He2). split; constructor; auto.
Qed.

Lemma accumulate_invariants pairs : forall agg,
  Forall (fun kv => is_Some (as_number (snd kv))) pairs ->
  numeric_lists agg -> nonempty_lists agg ->
  numeric_lists (accumulate pairs agg) /\ nonempty_lists (accumulate pairs agg).
Proof.
  unfold accumulate. induction pairs as [|[k v] pairs IH]; intros agg Hp Hn He; simpl.
  - auto.
  - inversion Hp as [|? ? Hv Hrest]; subst. simpl in Hv.
    destruct (append_under_invariants k v agg Hv Hn He). now apply IH.
Qed.

Lemma values_for_raw p pairs :
  values_for p pairs = omap as_number (raw_values_for p pairs).
Proof.
  unfold values_for, raw_values_for.
  induction pairs as [|[k v] pairs IH]; simpl; [reflexivity|].
  destruct (key_eqb k p); simpl; [|exact IH].
  destruct (as_number v); [f_equal|]; exact IH.
Qed.

(** The averaged mapping holds, under each parameter, the mean of the
    values reported for it, and nothing for a parameter without values. *)
Lemma aggregated_lookup p pairs :
  Forall (fun kv => is_Some (as_number (snd kv))) pairs ->
  dict_lookup p (avg_of (accumulate pairs []))
  = match values_for p pairs with
    | [] => None
    | vs => Some (VNum (mean vs))
    end.
Proof.
  intros Hp.
  destruct (accumulate_invariants pairs [] Hp) as [Hn He]; [constructor|constructor|].
  rewrite (dict_lookup_avg_of p _ He), values_for_raw.
  destruct (filed_under_accumulate p pairs []) as [H1 H2]. simpl in H1.
  destruct (filed_under p (accumulate pairs [])) as [vs|] eqn:E.
  - rewrite H1.
    assert (Hvs : Forall (fun v => is_Some (as_number v)) vs /\ vs <> []).
    { clear H1 H2. unfold numeric_lists, nonempty_lists in *.
      induction (accumulate pairs []) as [|[k l] agg IH]; simpl in E; [discriminate|].
      inversion Hn; inversion He; subst.
      destruct (key_eqb k p); [injection E as <-; auto|auto]. }
    destruct Hvs as [Hnum Hne].
    pose proof (omap_as_number_length vs Hnum) as L.
    destruct (omap as_number vs) as [|q qs]; [|reflexivity].
    destruct vs; [contradiction|discriminate].
  - destruct (H2 eq_refl) as [_ ->]. reflexivity.
Qed.

Lemma reported_numeric (answers : list (value * (request_failure * string + value))) :
  Forall (fun a => wf_answer (snd a) = true) answers ->
  Forall (fun kv => is_Some (as_number (snd kv)))
         (reported (flat_map (fun a => records_of (snd a)) answers)).
Proof.
  induction 1 as [|a answers Ha _ IH]; simpl; [constructor|].
  rewrite reported_app. apply Forall_app. split; [now apply wf_answer_records|exact IH].
Qed.

(** A run of [air_quality] on a cache miss, a successful non-empty lookup
    and well-formed upstream data: the payload, the cache entry it writes
    and the calls it makes. *)
Lemma air_quality_success (s : State) city now w1 body w2 locs answers w3 :
  datetime_now (world s) = (now, w1) ->
  cache_hit (CACHE s) (air_quality_key city) now = None ->
  requests_get_json (loc_url city) (Some HEADERS) 10 w1 = (inr body, w2) ->
  py_get body "results" (VList []) = Ok (VList locs) ->
  locs <> [] ->
  Forall (fun loc => is_dict loc = true) locs ->
  latest_answers locs w2 = (answers, w3) ->
  Forall (fun a => wf_answer (snd a) = true) answers ->
  let stations := flat_map (fun a => records_of (snd a)) answers in
  let result := air_quality_result (avg_of (accumulate (reported stations) []))
                  (fst (datetime_utcnow w3)) stations in
  air_quality city s
  = (Ok (Payload result),
     {| CACHE := <[air_quality_key city := {| data := result; timestamp := now |}]> (CACHE s);
        world := snd (datetime_utcnow w3);
        upstream_calls := upstream_calls s
                          ++ loc_url city :: map (fun a => latest_url (fst a)) answers |}).
Proof.
  intros Hnow Hmiss Hget Hres Hne Hd Hl Hwf stations result.
  rewrite (air_quality_miss _ _ _ _ _ _ Hnow Hmiss Hget). rewrite Hres.
  assert (T : py_truthy (VList locs) = true) by (destruct locs; [contradiction|reflexivity]).
  rewrite T. unfold aggregate. unfold bind at 1. unfold lift at 1. simpl py_iter.
  cbv iota beta. unfold bind at 1.
  rewrite (for_each_visit locs ([], [])
             {| CACHE := CACHE s; world := w2;
                upstream_calls := upstream_calls s ++ [loc_url city] |} answers w3 Hd Hl Hwf).
  simpl fst. simpl snd. fold stations.
  pose proof (reported_numeric answers Hwf) as Hp. fold stations in Hp.
  destruct (accumulate_invariants (reported stations) [] Hp) as [Hn _];
    [constructor|constructor|].
  unfold bind at 1. unfold lift at 1. rewrite (averages_numeric _ Hn).
  run. destruct (datetime_utcnow w3) as [t w4]. simpl.
  subst result. simpl. rewrite <- app_assoc. reflexivity.
Qed.

(** C2.  On a run that aggregates (cache miss, successful non-empty
    lookup, upstream data of the expected shape, so every reported value is
    numeric), the returned payload carries the station records the latest
    calls gave and an [aggregated] mapping that has, for every parameter
    [p], the mean of all values these records report for [p], and no entry
    at all when they report none. *)
Theorem air_quality_aggregated_is_mean :
  forall (s : State) city now w1 body w2 locs answers w3,
    datetime_now (world s) = (now, w1) ->
    cache_hit (CACHE s) (air_quality_key city) now = None ->
    requests_get_json (loc_url city) (Some HEADERS) 10 w1 = (inr body, w2) ->
    py_get body "results" (VList []) = Ok (VList locs) ->
    locs <> [] ->
    Forall (fun loc => is_dict loc = true) locs ->
    latest_answers locs w2 = (answers, w3) ->
    Forall (fun a => wf_answer (snd a) = true) answers ->
    exists aggregated t stations s',
      air_quality city s
      = (Ok (Payload (VDict [(VStr "aggregated", VDict aggregated);
                             (VStr "last_updated", VStr (datetime_isoformat t +:+ "Z"));
                             (VStr "locations", VList stations)])), s') /\
      stations = flat_map (fun a => records_of (snd a)) answers /\
      forall p,
        dict_lookup p aggregated
        = match values_for p (reported stations) with
          | [] => None
          | vs => Some (VNum (mean vs))
          end.
Proof.
  intros s city now w1 body w2 locs answers w3 Hnow Hmiss Hget Hres Hne Hd Hl Hwf.
  pose proof (air_quality_success s city now w1 body w2 locs answers w3
                Hnow Hmiss Hget Hres Hne Hd Hl Hwf) as E.
  cbv zeta in E. do 4 eexists. split; [exact E|]. split; [reflexivity|].
  intros p. apply aggregated_lookup, reported_numeric, Hwf.
Qed.

(** C3 (amended).  On such a run every named station is queried, in the
    order resolved, whatever happened to the stations before it; the
    returned station list is the concatenation, in that order, of the
    records of the calls that succeeded, a failed call contributing nothing;
    and the aggregated mapping is computed from these records alone.  With
    three stations of which the second fails, the list is the records of the
    first followed by those of the third: two records when each of the two
    returns exactly one. *)
Theorem air_quality_partial_failure :
  forall (s : State) city now w1 body w2 locs answers w3,
    datetime_now (world s) = (now, w1) ->
    cache_hit (CACHE s) (air_quality_key city) now = None ->
    requests_get_json (loc_url city) (Some HEADERS) 10 w1 = (inr body, w2) ->
    py_get body "results" (VList []) = Ok (VList locs) ->
    locs <> [] ->
    Forall (fun loc => is_dict loc = true) locs ->
    latest_answers locs w2 = (answers, w3) ->
    Forall (fun a => wf_answer (snd a) = true) answers ->
    exists aggregated t stations s',
      air_quality city s
      = (Ok (Payload (VDict [(VStr "aggregated", VDict aggregated);
                             (VStr "last_updated", VStr (datetime_isoformat t +:+ "Z"));
                             (VStr "locations", VList stations)])), s') /\
      upstream_calls s'
      = upstream_calls s ++ loc_url city :: map (fun a => latest_url (fst a)) answers /\
      stations = flat_map (fun a => records_of (snd a)) answers /\
      (forall p,
          dict_lookup p aggregated
          = match values_for p (reported stations) with
            | [] => None
            | vs => Some (VNum (mean vs))
            end) /\
      (forall n1 b1 n2 failure n3 b3,
          answers = [(n1, inr b1); (n2, inl failure); (n3, inr b3)] ->
          stations = records_of (inr b1) ++ records_of (inr b3) /\
          (length (records_of (inr b1)) = 1%nat ->
           length (records_of (inr b3)) = 1%nat ->
           length stations = 2%nat)).
Proof.
  intros s city now w1 body w2 locs answers w3 Hnow Hmiss Hget Hres Hne Hd Hl Hwf.
  pose proof (air_quality_success s city now w1 body w2 locs answers w3
                Hnow Hmiss Hget Hres Hne Hd Hl Hwf) as E.
  cbv zeta in E. do 4 eexists. split; [exact E|].
  split; [reflexivity|]. split; [reflexivity|]. split.
  - intros p. apply aggregated_lookup, reported_numeric, Hwf.
  - intros n1 b1 n2 failure n3 b3 ->. simpl. rewrite app_nil_r.
    split; [reflexivity|]. intros L1 L3. rewrite length_app. lia.
Qed.

(** ** Further properties of the endpoints *)

(** *** Which cache entries an operation can touch *)

Lemma measurements_unfold location parameter limit :
  measurements location parameter limit
  = (results <- measurements_fallback limit ;;
     fetch_and_cache (measurements_url location parameter limit) (Some HEADERS)
       (VDict [(VStr "results", VList results)])
       (Some (measurements_key location parameter))).
Proof. reflexivity. Qed.

(** [fetch_and_cache] either leaves [CACHE] as it was or stores the body it
    returns under its key. *)
Lemma fetch_and_cache_cache_write url headers fallback cache_key (s : State) :
  CACHE (snd (fetch_and_cache url headers fallback cache_key s)) = CACHE s \/
  exists d now,
    fst (fetch_and_cache url headers fallback cache_key s) = Ok d /\
    CACHE (snd (fetch_and_cache url headers fallback cache_key s))
    = <[key_or_url cache_key url := {| data := d; timestamp := now |}]> (CACHE s).
Proof.
  destruct (datetime_now (world s)) as [now w1] eqn:Hnow.
  destruct (cache_hit (CACHE s) (key_or_url cache_key url) now) as [d|] eqn:Hhit.
  - left. now rewrite (fetch_and_cache_hit _ _ _ _ _ _ _ _ Hnow Hhit).
  - destruct (requests_get_json url headers 10 w1) as [r w2] eqn:Hget.
    rewrite (fetch_and_cache_miss _ _ _ _ _ _ _ _ _ Hnow Hhit Hget).
    destruct r as [f|d]; [now left|]. right. exists d, now. split; reflexivity.
Qed.

(** A write to one key changes no other entry and removes none. *)
Lemma cache_write_frame (c c' : gmap string cache_entry) key :
  (c' = c \/ exists e, c' = <[key := e]> c) ->
  (forall k, k <> key -> c' !! k = c !! k) /\
  (forall k, is_Some (c !! k) -> is_Some (c' !! k)).
Proof.
  intros [->|[e ->]]; [auto|]. split.
  - intros k Hk. now apply lookup_insert_ne.
  - intros k Hk. destruct (decide (key = k)) as [->|Hne].
    + rewrite lookup_insert_eq. eauto.
    + now rewrite lookup_insert_ne.
Qed.

(** X1.  A call of [fetch_and_cache] changes no cache entry but the one of
    its own key ([cache_key], or the URL when that is missing or empty), and
    removes no entry at all. *)
Theorem fetch_and_cache_touches_only_its_key :
  forall (s : State) url headers fallback cache_key,
    let s' := snd (fetch_and_cache url headers fallback cache_key s) in
    (forall k, k <> key_or_url cache_key url -> CACHE s' !! k = CACHE s !! k) /\
    (forall k, is_Some (CACHE s !! k) -> is_Some (CACHE s' !! k)).
Proof.
  intros s url headers fallback cache_key s'. apply cache_write_frame.
  destruct (fetch_and_cache_cache_write url headers fallback cache_key s)
    as [H|(d & now & _ & H)]; [now left|right; eauto].
Qed.

Lemma measurements_fallback_tame limit : tame (measurements_fallback limit).
Proof.
  apply tame_comprehension. intros i.
  apply tame_bind; [apply tame_utcnow|]. intros t.
  apply tame_bind; [apply tame_lift, pure_tame_datetime_add|]. intros; apply tame_ret.
Qed.

Lemma bind_lift_cache {A B} (m : M A) (f : A -> result B) (s : State) :
  CACHE (snd (bind m (fun a => lift (f a)) s)) = CACHE (snd (m s)).
Proof. unfold bind, lift. destruct (m s) as [[a|e] s1]; reflexivity. Qed.

Lemma get_cities_cache_write country (s : State) :
  CACHE (snd (get_cities country s)) = CACHE s \/
  exists e, CACHE (snd (get_cities country s)) = <[cities_key country := e]> (CACHE s).
Proof.
  unfold get_cities. rewrite bind_lift_cache.
  destruct (fetch_and_cache_cache_write (cities_url country) (Some HEADERS)
              (VDict [(VStr "results", VList [])]) (Some ("cities_" +:+ country)) s)
    as [H|(d & now & _ & H)]; [now left|right].
  eexists. exact H.
Qed.

Lemma get_countries_cache_write (s : State) :
  CACHE (snd (get_countries s)) = CACHE s \/
  exists e, CACHE (snd (get_countries s)) = <["countries" := e]> (CACHE s).
Proof.
  unfold get_countries. rewrite bind_lift_cache.
  destruct (fetch_and_cache_cache_write countries_url (Some HEADERS)
              countries_fallback (Some "countries") s)
    as [H|(d & now & _ & H)]; [now left|right].
  eexists. exact H.
Qed.

Lemma measurements_cache_write location parameter limit (s : State) :
  CACHE (snd (measurements location parameter limit s)) = CACHE s \/
  exists e, CACHE (snd (measurements location parameter limit s))
            = <[measurements_key location parameter := e]> (CACHE s).
Proof.
  rewrite measurements_unfold. unfold bind.
  destruct (measurements_fallback_tame limit s) as (Hc & _ & _).
  destruct (measurements_fallback limit s) as [[results|e] s1]; simpl in *; [|now left].
  destruct (fetch_and_cache_cache_write (measurements_url location parameter limit)
              (Some HEADERS) (VDict [(VStr "results", VList results)])
              (Some (measurements_key location parameter)) s1)
    as [H|(d & now & _ & H)].
  - left. congruence.
  - right. eexists. rewrite H, Hc. reflexivity.
Qed.

Lemma air_quality_cache_write_key city (s : State) :
  CACHE (snd (air_quality city s)) = CACHE s \/
  exists e, CACHE (snd (air_quality city s)) = <[air_quality_key city := e]> (CACHE s).
Proof.
  destruct (air_quality_cache_write city s) as [H|(r & now & _ & H)]; [now left|right].
  eexists. exact H.
Qed.

(** X2.  The four caching endpoints keep their entries apart: a call of one
    of them changes no entry that belongs to another endpoint, nor to the
    same endpoint under another city or country.  ([measurements] is the
    exception within itself, see below.) *)
Theorem endpoints_keep_their_entries_apart :
  forall (s : State) city country location parameter limit,
    (forall k,
        (k = "countries" \/ (exists c, k = cities_key c) \/
         (exists l p, k = measurements_key l p) \/
         (exists c, c <> city /\ k = air_quality_key c)) ->
        CACHE (snd (air_quality city s)) !! k = CACHE s !! k) /\
    (forall k,
        (k = "countries" \/ (exists c, c <> country /\ k = cities_key c) \/
         (exists l p, k = measurements_key l p) \/
         (exists c, k = air_quality_key c)) ->
        CACHE (snd (get_cities country s)) !! k = CACHE s !! k) /\
    (forall k,
        ((exists c, k = cities_key c) \/
         (exists l p, k = measurements_key l p) \/
         (exists c, k = air_quality_key c)) ->
        CACHE (snd (get_countries s)) !! k = CACHE s !! k) /\
    (forall k,
        (k = "countries" \/ (exists c, k = cities_key c) \/
         (exists c, k = air_quality_key c)) ->
        CACHE (snd (measurements location parameter limit s)) !! k = CACHE s !! k).
Proof.
  intros s city country location parameter limit.
  assert (Inj : forall p a b : string, p +:+ a = p +:+ b -> a = b).
  { induction p as [|ch p IH]; simpl; intros a b H; [exact H|].
    injection H as H. now apply IH. }
  split; [|split; [|split]]; intros k Hk.
  - apply (cache_write_frame _ _ _ (air_quality_cache_write_key city s)).
    destruct Hk as [->|[[c ->]|[(l & p & ->)|(c & Hc & ->)]]]; try discriminate.
    intros E. apply Hc. exact (Inj _ _ _ E).
  - apply (cache_write_frame _ _ _ (get_cities_cache_write country s)).
    destruct Hk as [->|[(c & Hc & ->)|[(l & p & ->)|[c ->]]]]; try discriminate.
    intros E. apply Hc. exact (Inj _ _ _ E).
  - apply (cache_write_frame _ _ _ (get_countries_cache_write s)).
    destruct Hk as [[c ->]|[(l & p & ->)|[c ->]]]; discriminate.
  - apply (cache_write_frame _ _ _ (measurements_cache_write location parameter limit s)).
    destruct Hk as [->|[[c ->]|[c ->]]]; discriminate.
Qed.

Lemma py_get_raises o k d e : py_get o k d = Raise e -> e = AttributeError.
Proof. destruct o; simpl; congruence. Qed.

(** [current_weather] makes one call and does not go near the cache. *)
Lemma current_weather_effects lat lon (s : State) :
  CACHE (snd (current_weather lat lon s)) = CACHE s /\
  upstream_calls (snd (current_weather lat lon s))
  = upstream_calls s ++ [current_weather_url lat lon].
Proof.
  unfold current_weather. run.
  destruct (requests_get_json _ _ _ _) as [[[kd m]|d] w]; simpl; [auto|].
  destruct (py_get d _ _) as [cw|e] eqn:E; simpl; [auto|].
  apply py_get_raises in E. subst e. auto.
Qed.

Lemma base_temperature_effects lat lon (s : State) :
  CACHE (snd (base_temperature lat lon s)) = CACHE s /\
  upstream_calls (snd (base_temperature lat lon s))
  = upstream_calls s ++ [current_weather_url lat lon].
Proof.
  unfold base_temperature. run.
  destruct (requests_get_json _ _ _ _) as [[[k2 m2]|d2] w2]; simpl; [auto|].
  destruct (py_get d2 _ _) as [cw|e]; simpl; [|auto].
  destruct (py_get cw _ _); auto.
Qed.

Lemma silent_ret {A} (a : A) : silent (ret a).
Proof. intros s. auto. Qed.

Lemma silent_lift {A} (r : result A) : silent (lift r).
Proof. intros s. auto. Qed.

Lemma silent_bind {A B} (m : M A) (k : A -> M B) :
  silent m -> (forall a, silent (k a)) -> silent (bind m k).
Proof.
  intros Hm Hk s. unfold bind. destruct (Hm s) as [Hc Hu].
  destruct (m s) as [[a|e] s1]; simpl in *; [|auto].
  destruct (Hk a s1) as [Hc2 Hu2]. split; congruence.
Qed.

Lemma silent_comprehension {X Y} (f : X -> M Y) items :
  (forall x, silent (f x)) -> silent (comprehension items f).
Proof.
  intros Hf. induction items as [|x rest IH]; simpl.
  - apply silent_ret.
  - apply silent_bind; [apply Hf|]. intros y.
    apply silent_bind; [exact IH|]. intros; apply silent_ret.
Qed.

Lemma silent_utcnow : silent utcnow_.
Proof. intros s. unfold utcnow_. destruct (datetime_utcnow (world s)); auto. Qed.

Lemma silent_uniform a b : silent (uniform_ a b).
Proof. intros s. unfold uniform_. destruct (random_uniform a b (world s)); auto. Qed.

Lemma silent_naive_forecast temp days : silent (naive_forecast temp days).
Proof.
  unfold naive_forecast.
  apply silent_bind; [apply silent_utcnow|]; intros base.
  apply silent_bind.
  { apply silent_comprehension. intros i.
    apply silent_bind; [apply silent_lift|]. intros; apply silent_ret. }
  intros dates. apply silent_bind.
  { apply silent_comprehension. intros i.
    apply silent_bind; [apply silent_lift|]. intros x.
    apply silent_bind; [apply silent_uniform|]. intros; apply silent_ret. }
  intros tmax. apply silent_bind.
  { apply silent_comprehension. intros i.
    apply silent_bind; [apply silent_lift|]. intros x.
    apply silent_bind; [apply silent_uniform|]. intros; apply silent_ret. }
  intros tmin. apply silent_bind.
  { apply silent_comprehension. intros i.
    apply silent_bind; [apply silent_uniform|]. intros; apply silent_ret. }
  intros; apply silent_ret.
Qed.

Lemma silent_measurements_fallback limit : silent (measurements_fallback limit).
Proof.
  apply silent_comprehension. intros i.
  apply silent_bind; [apply silent_utcnow|]. intros t.
  apply silent_bind; [apply silent_lift|]. intros; apply silent_ret.
Qed.

(** What [forecast] does to the cache and to the upstream, by the answer to
    its forecast call. *)
Lemma forecast_effects lat lon days (s : State) :
  CACHE (snd (forecast lat lon days s)) = CACHE s /\
  upstream_calls (snd (forecast lat lon days s))
  = upstream_calls s
    ++ match fst (requests_get_json (forecast_url lat lon days) None 10 (world s)) with
       | inr _ => [forecast_url lat lon days]
       | inl _ => [forecast_url lat lon days; current_weather_url lat lon]
       end.
Proof.
  remember (forecast lat lon days s) as X eqn:EX.
  unfold forecast, try_except in EX. unfold bind at 1 in EX. unfold get_json in EX.
  destruct (requests_get_json _ _ _ _) as [[[kd m]|d] w']; simpl in *.
  - unfold bind at 1 in EX. unfold log, ret in EX. unfold bind in EX.
    match type of EX with context [base_temperature lat lon ?s1] =>
      destruct (base_temperature_effects lat lon s1) as [B1 B2];
      destruct (base_temperature lat lon s1) as [[temp|e] s2]; simpl in * end.
    + destruct (silent_naive_forecast temp days s2) as [N1 N2]. subst X.
      rewrite N1, N2, B1, B2, <- app_assoc. auto.
    + subst X. simpl. rewrite B1, B2, <- app_assoc. auto.
  - unfold bind, lift, ret in EX.
    destruct (py_get d "daily" (VDict [])) as [daily|e] eqn:E; simpl in EX.
    + subst X. auto.
    + apply py_get_raises in E. subst e X. auto.
Qed.

(** X3.  No endpoint ever removes a cache entry: a key present before a call
    is present after it. *)
Theorem cache_entries_are_never_removed :
  forall (s : State) k,
    is_Some (CACHE s !! k) ->
    (forall city, is_Some (CACHE (snd (air_quality city s)) !! k)) /\
    (forall country, is_Some (CACHE (snd (get_cities country s)) !! k)) /\
    is_Some (CACHE (snd (get_countries s)) !! k) /\
    (forall location parameter limit,
        is_Some (CACHE (snd (measurements location parameter limit s)) !! k)) /\
    (forall lat lon, is_Some (CACHE (snd (current_weather lat lon s)) !! k)) /\
    (forall lat lon days, is_Some (CACHE (snd (forecast lat lon days s)) !! k)).
Proof.
  intros s k Hk.
  split; [|split; [|split; [|split; [|split]]]].
  - intros city.
    now apply (cache_write_frame _ _ _ (air_quality_cache_write_key city s)).
  - intros country.
    now apply (cache_write_frame _ _ _ (get_cities_cache_write country s)).
  - now apply (cache_write_frame _ _ _ (get_countries_cache_write s)).
  - intros location parameter limit.
    now apply (cache_write_frame _ _ _ (measurements_cache_write location parameter limit s)).
  - intros lat lon. now rewrite (proj1 (current_weather_effects lat lon s)).
  - intros lat lon days. now rewrite (proj1 (forecast_effects lat lon days s)).
Qed.

(** *** The weather endpoints *)

(** X4.  The two weather endpoints never use the cache: whatever [CACHE]
    holds they go to the upstream, [current_weather] with exactly one
    request, [forecast] with one request when the forecast call succeeds and
    with exactly two (forecast, then current weather) when it fails; and
    they leave [CACHE] as it was. *)
Theorem weather_endpoints_bypass_cache :
  forall (s : State) lat lon days,
    (CACHE (snd (current_weather lat lon s)) = CACHE s /\
     upstream_calls (snd (current_weather lat lon s))
     = upstream_calls s ++ [current_weather_url lat lon]) /\
    (CACHE (snd (forecast lat lon days s)) = CACHE s /\
     upstream_calls (snd (forecast lat lon days s))
     = upstream_calls s
       ++ match fst (requests_get_json (forecast_url lat lon days) None 10 (world s)) with
          | inr _ => [forecast_url lat lon days]
          | inl _ => [forecast_url lat lon days; current_weather_url lat lon]
          end).
Proof.
  intros s lat lon days. split.
  - apply current_weather_effects.
  - apply forecast_effects.
Qed.

(** X5.  What [current_weather] answers, by the outcome of its request: a
    failure becomes an [HTTPException] with status 502 carrying the failure's
    message; a JSON object becomes the payload tagged [open-meteo] with the
    object's [current_weather] field, or [None] when the object has none; any
    other decoded body makes the [AttributeError] of [data.get] escape, which
    the handler does not turn into a 502. *)
Theorem current_weather_outcomes :
  forall (s : State) lat lon,
    fst (current_weather lat lon s)
    = match fst (requests_get_json (current_weather_url lat lon) None 8 (world s)) with
      | inl (_, msg) => Raise (HTTPException 502 ("Open-Meteo request failed: " +:+ msg))
      | inr (VDict d) =>
          Ok (VDict [(VStr "source", VStr "open-meteo");
                     (VStr "current_weather", field "current_weather" d)])
      | inr _ => Raise AttributeError
      end.
Proof.
  intros s lat lon. unfold current_weather. run.
  destruct (requests_get_json _ _ _ _) as [[[kd m]|d] w]; simpl; [reflexivity|].
  destruct d; reflexivity.
Qed.

(** A naive forecast that is returned has the shape of lines 250-251. *)
Lemma naive_forecast_shape temp days (s : State) v s' :
  naive_forecast temp days s = (Ok v, s') ->
  exists dates tmax tmin precip, v = forecast_payload dates tmax tmin precip.
Proof.
  unfold naive_forecast, bind, ret.
  destruct (utcnow_ s) as [[base|e] s1]; [|discriminate].
  destruct (comprehension _ _ s1) as [[dates|e] s2]; [|discriminate].
  destruct (comprehension _ _ s2) as [[tmax|e] s3]; [|discriminate].
  destruct (comprehension _ _ s3) as [[tmin|e] s4]; [|discriminate].
  destruct (comprehension _ _ s4) as [[precip|e] s5]; [|discriminate].
  intros [= <- _]. now exists dates, tmax, tmin, precip.
Qed.

(** [forecast], by the answer to its forecast call. *)
Lemma forecast_cases lat lon days (s : State) :
  forecast lat lon days s
  = let (r, w) := requests_get_json (forecast_url lat lon days) None 10 (world s) in
    let s1 := {| CACHE := CACHE s; world := w;
                 upstream_calls := upstream_calls s ++ [forecast_url lat lon days] |} in
    match r with
    | inl _ => bind (base_temperature lat lon) (fun temp => naive_forecast temp days) s1
    | inr d =>
        match py_get d "daily" (VDict []) with
        | Ok daily =>
            (Ok (VDict [(VStr "source", VStr "open-meteo"); (VStr "daily", daily)]), s1)
        | Raise e => (Raise e, s1)
        end
    end.
Proof.
  unfold forecast, try_except. unfold bind at 1. unfold get_json.
  destruct (requests_get_json _ _ _ _) as [[[kd m]|d] w']; simpl.
  - reflexivity.
  - unfold bind, lift, ret.
    destruct (py_get d "daily" (VDict [])) as [daily|e] eqn:E; simpl; [reflexivity|].
    apply py_get_raises in E. now subst e.
Qed.

(** X6.  What [forecast] answers when it answers: if its forecast call
    succeeded, the body was a JSON object and the payload is tagged
    [open-meteo] and carries the object's [daily] field as it came (an empty
    dict when there is none); if the call failed, the payload is the naive
    forecast tagged [fallback].  A decoded body that is not an object makes
    [forecast] raise [AttributeError]: no naive forecast is made for it. *)
Theorem forecast_outcomes :
  forall (s : State) lat lon days,
    match fst (requests_get_json (forecast_url lat lon days) None 10 (world s)) with
    | inr (VDict d) =>
        fst (forecast lat lon days s)
        = Ok (VDict [(VStr "source", VStr "open-meteo");
                     (VStr "daily", match dict_lookup (VStr "daily") d with
                                    | Some v => v
                                    | None => VDict []
                                    end)])
    | inr _ => fst (forecast lat lon days s) = Raise AttributeError
    | inl _ =>
        forall v, fst (forecast lat lon days s) = Ok v ->
                  exists dates tmax tmin precip, v = forecast_payload dates tmax tmin precip
    end.
Proof.
  intros s lat lon days. rewrite forecast_cases.
  destruct (requests_get_json _ _ _ _) as [[[kd m]|d] w']; simpl.
  - unfold bind.
    match goal with |- context [base_temperature lat lon ?s1] =>
      destruct (base_temperature lat lon s1) as [[temp|e] s2] end; [|discriminate].
    intros v Hv. destruct (naive_forecast temp days s2) as [r s3] eqn:E.
    simpl in Hv. subst r. eapply naive_forecast_shape; eauto.
  - destruct d; reflexivity.
Qed.

(** *** The time series of a station *)

Lemma utc_readings_length n : forall w, length (fst (utc_readings n w)) = n.
Proof.
  induction n as [|n IH]; intros w; simpl; [reflexivity|].
  destruct (datetime_utcnow w) as [t w1]. specialize (IH w1).
  destruct (utc_readings n w1) as [ts w2]. simpl in *. now rewrite IH.
Qed.

Lemma key_or_url_measurements location parameter url :
  key_or_url (Some (measurements_key location parameter)) url
  = measurements_key location parameter.
Proof. reflexivity. Qed.

(** The fallback series, when the clock is far enough from [datetime.min]. *)
Lemma measurements_fallback_from n : forall k (s : State) ts w',
  utc_readings n (world s) = (ts, w') ->
  Forall (fun t => datetime_min + timedelta_hours (Z.of_nat (k + n)) <= t <= datetime_max) ts ->
  comprehension (map Z.of_nat (seq k n))
    (fun i =>
       t <- utcnow_ ;;
       t' <- lift (datetime_add t (- timedelta_hours i)) ;;
       ret (VDict [(VStr "date", VDict [(VStr "utc", VStr (datetime_isoformat t' +:+ "Z"))]);
                   (VStr "value", VNum (inject_Z (10 + i mod 5)))])) s
  = (Ok (zip_with synthetic_reading (map Z.of_nat (seq k n)) ts),
     {| CACHE := CACHE s; world := w'; upstream_calls := upstream_calls s |}).
Proof.
  induction n as [|n IH]; intros k s ts w' Hr Hts; simpl in Hr.
  - injection Hr as <- <-. destruct s; reflexivity.
  - destruct (datetime_utcnow (world s)) as [t w1] eqn:Ht.
    destruct (utc_readings n w1) as [ts' w2] eqn:Hts'.
    injection Hr as <- <-. inversion Hts as [|? ? Hrange Hrest]; subst.
    cbn [seq map comprehension]. unfold bind at 1. unfold bind at 1. unfold utcnow_ at 1.
    rewrite Ht. unfold lift at 1. unfold datetime_add at 1.
    assert (R : (datetime_min <=? t + - timedelta_hours (Z.of_nat k))
                && (t + - timedelta_hours (Z.of_nat k) <=? datetime_max) = true).
    { apply andb_true_intro. unfold timedelta_hours in *.
      split; apply Z.leb_le; lia. }
    rewrite R. unfold bind at 1. unfold ret at 1. unfold bind at 1.
    rewrite (IH (S k) {| CACHE := CACHE s; world := w1; upstream_calls := upstream_calls s |}
               ts' w2 Hts').
    + unfold ret. simpl. unfold synthetic_reading at 1. rewrite Z.add_opp_r. reflexivity.
    + eapply Forall_impl; [exact Hrest|]. cbv beta. intros t' Ht'.
      replace (S k + n)%nat with (k + S n)%nat by lia. exact Ht'.
Qed.

(** X7.  When there is no fresh cache entry and the upstream call of
    [measurements] fails, the endpoint returns a synthetic series and caches
    nothing: [limit] readings, the [i]-th with the value [10 + i % 5] and
    stamped [i] hours before the clock reading taken for it, provided the
    clock is at least [limit] hours after [datetime.min]. *)
Theorem measurements_fallback_series :
  forall (s : State) location parameter limit ts w0 now w1 kind msg w2,
    utc_readings (Z.to_nat limit) (world s) = (ts, w0) ->
    Forall (fun t => datetime_min + timedelta_hours limit <= t <= datetime_max) ts ->
    datetime_now w0 = (now, w1) ->
    cache_hit (CACHE s) (measurements_key location parameter) now = None ->
    requests_get_json (measurements_url location parameter limit) (Some HEADERS) 10 w1
    = (inl (kind, msg), w2) ->
    exists results s',
      measurements location parameter limit s
      = (Ok (VDict [(VStr "results", VList results)]), s') /\
      CACHE s' = CACHE s /\
      upstream_calls s' = upstream_calls s ++ [measurements_url location parameter limit] /\
      length results = Z.to_nat limit /\
      forall i, 0 <= i < limit ->
        exists t, ts !! Z.to_nat i = Some t /\
                  results !! Z.to_nat i = Some (synthetic_reading i t).
Proof.
  intros s location parameter limit ts w0 now w1 kind msg w2 Hr Hts Hnow Hmiss Hget.
  pose proof (utc_readings_length (Z.to_nat limit) (world s)) as Hlen.
  rewrite Hr in Hlen. simpl in Hlen.
  exists (zip_with synthetic_reading (py_range limit) ts). eexists.
  split; [|split; [|split; [|split]]].
  - rewrite measurements_unfold. unfold bind. unfold measurements_fallback, py_range.
    rewrite (measurements_fallback_from (Z.to_nat limit) 0 s ts w0 Hr).
    + rewrite (fetch_and_cache_miss _ _ _ _ _ now w1 (inl (kind, msg)) w2);
        [reflexivity|exact Hnow|exact Hmiss|exact Hget].
    + destruct ts as [|t0 ts']; [constructor|].
      assert (0 < limit) by (destruct limit; simpl in Hlen; try discriminate; lia).
      eapply Forall_impl; [exact Hts|]. simpl. intros t Ht.
      replace (Z.of_nat (Z.to_nat limit)) with limit by lia. exact Ht.
  - reflexivity.
  - reflexivity.
  - rewrite length_zip_with, py_range_length, Hlen. lia.
  - intros i Hi.
    destruct (lookup_lt_is_Some_2 ts (Z.to_nat i)) as [t Ht]; [lia|].
    exists t. split; [exact Ht|].
    apply lookup_zip_with_Some. exists i, t.
    split; [reflexivity|]. split; [now apply py_range_lookup|exact Ht].
Qed.

Lemma comprehension_raises {X Y} (f : X -> M Y) (P : exception -> Prop) items :
  (forall x s e s', f x s = (Raise e, s') -> P e) ->
  forall s e s', comprehension items f s = (Raise e, s') -> P e /\ items <> [].
Proof.
  intros Hf. induction items as [|x rest IH]; intros s e s'; simpl.
  - discriminate.
  - unfold bind. destruct (f x s) as [[y|e1] s1] eqn:E1.
    + destruct (comprehension rest f s1) as [[ys|e2] s2] eqn:E2.
      * discriminate.
      * intros [= <- <-]. split; [|discriminate]. exact (proj1 (IH _ _ _ E2)).
    + intros [= <- <-]. split; [|discriminate]. eapply Hf. exact E1.
Qed.

(** X8.  [measurements] can raise nothing but the [OverflowError] of the
    date arithmetic of its fallback series, which it builds first: when it
    raises, [limit] is positive, no request has been made and [CACHE] is as
    it was, whether or not the cache or the upstream had the data. *)
Theorem measurements_raises_before_any_request :
  forall (s : State) location parameter limit e,
    fst (measurements location parameter limit s) = Raise e ->
    e = OverflowError /\ 0 < limit /\
    upstream_calls (snd (measurements location parameter limit s)) = upstream_calls s /\
    CACHE (snd (measurements location parameter limit s)) = CACHE s.
Proof.
  intros s location parameter limit e. rewrite measurements_unfold. unfold bind.
  destruct (silent_measurements_fallback limit s) as [Hc Hu].
  destruct (measurements_fallback limit s) as [[results|e'] s1] eqn:E; simpl in *.
  - match goal with |- context [fetch_and_cache ?u ?h ?f ?k s1] =>
      destruct (fetch_and_cache_returns u h f k s1) as [v Hv]; rewrite Hv end.
    discriminate.
  - intros [= <-]. unfold measurements_fallback in E.
    apply (comprehension_raises _ (fun e => e = OverflowError)) in E.
    + destruct E as [-> Hne]. split; [reflexivity|]. split; [|auto].
      destruct limit; try lia; now contradiction Hne.
    + intros i s0 e0 s0'. unfold bind, utcnow_, lift, ret, datetime_add.
      destruct (datetime_utcnow (world s0)) as [t w].
      destruct (_ && _); [discriminate|]. now intros [= <- _].
Qed.

(** X9.  The cache entry of [measurements] is filed under the location and
    the parameter joined by an underscore, without [limit]: once a call has
    stored a body, every call within the hour whose location and parameter
    give the same key -- with another [limit], or with another location and
    parameter that join to the same text -- makes no request and gets that
    body (or the [OverflowError] of its own fallback series). *)
Theorem measurements_cache_ignores_limit :
  forall (s : State) location parameter limit results s0 now w1 d w2,
    measurements_fallback limit s = (Ok results, s0) ->
    datetime_now (world s0) = (now, w1) ->
    cache_hit (CACHE s) (measurements_key location parameter) now = None ->
    requests_get_json (measurements_url location parameter limit) (Some HEADERS) 10 w1
    = (inr d, w2) ->
    let key := measurements_key location parameter in
    let s1 := snd (measurements location parameter limit s) in
    fst (measurements location parameter limit s) = Ok d /\
    forall (s2 : State) location' parameter' limit' t w3,
      measurements_key location' parameter' = key ->
      CACHE s2 !! key = CACHE s1 !! key ->
      datetime_now (world (snd (measurements_fallback limit' s2))) = (t, w3) ->
      t - now < 3600 * 1000000 ->
      upstream_calls (snd (measurements location' parameter' limit' s2)) = upstream_calls s2 /\
      (fst (measurements location' parameter' limit' s2) = Ok d \/
       fst (measurements location' parameter' limit' s2) = Raise OverflowError).
Proof.
  intros s location parameter limit results s0 now w1 d w2 Hfb Hnow Hmiss Hget key s1.
  destruct (silent_measurements_fallback limit s) as [Hc0 _]. rewrite Hfb in Hc0.
  simpl in Hc0.
  assert (E1 : measurements location parameter limit s
               = (Ok d, {| CACHE := <[key := {| data := d; timestamp := now |}]> (CACHE s0);
                           world := w2;
                           upstream_calls := upstream_calls s0
                                             ++ [measurements_url location parameter limit] |})).
  { rewrite measurements_unfold. unfold bind. rewrite Hfb.
    rewrite (fetch_and_cache_miss _ _ _ _ _ now w1 (inr d) w2);
      [reflexivity|exact Hnow| |exact Hget].
    rewrite key_or_url_measurements, Hc0. exact Hmiss. }
  subst s1. rewrite E1. simpl. split; [reflexivity|].
  intros s2 location' parameter' limit' t w3 Hkey Hsame Hnow2 Ht.
  rewrite lookup_insert_eq in Hsame.
  rewrite measurements_unfold. unfold bind.
  destruct (silent_measurements_fallback limit' s2) as [Hc Hu].
  destruct (measurements_fallback limit' s2) as [[results'|e] s3] eqn:E; simpl in *.
  - rewrite (fetch_and_cache_hit _ _ _ _ _ t w3 d Hnow2).
    + simpl. auto.
    + rewrite key_or_url_measurements, Hkey, Hc. unfold cache_hit. rewrite Hsame.
      assert (F : is_fresh t {| data := d; timestamp := now |} = true)
        by (apply is_fresh_spec; simpl; lia).
      now rewrite F.
  - split; [exact Hu|]. right. f_equal.
    unfold measurements_fallback in E.
    apply (comprehension_raises _ (fun e => e = OverflowError)) in E; [exact (proj1 E)|].
    intros i s4 e0 s4'. unfold bind, utcnow_, lift, ret, datetime_add.
    destruct (datetime_utcnow (world s4)) as [t' w].
    destruct (_ && _); [discriminate|]. now intros [= <- _].
Qed.

(** *** The list of countries *)

Lemma country_entry_wf c :
  wf_country c = true -> country_entry c = Ok (project_country c).
Proof.
  destruct c as [| | | | |d]; try discriminate.
  unfold country_entry, project_country, field. simpl.
  destruct (dict_lookup (VStr "code") d); [|discriminate].
  destruct (dict_lookup (VStr "name") d); [reflexivity|discriminate].
Qed.

Lemma country_entry_not_wf c :
  wf_country c = false ->
  country_entry c = Raise KeyError \/ country_entry c = Raise TypeError.
Proof.
  destruct c as [| | | | |d]; try (now right). unfold country_entry. simpl.
  destruct (dict_lookup (VStr "code") d); [|now left].
  destruct (dict_lookup (VStr "name") d); [discriminate|now left].
Qed.

Lemma map_country_entry records :
  if forallb wf_country records
  then map_result country_entry records = Ok (map project_country records)
  else map_result country_entry records = Raise KeyError \/
       map_result country_entry records = Raise TypeError.
Proof.
  induction records as [|c records IH]; simpl; [reflexivity|].
  destruct (wf_country c) eqn:Ec; simpl.
  - rewrite (country_entry_wf c Ec). simpl.
    destruct (forallb wf_country records).
    + now rewrite IH.
    + destruct IH as [-> | ->]; auto.
  - destruct (country_entry_not_wf c Ec) as [-> | ->]; auto.
Qed.

(** X10.  [get_countries] cuts every record of the fetched [results] down to
    its [code] and [name], keeping order and number; a record that is not an
    object ([TypeError]) or lacks one of the two ([KeyError]) makes the whole
    call raise instead of being skipped. *)
Theorem get_countries_projection :
  forall (s : State) data s' records,
    fetch_and_cache countries_url (Some HEADERS) countries_fallback (Some "countries") s
    = (Ok data, s') ->
    py_get data "results" (VList []) = Ok (VList records) ->
    (forallb wf_country records = true ->
     get_countries s
     = (Ok (VDict [(VStr "countries", VList (map project_country records))]), s')) /\
    (forallb wf_country records = false ->
     get_countries s = (Raise KeyError, s') \/ get_countries s = (Raise TypeError, s')).
Proof.
  intros s data s' records Hfetch Hres.
  unfold get_countries. unfold bind. rewrite Hfetch. unfold lift, countries_of.
  rewrite Hres. simpl. pose proof (map_country_entry records) as H.
  split; intros Hwf; rewrite Hwf in H.
  - now rewrite H.
  - destruct H as [-> | ->]; auto.
Qed.


(** X12.  The two listings cache the body as it came, before they read it:
    after a successful fetch the body is in [CACHE] whatever the listing
    made of it, and until the hour is over every call computes its answer
    from that body again without a request.  So a body the listing cannot
    read (it raises on it) keeps the endpoint raising for an hour. *)
Theorem listings_cache_the_body_unread :
  forall (s : State) now w1 body w2,
    datetime_now (world s) = (now, w1) ->
    (cache_hit (CACHE s) "countries" now = None ->
     requests_get_json countries_url (Some HEADERS) 10 w1 = (inr body, w2) ->
     fst (get_countries s) = countries_of body /\
     CACHE (snd (get_countries s)) !! "countries" = Some {| data := body; timestamp := now |} /\
     forall (s2 : State) t w3,
       CACHE s2 !! "countries" = Some {| data := body; timestamp := now |} ->
       datetime_now (world s2) = (t, w3) ->
       t - now < 3600 * 1000000 ->
       get_countries s2
       = (countries_of body,
          {| CACHE := CACHE s2; world := w3; upstream_calls := upstream_calls s2 |})) /\
    (forall country,
        cache_hit (CACHE s) (cities_key country) now = None ->
        requests_get_json (cities_url country) (Some HEADERS) 10 w1 = (inr body, w2) ->
        fst (get_cities country s) = cities_of body /\
        CACHE (snd (get_cities country s)) !! cities_key country
        = Some {| data := body; timestamp := now |} /\
        forall (s2 : State) t w3,
          CACHE s2 !! cities_key country = Some {| data := body; timestamp := now |} ->
          datetime_now (world s2) = (t, w3) ->
          t - now < 3600 * 1000000 ->
          get_cities country s2
          = (cities_of body,
             {| CACHE := CACHE s2; world := w3; upstream_calls := upstream_calls s2 |})).
Proof.
  intros s now w1 body w2 Hnow.
  assert (Fresh : forall t, t - now < 3600 * 1000000 ->
                            is_fresh t {| data := body; timestamp := now |} = true).
  { intros t Ht. apply is_fresh_spec. simpl. lia. }
  split.
  - intros Hmiss Hget.
    unfold get_countries. unfold bind.
    rewrite (fetch_and_cache_miss s countries_url (Some HEADERS) countries_fallback
               (Some "countries") now w1 (inr body) w2 Hnow Hmiss Hget).
    unfold lift. simpl. split; [reflexivity|]. split; [apply lookup_insert_eq|].
    intros s2 t w3 Hentry Hnow2 Ht.
    rewrite (fetch_and_cache_hit s2 countries_url (Some HEADERS) countries_fallback
               (Some "countries") t w3 body Hnow2); [reflexivity|].
    unfold cache_hit. simpl. rewrite Hentry. now rewrite (Fresh t Ht).
  - intros country Hmiss Hget.
    unfold get_cities. unfold bind.
    rewrite (fetch_and_cache_miss s (cities_url country) (Some HEADERS)
               (VDict [(VStr "results", VList [])]) (Some ("cities_" +:+ country))
               now w1 (inr body) w2 Hnow Hmiss Hget).
    unfold lift. simpl. split; [reflexivity|]. split; [apply lookup_insert_eq|].
    intros s2 t w3 Hentry Hnow2 Ht.
    rewrite (fetch_and_cache_hit s2 (cities_url country) (Some HEADERS)
               (VDict [(VStr "results", VList [])]) (Some ("cities_" +:+ country))
               t w3 body Hnow2); [reflexivity|].
    unfold cache_hit. simpl. unfold cities_key in Hentry. rewrite Hentry.
    now rewrite (Fresh t Ht).
Qed.

(** *** The cache of [air_quality] *)

Lemma air_quality_hit (s : State) city now w1 d :
  datetime_now (world s) = (now, w1) ->
  cache_hit (CACHE s) (air_quality_key city) now = Some d ->
  air_quality city s
  = (Ok (Payload d), {| CACHE := CACHE s; world := w1; upstream_calls := upstream_calls s |}).
Proof.
  intros Hnow Hhit. unfold air_quality. run. rewrite Hnow. simpl. now rewrite Hhit.
Qed.

(** Without a fresh entry [air_quality] starts with the station lookup. *)
Lemma air_quality_goes_upstream (s : State) city now w1 :
  datetime_now (world s) = (now, w1) ->
  cache_hit (CACHE s) (air_quality_key city) now = None ->
  exists calls,
    upstream_calls (snd (air_quality city s)) = upstream_calls s ++ loc_url city :: calls.
Proof.
  intros Hnow Hmiss.
  destruct (requests_get_json (loc_url city) (Some HEADERS) 10 w1) as [r w2] eqn:Hget.
  rewrite (air_quality_miss _ _ _ _ _ _ Hnow Hmiss Hget).
  destruct r as [[k msg]|body]; [exists []; reflexivity|].
  destruct (py_get body "results" (VList [])) as [loc_data|e]; [|exists []; reflexivity].
  destruct (py_truthy loc_data); [|exists []; reflexivity].
  match goal with |- context [aggregate ?k ?n ?l ?s1] =>
    destruct (aggregate_outcome k n l s1) as ([calls Hu] & _) end.
  exists calls. rewrite Hu. simpl. now rewrite <- app_assoc.
Qed.

(** X13.  A payload [air_quality] has aggregated from a successful station
    lookup is stored under the city's key with the time the call began;
    while that entry stands, a call for the city returns the very same
    payload without any request if fewer than 3600 seconds have passed since
    then, and begins with the station lookup again otherwise. *)
Theorem air_quality_ttl :
  forall (s : State) city now w1 body w2 result,
    datetime_now (world s) = (now, w1) ->
    cache_hit (CACHE s) (air_quality_key city) now = None ->
    requests_get_json (loc_url city) (Some HEADERS) 10 w1 = (inr body, w2) ->
    fst (air_quality city s) = Ok (Payload result) ->
    let entry := {| data := result; timestamp := now |} in
    CACHE (snd (air_quality city s)) !! air_quality_key city = Some entry /\
    forall (s2 : State) t w3,
      CACHE s2 !! air_quality_key city = Some entry ->
      datetime_now (world s2) = (t, w3) ->
      (t - now < 3600 * 1000000 ->
       air_quality city s2
       = (Ok (Payload result),
          {| CACHE := CACHE s2; world := w3; upstream_calls := upstream_calls s2 |})) /\
      (3600 * 1000000 <= t - now ->
       exists calls,
         upstream_calls (snd (air_quality city s2))
         = upstream_calls s2 ++ loc_url city :: calls).
Proof.
  intros s city now w1 body w2 result Hnow Hmiss Hget Hres entry. split.
  - revert Hres. rewrite (air_quality_miss _ _ _ _ _ _ Hnow Hmiss Hget). simpl.
    destruct (py_get body "results" (VList [])) as [loc_data|e]; [|discriminate].
    destruct (py_truthy loc_data); [|discriminate].
    match goal with |- context [aggregate ?k ?n ?l ?s1] =>
      destruct (aggregate_outcome k n l s1) as (_ & [(r & Hr & Hc)|(e & Hr & _)]);
      rewrite Hr end; [|discriminate].
    intros [= ->]. rewrite Hc. apply lookup_insert_eq.
  - intros s2 t w3 Hentry Hnow2. split; intros Ht.
    + apply (air_quality_hit s2 city t w3 result Hnow2).
      unfold cache_hit. rewrite Hentry.
      assert (F : is_fresh t entry = true) by (apply is_fresh_spec; simpl; lia).
      now rewrite F.
    + apply (air_quality_goes_upstream s2 city t w3 Hnow2).
      unfold cache_hit. rewrite Hentry.
      assert (F : is_fresh t entry = false) by (apply is_fresh_false; simpl; lia).
      now rewrite F.
Qed.


(** *** The naive forecast, continued *)

(** X15.  The base temperature of the naive forecast is the [temperature]
    field of the [current_weather] object of the second call's body, as it
    comes; it is 20 in every other case: the call fails, the body is not an
    object, it has no [current_weather], that is not an object, or it has no
    [temperature]. *)
Theorem base_temperature_is_20_by_default :
  forall (s : State) lat lon,
    fst (base_temperature lat lon s)
    = Ok match fst (requests_get_json (current_weather_url lat lon) None 6 (world s)) with
         | inr (VDict d) =>
             match dict_lookup (VStr "current_weather") d with
             | Some (VDict cw) =>
                 match dict_lookup (VStr "temperature") cw with
                 | Some temperature => temperature
                 | None => VNum 20
                 end
             | _ => VNum 20
             end
         | _ => VNum 20
         end.
Proof.
  intros s lat lon. unfold base_temperature. run.
  destruct (requests_get_json _ _ _ _) as [[[k m]|body] w]; simpl; [reflexivity|].
  destruct body as [| | | | |d]; simpl; try reflexivity.
  destruct (dict_lookup (VStr "current_weather") d) as [[| | | | |cw]|]; reflexivity.
Qed.

Lemma round_half_even_mono (x y : Q) :
  (x <= y)%Q -> round_half_even x <= round_half_even y.
Proof.
  intros H. unfold round_half_even.
  pose proof (Qfloor_resp_le x y H) as F.
  destruct (Z.eq_dec (Qfloor x) (Qfloor y)) as [E|N].
  - rewrite <- E.
    destruct (Qcompare_spec (x - inject_Z (Qfloor x)) (1 # 2)) as [Cx|Cx|Cx];
    destruct (Qcompare_spec (y - inject_Z (Qfloor x)) (1 # 2)) as [Cy|Cy|Cy];
    try (destruct (Z.even (Qfloor x))); try lia; exfalso; lra.
  - destruct (_ ?= _)%Q; destruct (_ ?= _)%Q;
      try (destruct (Z.even (Qfloor x))); try (destruct (Z.even (Qfloor y))); lia.
Qed.

Lemma py_round1_mono (x y : Q) : (x <= y)%Q -> (py_round1 x <= py_round1 y)%Q.
Proof.
  intros H. unfold py_round1.
  assert (round_half_even (x * 10) <= round_half_even (y * 10)).
  { apply round_half_even_mono. lra. }
  unfold Qle. simpl. lia.
Qed.

Lemma py_max0_le (x b : Q) : (0 <= b)%Q -> (x <= b)%Q -> (py_max0 x <= b)%Q.
Proof. intros Hb Hx. unfold py_max0. now destruct (Qlt_bool 0 x). Qed.

Lemma Forall2_Forall_right {X Y} (P : Y -> Prop) (xs : list X) (ys : list Y) :
  Forall2 (fun _ y => P y) xs ys -> Forall P ys.
Proof. induction 1; constructor; auto. Qed.

(** The three random series of a naive forecast from a numeric base
    temperature. *)
Lemma naive_forecast_series temp T days (s : State) v s' :
  as_number temp = Some T ->
  naive_forecast temp days s = (Ok v, s') ->
  exists dates tmax tmin precip,
    v = forecast_payload dates tmax tmin precip /\
    Forall (fun y => exists u, (-3 <= u <= 3)%Q /\ y = VNum (py_round1 (T + 5 + u))) tmax /\
    Forall (fun y => exists u, (-3 <= u <= 3)%Q /\ y = VNum (py_round1 (T + -2 + u))) tmin /\
    Forall (fun y => exists u, (0 <= u <= 5)%Q /\ y = VNum (py_round1 (py_max0 u))) precip.
Proof.
  intros HT. unfold naive_forecast. unfold bind at 1.
  destruct (utcnow_ s) as [[base|e] s1]; [|discriminate].
  unfold bind at 1.
  destruct (comprehension (py_range days) _ s1) as [[dates|e] s2]; [|discriminate].
  unfold bind at 1.
  destruct (comprehension_Forall2
              (fun _ : Z => bind (lift (py_add_number temp 5))
                 (fun x => bind (uniform_ (-3) 3) (fun u => ret (VNum (py_round1 (x + u))))))
              (fun _ y => exists u, (-3 <= u <= 3)%Q /\ y = VNum (py_round1 (T + 5 + u)))
              (py_range days)) with (s := s2) as (tmax & s3 & E2 & F2).
  { intros i s0 _. unfold bind, lift, ret, py_add_number, uniform_. rewrite HT.
    pose proof (random_uniform_range (-3) 3 (world s0) ltac:(discriminate)) as U.
    destruct (random_uniform (-3) 3 (world s0)) as [u w]. simpl in U.
    do 2 eexists. split; [reflexivity|]. exists u. split; [exact U|reflexivity]. }
  rewrite E2. unfold bind at 1.
  destruct (comprehension_Forall2
              (fun _ : Z => bind (lift (py_add_number temp (-2)))
                 (fun x => bind (uniform_ (-3) 3) (fun u => ret (VNum (py_round1 (x + u))))))
              (fun _ y => exists u, (-3 <= u <= 3)%Q /\ y = VNum (py_round1 (T + -2 + u)))
              (py_range days)) with (s := s3) as (tmin & s4 & E3 & F3).
  { intros i s0 _. unfold bind, lift, ret, py_add_number, uniform_. rewrite HT.
    pose proof (random_uniform_range (-3) 3 (world s0) ltac:(discriminate)) as U.
    destruct (random_uniform (-3) 3 (world s0)) as [u w]. simpl in U.
    do 2 eexists. split; [reflexivity|]. exists u. split; [exact U|reflexivity]. }
  rewrite E3. unfold bind at 1.
  destruct (comprehension_Forall2
              (fun _ : Z => bind (uniform_ 0 5) (fun u => ret (VNum (py_round1 (py_max0 u)))))
              (fun _ y => exists u, (0 <= u <= 5)%Q /\ y = VNum (py_round1 (py_max0 u)))
              (py_range days)) with (s := s4) as (precip & s5 & E4 & F4).
  { intros i s0 _. unfold bind, ret, uniform_.
    pose proof (random_uniform_range 0 5 (world s0) ltac:(discriminate)) as U.
    destruct (random_uniform 0 5 (world s0)) as [u w]. simpl in U.
    do 2 eexists. split; [reflexivity|]. exists u. split; [exact U|reflexivity]. }
  rewrite E4. unfold ret. intros [= <- _].
  exists dates, tmax, tmin, precip. split; [reflexivity|].
  split; [exact (Forall2_Forall_right _ _ _ F2)|].
  split; [exact (Forall2_Forall_right _ _ _ F3)|exact (Forall2_Forall_right _ _ _ F4)].
Qed.

(** X16.  In every naive forecast [forecast] returns from a numeric base
    temperature [T], no minimum exceeds any maximum -- the minima are at
    most [round(T + 1, 1)], the maxima at least [round(T + 2, 1)] -- and
    every precipitation sum lies between 0 and 5. *)
Theorem naive_forecast_ranges :
  forall (s : State) lat lon days kind msg w1 temp s2 T v,
    requests_get_json (forecast_url lat lon days) None 10 (world s) = (inl (kind, msg), w1) ->
    base_temperature lat lon
      {| CACHE := CACHE s; world := w1;
         upstream_calls := upstream_calls s ++ [forecast_url lat lon days] |}
    = (Ok temp, s2) ->
    as_number temp = Some T ->
    fst (forecast lat lon days s) = Ok v ->
    exists dates tmax tmin precip,
      v = forecast_payload dates tmax tmin precip /\
      Forall (fun y => exists lo, y = VNum lo /\ (lo <= py_round1 (T + 1))%Q) tmin /\
      Forall (fun y => exists hi, y = VNum hi /\ (py_round1 (T + 2) <= hi)%Q) tmax /\
      (forall lo hi, In (VNum lo) tmin -> In (VNum hi) tmax -> (lo <= hi)%Q) /\
      Forall (fun y => exists p, y = VNum p /\ (0 <= p <= 5)%Q) precip.
Proof.
  intros s lat lon days kind msg w1 temp s2 T v Hget Htemp HT.
  rewrite forecast_cases, Hget. cbv zeta iota. unfold bind. rewrite Htemp.
  destruct (naive_forecast temp days s2) as [r s3] eqn:E. simpl. intros ->.
  destruct (naive_forecast_series temp T days s2 v s3 HT E)
    as (dates & tmax & tmin & precip & -> & Fmax & Fmin & Fp).
  exists dates, tmax, tmin, precip. split; [reflexivity|].
  split; [|split; [|split]].
  - eapply Forall_impl; [exact Fmin|]. intros y (u & Hu & ->). eexists. split; [reflexivity|].
    apply py_round1_mono. lra.
  - eapply Forall_impl; [exact Fmax|]. intros y (u & Hu & ->). eexists. split; [reflexivity|].
    apply py_round1_mono. lra.
  - intros lo hi Hlo Hhi.
    rewrite List.Forall_forall in Fmin, Fmax.
    destruct (Fmin _ Hlo) as (u1 & Hu1 & [= ->]).
    destruct (Fmax _ Hhi) as (u2 & Hu2 & [= ->]).
    apply py_round1_mono. lra.
  - eapply Forall_impl; [exact Fp|]. intros y (u & Hu & ->). eexists. split; [reflexivity|].
    split.
    + apply py_round1_nonneg, py_max0_nonneg.
    + assert (B : (py_round1 (py_max0 u) <= py_round1 5)%Q).
      { apply py_round1_mono, py_max0_le; [discriminate|exact (proj2 Hu)]. }
      eapply Qle_trans; [exact B|]. vm_compute. discriminate.
Qed.

(** X17.  A base temperature that is not a number -- the upstream's
    [temperature] is null or a string -- is not replaced by 20: with the
    clock in range and at least one day asked for, the naive forecast
    raises [TypeError] at its first maximum. *)
Theorem naive_forecast_needs_a_number :
  forall (s : State) lat lon days kind msg w1 temp s2 base w3,
    1 <= days <= 16 ->
    requests_get_json (forecast_url lat lon days) None 10 (world s) = (inl (kind, msg), w1) ->
    base_temperature lat lon
      {| CACHE := CACHE s; world := w1;
         upstream_calls := upstream_calls s ++ [forecast_url lat lon days] |}
    = (Ok temp, s2) ->
    as_number temp = None ->
    datetime_utcnow (world s2) = (base, w3) ->
    datetime_min <= base <= datetime_max - timedelta_days 15 ->
    fst (forecast lat lon days s) = Raise TypeError.
Proof.
  intros s lat lon days kind msg w1 temp s2 base w3 Hdays Hget Htemp HT Hbase Hrange.
  rewrite forecast_cases, Hget. cbv zeta iota. unfold bind at 1. rewrite Htemp.
  unfold naive_forecast. unfold bind at 1. unfold utcnow_ at 1. rewrite Hbase.
  set (s3 := {| CACHE := CACHE s2; world := w3; upstream_calls := upstream_calls s2 |}).
  destruct (comprehension_Forall2
              (fun i => bind (lift (datetime_add base (timedelta_days i)))
                             (fun t => ret (VStr (date_isoformat (date_of t)))))
              (fun _ _ => True)
              (py_range days)) with (s := s3) as (dates & s4 & E1 & _).
  { intros i s0 Hi. apply py_range_In in Hi. unfold bind, lift, ret, datetime_add.
    assert (R : (datetime_min <=? base + timedelta_days i)
                && (base + timedelta_days i <=? datetime_max) = true).
    { apply andb_true_intro. unfold timedelta_days in *.
      split; [apply Z.leb_le|apply Z.leb_le]; lia. }
    rewrite R. do 2 eexists. split; [reflexivity|exact I]. }
  unfold bind at 1. rewrite E1. unfold bind at 1.
  unfold py_range. destruct (Z.to_nat days) as [|n] eqn:En; [lia|].
  cbn [seq map comprehension]. unfold bind at 1. unfold bind at 1.
  unfold lift at 1, py_add_number at 1. rewrite HT. reflexivity.
Qed.

(** *** Readings that are not numbers *)

Lemma fold_add_measurement_shaped ms : forall agg,
  forallb shaped_measurement ms = true ->
  fold_result add_measurement ms agg = Ok (accumulate (omap measurement_pair ms) agg) /\
  Forall (fun kv => hashable (fst kv) = true) (omap measurement_pair ms).
Proof.
  induction ms as [|m ms IH]; intros agg H; simpl.
  - split; [reflexivity|constructor].
  - simpl in H. apply andb_true_iff in H. destruct H as [Hm Hms].
    unfold shaped_measurement in Hm. unfold add_measurement.
    destruct m as [| | | | |d]; try discriminate. simpl in *.
    destruct (dict_lookup (VStr "parameter") d) as [p|]; [|discriminate].
    destruct (dict_lookup (VStr "value") d) as [v|]; [|discriminate].
    simpl. unfold setdefault_append. rewrite Hm.
    destruct (IH (append_under p v agg) Hms) as [E F].
    split; [exact E|]. now constructor.
Qed.

Lemma fold_add_station_shaped stations : forall agg sts,
  forallb shaped_station stations = true ->
  fold_result add_station stations (agg, sts)
  = Ok (accumulate (reported stations) agg, sts ++ stations) /\
  Forall (fun kv => hashable (fst kv) = true) (reported stations).
Proof.
  induction stations as [|st stations IH]; intros agg sts H; simpl.
  - rewrite app_nil_r. split; [reflexivity|constructor].
  - simpl in H. apply andb_true_iff in H. destruct H as [Hs Hrest].
    assert (E : add_station st (agg, sts)
                = Ok (accumulate (readings_of st) agg, sts ++ [st]) /\
                Forall (fun kv => hashable (fst kv) = true) (readings_of st)).
    { unfold shaped_station in Hs. unfold add_station, readings_of.
      destruct st as [| | | | |d]; try discriminate. simpl.
      destruct (dict_lookup (VStr "measurements") d) as [[| | | |ms|]|];
        try discriminate; simpl.
      - destruct (fold_add_measurement_shaped ms agg Hs) as [E F]. rewrite E. auto.
      - split; [reflexivity|constructor]. }
    destruct E as [E F]. rewrite E. simpl.
    destruct (IH (accumulate (readings_of st) agg) (sts ++ [st]) Hrest) as [E2 F2].
    rewrite E2. unfold reported in *. simpl. rewrite accumulate_app, <- app_assoc. simpl.
    split; [reflexivity|]. apply Forall_app. auto.
Qed.

Lemma shaped_answer_records a :
  shaped_answer a = true ->
  Forall (fun kv => hashable (fst kv) = true) (reported (records_of a)).
Proof.
  destruct a as [f|[| | | | |d]]; try discriminate; simpl; try (intros; constructor).
  destruct (dict_lookup (VStr "results") d) as [[| | | |l|]|]; try discriminate;
    try (intros; constructor).
  intros H. apply (fold_add_station_shaped l [] [] H).
Qed.

Lemma visit_location_shaped loc name acc (s : State) r w1 :
  location_name_of loc = Some name ->
  requests_get_json (latest_url name) (Some HEADERS) 10 (world s) = (r, w1) ->
  shaped_answer r = true ->
  visit_location loc acc s
  = (Ok (accumulate (reported (records_of r)) (fst acc), snd acc ++ records_of r),
     {| CACHE := CACHE s; world := w1;
        upstream_calls := upstream_calls s ++ [latest_url name] |}).
Proof.
  destruct loc as [| | | | |d]; try discriminate.
  unfold location_name_of, visit_location. run.
  set (n := match dict_lookup (VStr "name") d with Some v => v | None => VNone end).
  destruct (py_truthy n) eqn:Tn; simpl.
  - rewrite Tn. simpl. intros [= <-] Hget Hwf. rewrite Hget.
    destruct acc as [agg sts].
    destruct r as [[k msg]|body]; simpl.
    + rewrite app_nil_r. reflexivity.
    + destruct body as [| | | | |b]; try discriminate. simpl in *.
      destruct (dict_lookup (VStr "results") b) as [[| | | |l|]|]; try discriminate; simpl.
      * destruct (fold_add_station_shaped l agg sts Hwf) as [E2 _]. rewrite E2. reflexivity.
      * rewrite app_nil_r. reflexivity.
  - set (n2 := match dict_lookup (VStr "location") d with Some v => v | None => VNone end).
    destruct (py_truthy n2) eqn:Tn2; simpl; [|discriminate].
    intros [= <-] Hget Hwf. rewrite Hget.
    destruct acc as [agg sts].
    destruct r as [[k msg]|body]; simpl.
    + rewrite app_nil_r. reflexivity.
    + destruct body as [| | | | |b]; try discriminate. simpl in *.
      destruct (dict_lookup (VStr "results") b) as [[| | | |l|]|]; try discriminate; simpl.
      * destruct (fold_add_station_shaped l agg sts Hwf) as [E2 _]. rewrite E2. reflexivity.
      * rewrite app_nil_r. reflexivity.
Qed.

Lemma for_each_visit_shaped locs : forall acc (s : State) answers w',
  Forall (fun loc => is_dict loc = true) locs ->
  latest_answers locs (world s) = (answers, w') ->
  Forall (fun a => shaped_answer (snd a) = true) answers ->
  for_each locs visit_location acc s
  = (Ok (accumulate (reported (flat_map (fun a => records_of (snd a)) answers)) (fst acc),
         snd acc ++ flat_map (fun a => records_of (snd a)) answers),
     {| CACHE := CACHE s; world := w';
        upstream_calls := upstream_calls s ++ map (fun a => latest_url (fst a)) answers |}).
Proof.
  induction locs as [|loc locs IH]; intros acc s answers w' Hd Hl Hwf.
  - simpl in Hl. injection Hl as <- <-. destruct s, acc. simpl. unfold ret.
    now rewrite !app_nil_r.
  - inversion Hd as [|? ? Hloc Hrest]; subst. simpl in Hl. simpl. unfold bind.
    destruct (location_name_of loc) as [name|] eqn:En.
    + destruct (requests_get_json (latest_url name) (Some HEADERS) 10 (world s))
        as [r w1] eqn:Hget.
      destruct (latest_answers locs w1) as [rs w2] eqn:Hrs.
      injection Hl as <- <-.
      inversion Hwf as [|? ? Hr Hrs']; subst. simpl in Hr.
      rewrite (visit_location_shaped loc name acc s r w1 En Hget Hr).
      rewrite (IH _ {| CACHE := CACHE s; world := w1;
                       upstream_calls := upstream_calls s ++ [latest_url name] |}
                  rs w2 Hrest Hrs Hrs'). simpl.
      rewrite reported_app, accumulate_app, <- !app_assoc. reflexivity.
    + rewrite (visit_location_unnamed loc acc s Hloc En). now apply IH.
Qed.

Lemma reported_hashable (answers : list (value * (request_failure * string + value))) :
  Forall (fun a => shaped_answer (snd a) = true) answers ->
  Forall (fun kv => hashable (fst kv) = true)
         (reported (flat_map (fun a => records_of (snd a)) answers)).
Proof.
  induction 1 as [|a answers Ha _ IH]; simpl; [constructor|].
  rewrite reported_app. apply Forall_app. split; [now apply shaped_answer_records|exact IH].
Qed.

Lemma py_sum_cases vals : forall start,
  (exists q, py_sum vals start = Ok q) \/ py_sum vals start = Raise TypeError.
Proof.
  induction vals as [|v vals IH]; intros start; simpl; [eauto|].
  destruct (as_number v); [apply IH|now right].
Qed.

Lemma py_sum_non_number vals : forall start,
  List.Exists (fun v => as_number v = None) vals -> py_sum vals start = Raise TypeError.
Proof.
  induction vals as [|v vals IH]; intros start H; inversion H as [? ? Hv|? ? Hrest]; subst;
    simpl.
  - now rewrite Hv.
  - destruct (as_number v); [now apply IH|reflexivity].
Qed.

(** Line 167 raises as soon as one collected value is not a number. *)
Lemma averages_non_number agg :
  List.Exists (fun kvs => List.Exists (fun v => as_number v = None) (snd kvs)) agg ->
  averages agg = Raise TypeError.
Proof.
  induction agg as [|[k vs] agg IH]; intros H; [inversion H|].
  destruct vs as [|v vs].
  - inversion H as [? ? Hk|? ? Hrest]; subst; [inversion Hk|]. simpl. now apply IH.
  - remember (v :: vs) as vals eqn:Ev.
    assert (E : averages ((k, vals) :: agg)
                = (total <~ py_sum vals 0 ;;
                   avg <~ averages agg ;;
                   Ok ((k, VNum (total / inject_Z (Z.of_nat (length vals)))) :: avg)))
      by (subst vals; reflexivity).
    rewrite E. inversion H as [? ? Hk|? ? Hrest]; subst x l.
    + simpl in Hk. now rewrite (py_sum_non_number _ 0 Hk).
    + destruct (py_sum_cases vals 0) as [[q ->] | ->]; [|reflexivity].
      simpl. now rewrite (IH Hrest).
Qed.

Lemma key_eqb_refl k : hashable k = true -> key_eqb k k = true.
Proof.
  destruct k; try discriminate; intros _; simpl; try reflexivity.
  - now destruct b.
  - apply Qeq_bool_iff. reflexivity.
  - apply String.eqb_refl.
Qed.

Lemma filed_under_In p agg vs :
  filed_under p agg = Some vs -> exists k, In (k, vs) agg.
Proof.
  induction agg as [|[k l] agg IH]; simpl; [discriminate|].
  destruct (key_eqb k p).
  - intros [= ->]. exists k. now left.
  - intros H. destruct (IH H) as [k' Hk']. exists k'. now right.
Qed.

(** A reported value ends up in one of the lists that line 167 sums. *)
Lemma accumulate_keeps_values pairs k v :
  In (k, v) pairs -> hashable k = true ->
  exists k' vs, In (k', vs) (accumulate pairs []) /\ In v vs.
Proof.
  intros Hin Hk.
  destruct (filed_under_accumulate k pairs []) as [H1 H2]. simpl in H1.
  assert (Hv : In v (raw_values_for k pairs)).
  { unfold raw_values_for. apply in_map_iff. exists (k, v). split; [reflexivity|].
    apply List.filter_In. split; [exact Hin|]. now apply key_eqb_refl. }
  destruct (filed_under k (accumulate pairs [])) as [vs|] eqn:E.
  - destruct (filed_under_In _ _ _ E) as [k' Hk']. exists k', vs.
    split; [exact Hk'|]. now rewrite <- H1.
  - destruct (H2 eq_refl) as [_ Hnone]. rewrite Hnone in Hv. destruct Hv.
Qed.

(** X18.  One reading whose value is not a number (a null, a string) is
    enough to lose the whole answer: on a run that aggregates, with data of
    the expected shape but for the values, [air_quality] queries every named
    station and then raises [TypeError] when it averages -- no handler
    catches it -- and caches nothing. *)
Theorem air_quality_non_numeric_value_raises :
  forall (s : State) city now w1 body w2 locs answers w3,
    datetime_now (world s) = (now, w1) ->
    cache_hit (CACHE s) (air_quality_key city) now = None ->
    requests_get_json (loc_url city) (Some HEADERS) 10 w1 = (inr body, w2) ->
    py_get body "results" (VList []) = Ok (VList locs) ->
    locs <> [] ->
    Forall (fun loc => is_dict loc = true) locs ->
    latest_answers locs w2 = (answers, w3) ->
    Forall (fun a => shaped_answer (snd a) = true) answers ->
    List.Exists (fun kv => as_number (snd kv) = None)
      (reported (flat_map (fun a => records_of (snd a)) answers)) ->
    air_quality city s
    = (Raise TypeError,
       {| CACHE := CACHE s; world := w3;
          upstream_calls := upstream_calls s
                            ++ loc_url city :: map (fun a => latest_url (fst a)) answers |}).
Proof.
  intros s city now w1 body w2 locs answers w3 Hnow Hmiss Hget Hres Hne Hd Hl Hsh Hbad.
  rewrite (air_quality_miss _ _ _ _ _ _ Hnow Hmiss Hget). rewrite Hres.
  assert (T : py_truthy (VList locs) = true) by (destruct locs; [contradiction|reflexivity]).
  rewrite T. unfold aggregate. unfold bind at 1. unfold lift at 1. simpl py_iter.
  cbv iota beta. unfold bind at 1.
  rewrite (for_each_visit_shaped locs ([], [])
             {| CACHE := CACHE s; world := w2;
                upstream_calls := upstream_calls s ++ [loc_url city] |} answers w3 Hd Hl Hsh).
  simpl fst. simpl snd.
  set (pairs := reported (flat_map (fun a => records_of (snd a)) answers)) in *.
  assert (E : averages (accumulate pairs []) = Raise TypeError).
  { apply averages_non_number.
    apply List.Exists_exists in Hbad. destruct Hbad as ([k v] & Hin & Hv). simpl in Hv.
    pose proof (reported_hashable answers Hsh) as Hh. fold pairs in Hh.
    rewrite List.Forall_forall in Hh.
    destruct (accumulate_keeps_values pairs k v Hin (Hh _ Hin)) as (k' & vs & Hin' & Hvs).
    apply List.Exists_exists. exists (k', vs). split; [exact Hin'|].
    apply List.Exists_exists. exists v. auto. }
  unfold bind at 1. unfold lift at 1. rewrite E. simpl. rewrite <- app_assoc. reflexivity.
Qed.

End Program.

Arguments CACHE {World} _.
Arguments world {World} _.
Arguments upstream_calls {World} _.

(** ** The fetcher, by the response it gets *)

Section Responses.

Variable World : Type.

(** [requests.get(url, headers=..., timeout=...)]: a response, or the
    [RequestException] of an exchange that failed. *)
Variable requests_get :
  string -> option headers_t -> Z -> World -> (request_failure * string + Response) * World.

Variable datetime_now : World -> datetime * World.

(** Lines 62-64: the three calls that the program above sees as one. *)
Definition get_raise_for_status_json (url : string) (headers : option headers_t)
    (timeout : Z) (w : World) : (request_failure * string + value) * World :=
  let (r, w') := requests_get url headers timeout w in
  (match r with
   | inl failure => inl failure
   | inr resp => checked_json resp
   end, w').

(** C1 (amended).  On a cache miss, [fetch_and_cache] treats its upstream
    call as failed exactly when the exchange fails, the status is between
    400 and 599, or the body cannot be decoded.  Then it returns the
    caller's fallback itself, raises nothing and leaves [CACHE] as it was,
    and every later call under the same key that sees the same cache goes
    to the upstream again.  A response with any other status -- 2xx or not --
    and a decodable body is no failure: the body is returned and cached. *)
Theorem fetch_and_cache_failure_returns_fallback :
  forall (s : State World) url headers fallback cache_key now w1 r w2,
    datetime_now (world s) = (now, w1) ->
    cache_hit (CACHE s) (key_or_url cache_key url) now = None ->
    requests_get url headers 10 w1 = (r, w2) ->
    let fetch := fetch_and_cache World get_raise_for_status_json datetime_now in
    (upstream_failed r ->
     exists s',
       fetch url headers fallback cache_key s = (Ok fallback, s') /\
       CACHE s' = CACHE s /\
       upstream_calls s' = upstream_calls s ++ [url] /\
       forall (s2 : State World) now2 w3 headers2 fallback2,
         CACHE s2 = CACHE s' ->
         datetime_now (world s2) = (now2, w3) ->
         now <= now2 ->
         upstream_calls (snd (fetch url headers2 fallback2 cache_key s2))
         = upstream_calls s2 ++ [url]) /\
    (forall resp body,
        r = inr resp ->
        ~ 400 <= status_code resp < 600 ->
        json resp = inr body ->
        exists s',
          fetch url headers fallback cache_key s = (Ok body, s') /\
          CACHE s'
          = <[key_or_url cache_key url := {| data := body; timestamp := now |}]> (CACHE s) /\
          upstream_calls s' = upstream_calls s ++ [url]).
Proof.
  intros s url headers fallback cache_key now w1 r w2 Hnow Hmiss Hget fetch. split.
  - intros Hfail.
    assert (E : exists kind message,
               get_raise_for_status_json url headers 10 w1 = (inl (kind, message), w2)).
    { unfold get_raise_for_status_json. rewrite Hget.
      destruct r as [[kind message]|resp]; [eauto|].
      unfold checked_json, raise_for_status, response_json.
      destruct Hfail as [Hstatus|[message Hjson]].
      - assert (R : (400 <=? status_code resp) && (status_code resp <? 600) = true)
          by (apply andb_true_intro; split; [apply Z.leb_le|apply Z.ltb_lt]; lia).
        rewrite R. eauto.
      - destruct ((400 <=? status_code resp) && (status_code resp <? 600)); [eauto|].
        rewrite Hjson. eauto. }
    destruct E as (kind & message & E).
    exact (fetch_and_cache_absorbs_request_exception World get_raise_for_status_json
             datetime_now s url headers fallback cache_key now w1 kind message w2
             Hnow Hmiss E).
  - intros resp body -> Hstatus Hjson.
    assert (E : get_raise_for_status_json url headers 10 w1 = (inr body, w2)).
    { unfold get_raise_for_status_json. rewrite Hget.
      unfold checked_json, raise_for_status, response_json.
      assert (R : (400 <=? status_code resp) && (status_code resp <? 600) = false).
      { apply andb_false_iff.
        destruct (Z.leb_spec 400 (status_code resp)); [|now left].
        right. apply Z.ltb_ge. lia. }
      rewrite R, Hjson. reflexivity. }
    eexists. split.
    + exact (fetch_and_cache_miss World get_raise_for_status_json datetime_now
               s url headers fallback cache_key now w1 (inr body) w2 Hnow Hmiss E).
    + split; reflexivity.
Qed.

End Responses.

(** ** Concrete runs against a scripted upstream *)

(** A world that answers the requests with a prepared list of answers, one
    per call whatever the URL and unreachable once the list is used up, and
    whose clocks stand still. *)
Record Scripted : Type := {
  pending : list (request_failure * string + value);
  clock : datetime
}.

Definition scripted_get (url : string) (headers : option headers_t) (timeout : Z)
    (w : Scripted) : (request_failure * string + value) * Scripted :=
  match pending w with
  | [] => (inl (ConnectionError, "unreachable"), w)
  | a :: rest => (a, {| pending := rest; clock := clock w |})
  end.

Definition scripted_now (w : Scripted) : datetime * Scripted := (clock w, w).

(** The random source that always draws the lower bound. *)
Definition lowest_uniform (a b : Q) (w : Scripted) : Q * Scripted := (a, w).

Definition plain_isoformat (t : Z) : string := "".

Definition plain_format (v : value) : string :=
  match v with
  | VStr s => s
  | _ => ""
  end.

Definition start (answers : list (request_failure * string + value)) (t : datetime)
    : State Scripted :=
  {| CACHE := ∅; world := {| pending := answers; clock := t |}; upstream_calls := [] |}.

Definition run_fetch_and_cache := fetch_and_cache Scripted scripted_get scripted_now.

Definition run_air_quality :=
  air_quality Scripted scripted_get scripted_now scripted_now plain_isoformat plain_format None.

Definition run_current_weather := current_weather Scripted scripted_get plain_format.

Definition run_forecast :=
  forecast Scripted scripted_get scripted_now lowest_uniform plain_isoformat plain_format.

Definition run_get_cities := get_cities Scripted scripted_get scripted_now None.

Definition obj (fields : list (string * value)) : value :=
  VDict (map (fun kv => (VStr (fst kv), snd kv)) fields).

(** A station record reporting one measurement. *)
Definition reading (name parameter : string) (v : Q) : value :=
  obj [("location", VStr name);
       ("measurements", VList [obj [("parameter", VStr parameter); ("value", VNum v)]])].

Definition lookup_three : request_failure * string + value :=
  inr (obj [("results", VList [obj [("name", VStr "A")]; obj [("name", VStr "B")];
                               obj [("name", VStr "C")]])]).

Definition latest (records : list value) : request_failure * string + value :=
  inr (obj [("results", VList records)]).

Definition idle : Scripted := {| pending := []; clock := 0 |}.

Definition located (city : string) : value :=
  obj [("name", VStr "station"); ("boundary", obj [("city", VStr city)])].

Definition two_cities : value :=
  obj [("results", VList [located "Tashkent"; located "Samarkand"; located "Tashkent"])].

Definition no_cities : value :=
  obj [("results", VList [obj [("name", VStr "station")];
                          obj [("name", VStr "other"); ("boundary", VNone)]])].

Definition three_named : list value :=
  [obj [("name", VStr "A")]; obj [("name", VStr "B")]; obj [("name", VStr "C")]].

Definition all_report : list (request_failure * string + value) :=
  [lookup_three; latest [reading "A" "pm25" 10]; latest [reading "B" "pm25" 20];
   latest [reading "C" "pm25" 30]].

Definition middle_fails : list (request_failure * string + value) :=
  [lookup_three; latest [reading "A" "pm25" 10]; inl (Timeout, "timed out");
   latest [reading "C" "pm25" 30]].

Definition middle_fails_first_has_two : list (request_failure * string + value) :=
  [lookup_three; latest [reading "A" "pm25" 10; reading "A" "pm10" 40];
   inl (Timeout, "timed out"); latest [reading "C" "pm25" 30]].

Definition run_measurements :=
  measurements Scripted scripted_get scripted_now scripted_now plain_isoformat plain_format None.

Definition run_get_countries := get_countries Scripted scripted_get scripted_now None.

Definition middle_reports_null : list (request_failure * string + value) :=
  [lookup_three; latest [reading "A" "pm25" 10];
   latest [obj [("location", VStr "B");
                ("measurements", VList [obj [("parameter", VStr "pm25"); ("value", VNone)]])]];
   latest [reading "C" "pm25" 30]].

(** A world that hands out prepared responses, one per request, and is
    unreachable once they are used up. *)
Record Wire : Type := {
  replies : list (request_failure * string + Response);
  wire_clock : datetime
}.

Definition wire_get (url : string) (headers : option headers_t) (timeout : Z) (w : Wire)
    : (request_failure * string + Response) * Wire :=
  match replies w with
  | [] => (inl (ConnectionError, "unreachable"), w)
  | a :: rest => (a, {| replies := rest; wire_clock := wire_clock w |})
  end.

Definition wire_now (w : Wire) : datetime * Wire := (wire_clock w, w).

Definition wired (answers : list (request_failure * string + Response)) (t : datetime)
    : State Wire :=
  {| CACHE := ∅; world := {| replies := answers; wire_clock := t |}; upstream_calls := [] |}.

Definition fetch_over_wire :=
  fetch_and_cache Wire (get_raise_for_status_json Wire wire_get) wire_now.

Definition service_unavailable : Response :=
  {| status_code := 503;
     status_message := "503 Server Error: Service Unavailable";
     json := inr (VStr "try later") |}.

Definition not_modified : Response :=
  {| status_code := 304;
     status_message := "";
     json := inr (VStr "copy") |}.

(** A 503, though its body is JSON, gives the fallback and caches nothing. *)
Lemma fetch_failure_run :
  exists s',
    fetch_over_wire "https://example.org/data" None (VStr "fallback") None
      (wired [inr service_unavailable] 0)
    = (Ok (VStr "fallback"), s') /\
    CACHE s' = ∅.
Proof.
  destruct (fetch_and_cache_failure_returns_fallback Wire wire_get wire_now
              (wired [inr service_unavailable] 0) "https://example.org/data" None
              (VStr "fallback") None 0
              {| replies := [inr service_unavailable]; wire_clock := 0 |}
              (inr service_unavailable) {| replies := []; wire_clock := 0 |}
              eq_refl eq_refl eq_refl)
    as [Hfailed _].
  destruct Hfailed as (s' & H1 & H2 & _).
  - left. simpl. lia.
  - exists s'. split; [exact H1 | exact H2].
Defined.

(** C1, as the specification has it, fails: 304 is not a 2xx status, yet a
    304 response with a decodable body is not answered with the fallback;
    its body is returned and cached. *)
Lemma not_modified_body_is_cached :
  ~ 200 <= status_code not_modified < 300 /\
  exists s',
    fetch_over_wire "https://example.org/data" None (VStr "fallback") None
      (wired [inr not_modified] 0)
    = (Ok (VStr "copy"), s') /\
    VStr "copy" <> VStr "fallback" /\
    CACHE s' !! "https://example.org/data"
    = Some {| data := VStr "copy"; timestamp := 0 |}.
Proof.
  split; [simpl; lia |].
  eexists. split; [reflexivity |]. split; [discriminate | reflexivity].
Qed.

(** One microsecond before the hour is over a second fetch is served from
    the cache; at the full hour it goes to the upstream, once. *)
Lemma fetch_again_around_ttl :
  let first := run_fetch_and_cache "https://example.org/data" None (VStr "fallback") None
                 (start [inr (VStr "payload")] 0) in
  let later (t : datetime) : State Scripted :=
    {| CACHE := CACHE (snd first);
       world := {| pending := [inr (VStr "fresh payload")]; clock := t |};
       upstream_calls := [] |} in
  fst first = Ok (VStr "payload") /\
  run_fetch_and_cache "https://example.org/data" None (VStr "fallback") None
    (later 3599999999)
  = (Ok (VStr "payload"), later 3599999999) /\
  exists s3,
    run_fetch_and_cache "https://example.org/data" None (VStr "fallback") None
      (later 3600000000)
    = (Ok (VStr "fresh payload"), s3) /\
    upstream_calls s3 = ["https://example.org/data"].
Proof.
  destruct (fetch_and_cache_ttl Scripted scripted_get scripted_now
              (start [inr (VStr "payload")] 0) "https://example.org/data" None
              (VStr "fallback") None 0
              {| pending := [inr (VStr "payload")]; clock := 0 |} (VStr "payload") idle)
    as (H1 & _ & H3); [reflexivity | reflexivity | reflexivity |].
  intros first later. split; [exact H1 |]. split.
  - destruct (H3 (later 3599999999) "https://example.org/data" None (VStr "fallback") None
                3599999999 (world (later 3599999999)) eq_refl eq_refl eq_refl)
      as [Hfresh _].
    exact (Hfresh eq_refl).
  - destruct (H3 (later 3600000000) "https://example.org/data" None (VStr "fallback") None
                3600000000 (world (later 3600000000)) eq_refl eq_refl eq_refl)
      as [_ Hstale].
    apply Hstale. discriminate.
Defined.

(** A lookup that cannot reach the upstream gives the dummy payload. *)
Lemma unreachable_lookup_gives_dummy :
  exists s',
    run_air_quality "Tashkent" (start [] 0)
    = (Ok (Payload (VDict [(VStr "aggregated",
                            VDict [(VStr "pm25", VNum 20); (VStr "pm10", VNum 35);
                                   (VStr "no2", VNum 15)]);
                           (VStr "last_updated", VStr "Z");
                           (VStr "locations", VList [])])), s').
Proof.
  exact (air_quality_lookup_failure_dummy Scripted scripted_get scripted_now scripted_now
           plain_isoformat plain_format None (start [] 0) "Tashkent"
           0 idle ConnectionError "unreachable" idle 0 idle
           eq_refl eq_refl eq_refl eq_refl).
Defined.

(** A lookup that succeeds with no stations gives the 404 response. *)
Lemma empty_lookup_gives_404 :
  fst (run_air_quality "Atlantis" (start [inr (obj [("results", VList [])])] 0))
  = Ok not_found_response.
Proof.
  apply (proj2 (air_quality_not_found_iff Scripted scripted_get scripted_now scripted_now
                  plain_isoformat plain_format None
                  (start [inr (obj [("results", VList [])])] 0) "Atlantis" 0
                  {| pending := [inr (obj [("results", VList [])])]; clock := 0 |}
                  404 (VDict [(VStr "detail", VStr "No locations found for this city.")])
                  eq_refl)).
  split; [reflexivity |]. split; [| reflexivity].
  exists (obj [("results", VList [])]), (VList []).
  repeat split; reflexivity.
Defined.

(** Neither the dummy payload nor the 404 response reaches the cache. *)
Lemma fallbacks_leave_cache_empty :
  CACHE (snd (run_air_quality "Tashkent" (start [] 0))) = ∅ /\
  CACHE (snd (run_air_quality "Atlantis" (start [inr (obj [("results", VList [])])] 0))) = ∅.
Proof.
  split.
  - apply (air_quality_fallbacks_not_cached Scripted scripted_get scripted_now scripted_now
             plain_isoformat plain_format None (start [] 0) "Tashkent" 0 idle
             (inl (ConnectionError, "unreachable")) idle eq_refl eq_refl eq_refl).
    left. exists ConnectionError, "unreachable". reflexivity.
  - apply (air_quality_fallbacks_not_cached Scripted scripted_get scripted_now scripted_now
             plain_isoformat plain_format None
             (start [inr (obj [("results", VList [])])] 0) "Atlantis" 0
             {| pending := [inr (obj [("results", VList [])])]; clock := 0 |}
             (inr (obj [("results", VList [])])) idle eq_refl eq_refl eq_refl).
    right. exists (obj [("results", VList [])]), (VList []). repeat split; reflexivity.
Defined.

(** C6, as the specification has it, fails: with the upstream unreachable
    [current_weather] raises an [HTTPException] to its caller instead of
    returning a value; and [forecast] raises a [TypeError] when its forecast
    call fails and the current-weather call answers with a null
    temperature. *)
Lemma current_weather_raises_when_unreachable :
  fst (run_current_weather 41 69 (start [] 0))
  = Raise (HTTPException 502 "Open-Meteo request failed: unreachable") /\
  fst (run_forecast 41 69 5
         (start [inl (Timeout, "timed out");
                 inr (obj [("current_weather", obj [("temperature", VNone)])])] 0))
  = Raise TypeError.
Proof. split; reflexivity. Qed.

(** With the upstream unreachable, [fetch_and_cache] still returns a value
    and [current_weather] raises its 502. *)
Lemma unreachable_upstream_run :
  (exists v, fst (run_fetch_and_cache "https://example.org/data" None (VStr "fallback") None
                    (start [] 0)) = Ok v) /\
  fst (run_current_weather 41 69 (start [] 0))
  = Raise (HTTPException 502 "Open-Meteo request failed: unreachable").
Proof.
  destruct (upstream_failures_absorbed_except_current_weather Scripted scripted_get
              scripted_now scripted_now lowest_uniform plain_isoformat plain_isoformat
              plain_format None) as (H1 & _ & _ & _ & H5).
  split.
  - apply H1.
  - apply (H5 41%Q 69%Q (start [] 0) ConnectionError "unreachable"). reflexivity.
Defined.

Lemma lowest_uniform_range :
  forall a b w, (a <= b)%Q -> (a <= fst (lowest_uniform a b w) <= b)%Q.
Proof. intros a b w H. simpl. split; [apply Qle_refl | exact H]. Defined.

(** A five-day fallback forecast has four series of five entries. *)
Lemma five_day_fallback_forecast :
  exists dates tmax tmin precip s',
    run_forecast 41 69 5 (start [] 0) = (Ok (forecast_payload dates tmax tmin precip), s') /\
    length dates = 5%nat /\ length tmax = 5%nat /\
    length tmin = 5%nat /\ length precip = 5%nat.
Proof.
  destruct (forecast_fallback_series Scripted scripted_get scripted_now lowest_uniform
              lowest_uniform_range plain_isoformat plain_format (start [] 0) 41 69 5
              ConnectionError "unreachable" idle (VNum 20)
              {| CACHE := ∅; world := idle;
                 upstream_calls := [forecast_url plain_format 41 69 5;
                                    current_weather_url plain_format 41 69] |}
              20 0 idle)
    as (dates & tmax & tmin & precip & s' & E & L1 & L2 & L3 & L4 & _).
  - lia.
  - reflexivity.
  - reflexivity.
  - reflexivity.
  - reflexivity.
  - vm_compute. split; discriminate.
  - exists dates, tmax, tmin, precip, s'. repeat split; assumption.
Defined.

(** Two distinct city names among three locations come back once each, in
    ascending order; locations without a city, and an unreachable upstream,
    give Tashkent, New York and Delhi. *)
Lemma two_cities_sorted :
  let three_cities :=
    VDict [(VStr "cities",
            VList [VDict [(VStr "city", VStr "Tashkent")];
                   VDict [(VStr "city", VStr "New York")];
                   VDict [(VStr "city", VStr "Delhi")]])] in
  fst (run_get_cities "UZ" (start [inr two_cities] 0))
  = Ok (VDict [(VStr "cities",
                VList [VDict [(VStr "city", VStr "Samarkand")];
                       VDict [(VStr "city", VStr "Tashkent")]])]) /\
  fst (run_get_cities "UZ" (start [inr no_cities] 0)) = Ok three_cities /\
  fst (run_get_cities "UZ" (start [] 0)) = Ok three_cities.
Proof.
  intros three_cities.
  pose proof (get_cities_sorted_or_fallback Scripted scripted_get scripted_now
                plain_format None) as [Hfetched Hfailed].
  split; [|split].
  - destruct (Hfetched (start [inr two_cities] 0) "UZ" two_cities
                (snd (run_fetch_and_cache (cities_url "UZ") (Some [])
                        (VDict [(VStr "results", VList [])]) (Some "cities_UZ")
                        (start [inr two_cities] 0)))
                [located "Tashkent"; located "Samarkand"; located "Tashkent"])
      as (cities & E & _ & _).
    + reflexivity.
    + reflexivity.
    + repeat constructor.
    + reflexivity.
  - destruct (Hfetched (start [inr no_cities] 0) "UZ" no_cities
                (snd (run_fetch_and_cache (cities_url "UZ") (Some [])
                        (VDict [(VStr "results", VList [])]) (Some "cities_UZ")
                        (start [inr no_cities] 0)))
                [obj [("name", VStr "station")];
                 obj [("name", VStr "other"); ("boundary", VNone)]])
      as (cities & E & Hiff & _).
    + reflexivity.
    + reflexivity.
    + repeat constructor.
    + rewrite (proj2 Hiff eq_refl) in E. exact (f_equal fst E).
  - exact (Hfailed (start [] 0) "UZ" 0 idle ConnectionError "unreachable" idle
             eq_refl eq_refl eq_refl).
Defined.

(** Stations reporting pm25 = 10, 20 and 30 aggregate to 20. *)
Lemma pm25_mean_of_10_20_30 :
  exists aggregated t s' m,
    run_air_quality "Tashkent" (start all_report 0)
    = (Ok (Payload (VDict [(VStr "aggregated", VDict aggregated);
                           (VStr "last_updated", VStr (plain_isoformat t +:+ "Z"));
                           (VStr "locations",
                            VList [reading "A" "pm25" 10; reading "B" "pm25" 20;
                                   reading "C" "pm25" 30])])), s') /\
    dict_lookup (VStr "pm25") aggregated = Some (VNum m) /\ (m == 20)%Q /\
    dict_lookup (VStr "pm10") aggregated = None.
Proof.
  destruct (air_quality_aggregated_is_mean Scripted scripted_get scripted_now scripted_now
              plain_isoformat plain_format None (start all_report 0) "Tashkent" 0
              {| pending := all_report; clock := 0 |}
              (obj [("results", VList three_named)])
              {| pending := tl all_report; clock := 0 |}
              three_named
              [(VStr "A", latest [reading "A" "pm25" 10]);
               (VStr "B", latest [reading "B" "pm25" 20]);
               (VStr "C", latest [reading "C" "pm25" 30])]
              idle)
    as (aggregated & t & stations & s' & E & Hst & H).
  - reflexivity.
  - reflexivity.
  - reflexivity.
  - reflexivity.
  - discriminate.
  - repeat constructor.
  - reflexivity.
  - repeat constructor.
  - assert (S : stations = [reading "A" "pm25" 10; reading "B" "pm25" 20;
                            reading "C" "pm25" 30]) by (rewrite Hst; reflexivity).
    rewrite S in E, H.
    exists aggregated, t, s', (mean [10; 20; 30]%Q).
    split; [exact E |]. rewrite !H. repeat split; reflexivity.
Defined.

(** Three stations, the second of which times out, one record each from the
    other two: all three are queried and two records come back. *)
Lemma middle_station_fails_two_records :
  exists aggregated t stations s',
    run_air_quality "Tashkent" (start middle_fails 0)
    = (Ok (Payload (VDict [(VStr "aggregated", VDict aggregated);
                           (VStr "last_updated", VStr (plain_isoformat t +:+ "Z"));
                           (VStr "locations", VList stations)])), s') /\
    upstream_calls s'
    = [loc_url "Tashkent"; latest_url plain_format (VStr "A");
       latest_url plain_format (VStr "B"); latest_url plain_format (VStr "C")] /\
    stations = [reading "A" "pm25" 10; reading "C" "pm25" 30] /\
    length stations = 2%nat.
Proof.
  destruct (air_quality_partial_failure Scripted scripted_get scripted_now scripted_now
              plain_isoformat plain_format None (start middle_fails 0) "Tashkent" 0
              {| pending := middle_fails; clock := 0 |}
              (obj [("results", VList three_named)])
              {| pending := tl middle_fails; clock := 0 |}
              three_named
              [(VStr "A", latest [reading "A" "pm25" 10]);
               (VStr "B", inl (Timeout, "timed out"));
               (VStr "C", latest [reading "C" "pm25" 30])]
              idle)
    as (aggregated & t & stations & s' & E & Hcalls & Hst & _ & H3).
  - reflexivity.
  - reflexivity.
  - reflexivity.
  - reflexivity.
  - discriminate.
  - repeat constructor.
  - reflexivity.
  - repeat constructor.
  - destruct (H3 (VStr "A") (obj [("results", VList [reading "A" "pm25" 10])])
                 (VStr "B") (Timeout, "timed out")
                 (VStr "C") (obj [("results", VList [reading "C" "pm25" 30])]) eq_refl)
      as [Hrec Hlen].
    exists aggregated, t, stations, s'.
    split; [exact E |]. split; [exact Hcalls |]. split; [exact Hrec |].
    apply Hlen; reflexivity.
Defined.

(** C3, as the specification has it, fails: with three stations of which
    the second fails, the run returns three raw records, not two, when the
    first station's call returns two records. *)
Lemma middle_station_fails_three_records :
  fst (latest_answers Scripted scripted_get plain_format None three_named
         {| pending := tl middle_fails_first_has_two; clock := 0 |})
  = [(VStr "A", latest [reading "A" "pm25" 10; reading "A" "pm10" 40]);
     (VStr "B", inl (Timeout, "timed out"));
     (VStr "C", latest [reading "C" "pm25" 30])] /\
  exists aggregated t s',
    run_air_quality "Tashkent" (start middle_fails_first_has_two 0)
    = (Ok (Payload (VDict [(VStr "aggregated", VDict aggregated);
                           (VStr "last_updated", VStr (plain_isoformat t +:+ "Z"));
                           (VStr "locations",
                            VList [reading "A" "pm25" 10; reading "A" "pm10" 40;
                                   reading "C" "pm25" 30])])), s') /\
    upstream_calls s'
    = [loc_url "Tashkent"; latest_url plain_format (VStr "A");
       latest_url plain_format (VStr "B"); latest_url plain_format (VStr "C")] /\
    length [reading "A" "pm25" 10; reading "A" "pm10" 40; reading "C" "pm25" 30] <> 2%nat.
Proof.
  split; [reflexivity |].
  do 3 eexists. split; [reflexivity |].
  split; [reflexivity | discriminate].
Qed.

(** *** Runs of the other endpoints *)

(** An entry filed for /cities is still there after a run of /air-quality
    and after a run of /forecast. *)
Lemma cities_entry_survives_other_endpoints :
  let s : State Scripted :=
    {| CACHE := {["cities_UZ" := {| data := two_cities; timestamp := 0 |}]};
       world := idle; upstream_calls := [] |} in
  is_Some (CACHE (snd (run_air_quality "Tashkent" s)) !! "cities_UZ") /\
  is_Some (CACHE (snd (run_forecast 41 69 5 s)) !! "cities_UZ").
Proof.
  intros s.
  destruct (cache_entries_are_never_removed Scripted scripted_get scripted_now scripted_now
              lowest_uniform plain_isoformat plain_isoformat plain_format None s "cities_UZ")
    as (H1 & _ & _ & _ & _ & H6).
  - eexists. reflexivity.
  - split; [apply H1 | apply H6].
Defined.

(** With the upstream unreachable, three readings are made up and nothing
    is cached. *)
Lemma three_synthetic_readings :
  exists results s',
    run_measurements "station" "pm25" 3 (start [] 0)
    = (Ok (VDict [(VStr "results", VList results)]), s') /\
    CACHE s' = ∅ /\
    length results = 3%nat.
Proof.
  destruct (measurements_fallback_series Scripted scripted_get scripted_now scripted_now
              plain_isoformat plain_format None (start [] 0) "station" "pm25" 3
              [0; 0; 0] idle 0 idle ConnectionError "unreachable" idle)
    as (results & s' & E & Hc & _ & Hlen & _).
  - reflexivity.
  - repeat constructor; vm_compute; discriminate.
  - reflexivity.
  - reflexivity.
  - reflexivity.
  - exists results, s'. split; [exact E |]. split; [exact Hc | exact Hlen].
Defined.

(** One hour after [datetime.min] cannot be taken off the clock: the call
    raises although the upstream has the series, and asks for nothing. *)
Lemma measurements_at_the_beginning_of_time :
  let run := run_measurements "station" "pm25" 2 (start [inr (VStr "series")] datetime_min) in
  upstream_calls (snd run) = [] /\ CACHE (snd run) = ∅.
Proof.
  intros run.
  destruct (measurements_raises_before_any_request Scripted scripted_get scripted_now
              scripted_now plain_isoformat plain_format None
              (start [inr (VStr "series")] datetime_min) "station" "pm25" 2 OverflowError)
    as (_ & _ & Hu & Hc).
  - reflexivity.
  - split; [exact Hu | exact Hc].
Defined.

(** The series fetched for location [a_b] and parameter [c] is what a call
    for location [a] and parameter [b_c] gets a moment later, with another
    limit and without a request. *)
Lemma measurements_key_collision :
  let first := run_measurements "a_b" "c" 2 (start [inr (VStr "series")] 0) in
  let later : State Scripted :=
    {| CACHE := CACHE (snd first);
       world := {| pending := [inr (VStr "other series")]; clock := 1000 |};
       upstream_calls := [] |} in
  fst first = Ok (VStr "series") /\
  upstream_calls (snd (run_measurements "a" "b_c" 5 later)) = [] /\
  (fst (run_measurements "a" "b_c" 5 later) = Ok (VStr "series") \/
   fst (run_measurements "a" "b_c" 5 later) = Raise OverflowError).
Proof.
  intros first later.
  destruct (measurements_cache_ignores_limit Scripted scripted_get scripted_now scripted_now
              plain_isoformat plain_format None (start [inr (VStr "series")] 0) "a_b" "c" 2
              [synthetic_reading plain_isoformat 0 0; synthetic_reading plain_isoformat 1 0]
              (start [inr (VStr "series")] 0) 0
              {| pending := [inr (VStr "series")]; clock := 0 |} (VStr "series") idle)
    as [H1 H2]; [reflexivity | reflexivity | reflexivity | reflexivity |].
  split; [exact H1 |].
  apply (H2 later "a" "b_c" 5 1000 (world later)); [reflexivity | reflexivity | reflexivity |].
  reflexivity.
Defined.

(** A country record loses every field but its code and name. *)
Lemma country_record_is_cut_down :
  let body := obj [("results", VList [obj [("id", VNum 1); ("code", VStr "UZ");
                                           ("name", VStr "Uzbekistan")]])] in
  fst (run_get_countries (start [inr body] 0))
  = Ok (VDict [(VStr "countries", VList [country_record "UZ" "Uzbekistan"])]).
Proof.
  intros body.
  destruct (get_countries_projection Scripted scripted_get scripted_now None
              (start [inr body] 0) body
              (snd (run_fetch_and_cache countries_url (Some []) countries_fallback
                      (Some "countries") (start [inr body] 0)))
              [obj [("id", VNum 1); ("code", VStr "UZ"); ("name", VStr "Uzbekistan")]])
    as [H _]; [reflexivity | reflexivity |].
  exact (f_equal fst (H eq_refl)).
Defined.


(** A body that is a JSON string is cached all the same: the listing raises
    on it, and raises again ten microseconds later without asking the
    upstream, which by then has a proper answer. *)
Lemma unreadable_body_is_replayed :
  let first := run_get_countries (start [inr (VStr "oops")] 0) in
  let later : State Scripted :=
    {| CACHE := CACHE (snd first);
       world := {| pending := [inr (obj [("results", VList [])])]; clock := 10 |};
       upstream_calls := [] |} in
  fst first = Raise AttributeError /\
  run_get_countries later = (Raise AttributeError, later).
Proof.
  intros first later.
  destruct (proj1 (listings_cache_the_body_unread Scripted scripted_get scripted_now None
                     (start [inr (VStr "oops")] 0) 0
                     {| pending := [inr (VStr "oops")]; clock := 0 |} (VStr "oops") idle
                     eq_refl) eq_refl eq_refl)
    as (H1 & H2 & H3).
  split; [exact H1 |].
  apply (H3 later 10 (world later)); [exact H2 | reflexivity | reflexivity].
Defined.

(** The aggregated payload of a run is returned again one microsecond
    before the hour is over, and looked up afresh at the full hour. *)
Lemma air_quality_again_around_ttl :
  let first := run_air_quality "Tashkent" (start all_report 0) in
  let result := match fst first with Ok (Payload r) => r | _ => VNone end in
  let later (t : datetime) : State Scripted :=
    {| CACHE := CACHE (snd first); world := {| pending := []; clock := t |};
       upstream_calls := [] |} in
  run_air_quality "Tashkent" (later 3599999999)
  = (Ok (Payload result), later 3599999999) /\
  exists calls,
    upstream_calls (snd (run_air_quality "Tashkent" (later 3600000000)))
    = loc_url "Tashkent" :: calls.
Proof.
  intros first result later.
  destruct (air_quality_ttl Scripted scripted_get scripted_now scripted_now
              plain_isoformat plain_format None (start all_report 0) "Tashkent" 0
              {| pending := all_report; clock := 0 |}
              (obj [("results", VList three_named)])
              {| pending := tl all_report; clock := 0 |} result)
    as [H1 H2]; [reflexivity | reflexivity | reflexivity | reflexivity |].
  split.
  - destruct (H2 (later 3599999999) 3599999999 (world (later 3599999999)) H1 eq_refl)
      as [Hfresh _].
    exact (Hfresh eq_refl).
  - destruct (H2 (later 3600000000) 3600000000 (world (later 3600000000)) H1 eq_refl)
      as [_ Hstale].
    apply Hstale. discriminate.
Defined.


(** A five-day naive forecast from 20 degrees: minima below maxima, and
    precipitation between 0 and 5. *)
Lemma five_day_fallback_ranges :
  let v := match fst (run_forecast 41 69 5 (start [] 0)) with Ok v => v | _ => VNone end in
  exists dates tmax tmin precip,
    v = forecast_payload dates tmax tmin precip /\
    (forall lo hi, In (VNum lo) tmin -> In (VNum hi) tmax -> (lo <= hi)%Q) /\
    Forall (fun y => exists p, y = VNum p /\ (0 <= p <= 5)%Q) precip.
Proof.
  intros v.
  destruct (naive_forecast_ranges Scripted scripted_get scripted_now lowest_uniform
              lowest_uniform_range plain_isoformat plain_format (start [] 0) 41 69 5
              ConnectionError "unreachable" idle (VNum 20)
              {| CACHE := ∅; world := idle;
                 upstream_calls := [forecast_url plain_format 41 69 5;
                                    current_weather_url plain_format 41 69] |}
              20 v)
    as (dates & tmax & tmin & precip & E & _ & _ & H & Hp);
    [reflexivity | reflexivity | reflexivity | reflexivity |].
  exists dates, tmax, tmin, precip. split; [exact E |]. split; [exact H | exact Hp].
Defined.

(** A null temperature in the answer to the second call makes the naive
    forecast raise. *)
Lemma null_temperature_raises :
  fst (run_forecast 41 69 5
         (start [inl (Timeout, "timed out");
                 inr (obj [("current_weather", obj [("temperature", VNone)])])] 0))
  = Raise TypeError.
Proof.
  apply (naive_forecast_needs_a_number Scripted scripted_get scripted_now lowest_uniform
           plain_isoformat plain_format
           (start [inl (Timeout, "timed out");
                   inr (obj [("current_weather", obj [("temperature", VNone)])])] 0)
           41 69 5 Timeout "timed out"
           {| pending := [inr (obj [("current_weather", obj [("temperature", VNone)])])];
              clock := 0 |}
           VNone
           {| CACHE := ∅; world := idle;
              upstream_calls := [forecast_url plain_format 41 69 5;
                                 current_weather_url plain_format 41 69] |}
           0 idle).
  - lia.
  - reflexivity.
  - reflexivity.
  - reflexivity.
  - reflexivity.
  - vm_compute. split; discriminate.
Defined.

(** Three stations, the second of which reports a null: all three are
    queried, the call raises and nothing is cached. *)
Lemma null_reading_loses_the_answer :
  let run := run_air_quality "Tashkent" (start middle_reports_null 0) in
  fst run = Raise TypeError /\ CACHE (snd run) = ∅ /\
  length (upstream_calls (snd run)) = 4%nat.
Proof.
  intros run.
  pose proof (air_quality_non_numeric_value_raises Scripted scripted_get scripted_now
                scripted_now plain_isoformat plain_format None
                (start middle_reports_null 0) "Tashkent" 0
                {| pending := middle_reports_null; clock := 0 |}
                (obj [("results", VList three_named)])
                {| pending := tl middle_reports_null; clock := 0 |}
                three_named
                [(VStr "A", latest [reading "A" "pm25" 10]);
                 (VStr "B", latest [obj [("location", VStr "B");
                                         ("measurements",
                                          VList [obj [("parameter", VStr "pm25");
                                                      ("value", VNone)]])]]);
                 (VStr "C", latest [reading "C" "pm25" 30])]
                idle) as H.
  assert (E : run = (Raise TypeError,
                     {| CACHE := ∅; world := idle;
                        upstream_calls := [loc_url "Tashkent"; latest_url plain_format (VStr "A");
                                           latest_url plain_format (VStr "B");
                                           latest_url plain_format (VStr "C")] |})).
  { apply H.
    - reflexivity.
    - reflexivity.
    - reflexivity.
    - reflexivity.
    - discriminate.
    - repeat constructor.
    - reflexivity.
    - repeat constructor.
    - apply List.Exists_cons_tl, List.Exists_cons_hd. reflexivity. }
  rewrite E. repeat split; reflexivity.
Defined.
